(** * tarsnap: host discovery, history synchronisation and deduplication

    A shallow embedding of the three revisions of the program kept in the
    repository:

    - [src/main.go]            the latest revision ([-install], [-delay],
                               IPv4 validation, the ten byte write filter);
    - [src/unnamed/part_000]   an earlier revision ([-ip], [-launchd],
                               [-show-full], no write filter);
    - [src/unnamed/part_001]   an earlier revision still ([-ip], [-launchd],
                               no aggregation at all).

    Go strings are byte strings, so a Go [string] is a Rocq [string] (one
    [ascii] per byte) and Go's [len] is [String.length].  A Go
    [map[string]struct{}] is a [gmap string ()].  The order in which Go
    ranges over a map is unspecified; it is an explicit oracle here.

    Diagnostics written with the [log] package (standard error) are not
    part of the model, except for the message of a fatal one.  What the
    program prints with [fmt], the commands it executes and the files it
    writes are.  Error values carry no text: where the program prints one,
    or panics with one, the name of the call that failed stands for it. *)

From Stdlib Require Import ZArith NArith Ascii String List Permutation Lia.
From stdpp Require Import base option list gmap strings fin_maps fin_sets pretty.

Set Warnings "-clear-no-such-hyp,-register-all".

(** ** Bytes *)

Definition LF : ascii := "010"%char.
Definition CR : ascii := "013"%char.
Definition DQ : ascii := "034"%char.
Definition slash : ascii := "/"%char.
Definition dot : ascii := "."%char.

Definition nl : string := String LF EmptyString.

(** [strings.Contains(s, sub)] for a one byte [sub]. *)
Fixpoint has_byte (b : ascii) (s : string) : bool :=
  match s with
  | EmptyString => false
  | String c s' => Ascii.eqb c b || has_byte b s'
  end.

(** [strings.Contains(s, sub)]. *)
Fixpoint Contains (s sub : string) : bool :=
  String.prefix sub s ||
  match s with
  | EmptyString => false
  | String _ s' => Contains s' sub
  end.

(** [strings.Split(s, sep)] for a one byte separator: never empty. *)
Fixpoint Split (sep : ascii) (s : string) : list string :=
  match s with
  | EmptyString => [EmptyString]
  | String c s' =>
      if Ascii.eqb c sep then EmptyString :: Split sep s'
      else match Split sep s' with
           | [] => [String c EmptyString]
           | x :: xs => String c x :: xs
           end
  end.

(** [strings.Join(elems, sep)]. *)
Fixpoint strings_Join (elems : list string) (sep : string) : string :=
  match elems with
  | [] => EmptyString
  | [e] => e
  | e :: rest => e +:+ sep +:+ strings_Join rest sep
  end.

(** [strings.HasSuffix] and [strings.TrimSuffix]. *)
Definition HasSuffix (s suffix : string) : bool :=
  (String.length suffix <=? String.length s)%nat &&
  String.eqb
    (substring (String.length s - String.length suffix) (String.length suffix) s)
    suffix.

Definition TrimSuffix (s suffix : string) : string :=
  if HasSuffix s suffix
  then substring 0 (String.length s - String.length suffix) s
  else s.

(** ** [bufio.Scanner] with the default split function [ScanLines]

    A line is the text before a line feed, without the line feed and without
    one carriage return before it; the unterminated text at the end of the
    file is a line when it is not empty.  The scanner gives up with
    [ErrTooLong] on a line that does not fit its buffer of
    [MaxScanTokenSize] bytes. *)

(** The text between line feeds, before the carriage return is dropped. *)
Fixpoint raw_lines (s : string) : list string :=
  match s with
  | EmptyString => []
  | String c s' =>
      if Ascii.eqb c LF then EmptyString :: raw_lines s'
      else match raw_lines s' with
           | [] => [String c EmptyString]
           | l :: ls => String c l :: ls
           end
  end.

(** [dropCR]: one trailing carriage return is removed. *)
Fixpoint dropCR (s : string) : string :=
  match s with
  | EmptyString => EmptyString
  | String c s' =>
      match s' with
      | EmptyString => if Ascii.eqb c CR then EmptyString else s
      | String _ _ => String c (dropCR s')
      end
  end.

Definition MaxScanTokenSize : N := 65536.

Definition too_long (raw : string) : bool :=
  (MaxScanTokenSize <=? N.of_nat (String.length raw))%N.

(** [for scanner.Scan() { ... scanner.Text() ... }] followed by
    [scanner.Err()]: the lines, or [None] when [Err] is not nil.  Both
    callers discard the lines read before an error. *)
Definition scan_lines (content : string) : option (list string) :=
  let raws := raw_lines content in
  if existsb too_long raws then None else Some (map dropCR raws).

(** [fmt.Fprintln(file, line)] appends the line and a line feed. *)
Definition Fprintln (file line : string) : string := file +:+ line +:+ nl.

(** ** [path/filepath] on a Unix system *)

(** The elements of a path that [Clean] keeps. *)
Fixpoint clean_elems (rooted : bool) (stack : list string) (elems : list string)
  : list string :=
  match elems with
  | [] => rev stack
  | e :: rest =>
      if String.eqb e EmptyString || String.eqb e "." then
        clean_elems rooted stack rest
      else if String.eqb e ".." then
        match stack with
        | top :: below =>
            if String.eqb top ".." then clean_elems rooted (e :: stack) rest
            else clean_elems rooted below rest
        | [] =>
            if rooted then clean_elems rooted [] rest
            else clean_elems rooted [e] rest
        end
      else clean_elems rooted (e :: stack) rest
  end.

Definition IsAbs (path : string) : bool := String.prefix "/" path.

(** [filepath.Clean]. *)
Definition Clean (path : string) : string :=
  let rooted := IsAbs path in
  let out := strings_Join (clean_elems rooted [] (Split slash path)) "/" in
  if rooted then "/" +:+ out
  else if String.eqb out EmptyString then "." else out.

(** [filepath.Join]: leading empty elements are ignored. *)
Fixpoint Join (elems : list string) : string :=
  match elems with
  | [] => EmptyString
  | e :: rest =>
      if String.eqb e EmptyString then Join rest
      else Clean (strings_Join elems "/")
  end.

(** Trailing slashes removed, as [Base] does first. *)
Fixpoint strip_trailing_slashes (s : string) : string :=
  match s with
  | EmptyString => EmptyString
  | String c s' =>
      match strip_trailing_slashes s' with
      | EmptyString => if Ascii.eqb c slash then EmptyString else String c EmptyString
      | t => String c t
      end
  end.

(** [filepath.Base]. *)
Definition Base (path : string) : string :=
  if String.eqb path EmptyString then "."
  else
    let p := List.last (Split slash (strip_trailing_slashes path)) EmptyString in
    if String.eqb p EmptyString then "/" else p.

(** [filepath.Ext]: from the last dot of the last element. *)
Fixpoint Ext (path : string) : string :=
  match path with
  | EmptyString => EmptyString
  | String c s' =>
      if has_byte slash s' || has_byte dot s' then Ext s'
      else if Ascii.eqb c dot then path else EmptyString
  end.

(** The path up to and including its last slash. *)
Fixpoint upto_last_slash (path : string) : string :=
  match path with
  | EmptyString => EmptyString
  | String c s' =>
      if has_byte slash s' then String c (upto_last_slash s')
      else if Ascii.eqb c slash then String c EmptyString else EmptyString
  end.

(** [filepath.Dir]. *)
Definition Dir (path : string) : string := Clean (upto_last_slash path).

(** [filepath.Abs], given the result of [os.Getwd]. *)
Definition Abs (getwd : option string) (path : string) : option string :=
  if IsAbs path then Some (Clean path)
  else match getwd with
       | Some wd => Some (Join [wd; path])
       | None => None
       end.

(** ** [time.Duration] *)

(** A duration is a number of nanoseconds. *)
Definition Second : Z := 1000000000.
Definition Minute : Z := 60 * Second.

(** [int(d.Seconds())].  [Seconds] is the float
    [float64(sec) + float64(nsec)/1e9]; the conversion to [int] truncates
    towards zero.  For a whole number of seconds, as every duration written
    in minutes is, the float is exact and the result is the quotient; the
    rounding of a fractional part is not modelled. *)
Definition Seconds_int (d : Z) : Z := Z.quot d Second.

(** [strconv.Itoa]. *)
Definition Itoa (n : Z) : string := pretty n.

(** ** [inet.af/netaddr]

    The library is not part of the repository: [netaddr.ParseIP] is a
    parameter of the model (a field of [Env] below).  An address is either an
    IPv4 address or an IPv6 address with a zone; [Is4] tells them apart and
    is false for an IPv4-mapped IPv6 address. *)

Inductive netaddr_IP :=
| IPv4 (a b c d : Z)
| IPv6 (addr : Z) (zone : string).

Definition Is4 (ip : netaddr_IP) : bool :=
  match ip with
  | IPv4 _ _ _ _ => true
  | IPv6 _ _ => false
  end.

(** A parser for the dotted decimal form, four fields of digits below 256,
    which is the IPv4 form [netaddr.ParseIP] accepts; it parses no IPv6
    address.  It serves as a sample library wherever one is needed. *)
Definition digit_val (c : ascii) : option Z :=
  let n := Z.of_N (N_of_ascii c) in
  if (48 <=? n)%Z && (n <=? 57)%Z then Some (n - 48)%Z else None.

Fixpoint field_val (acc : Z) (s : string) : option Z :=
  match s with
  | EmptyString => Some acc
  | String c s' =>
      match digit_val c with
      | Some d => if (acc * 10 + d <=? 255)%Z then field_val (acc * 10 + d)%Z s' else None
      | None => None
      end
  end.

Definition parse_field (s : string) : option Z :=
  if String.eqb s EmptyString then None else field_val 0 s.

Definition parseIPv4 (s : string) : option netaddr_IP :=
  match Split dot s with
  | [a; b; c; d] =>
      match parse_field a, parse_field b, parse_field c, parse_field d with
      | Some a, Some b, Some c, Some d => Some (IPv4 a b c d)
      | _, _, _, _ => None
      end
  | _ => None
  end.

(** ** The directory of captures

    The program reads and writes one directory, [./data/bash_history]
    relative to its working directory.  It is a tree: [filepath.Walk]
    descends into sub-directories, and the callbacks skip the directories
    themselves.  The entries of a directory are kept in the order in which
    [Walk] lists them (sorted by name). *)

Inductive node :=
| File (content : string)          (* a file that can be opened and read *)
| Unreadable                       (* a file that the process may not open *)
| BadDir                           (* a directory that it may neither list nor write to *)
| Directory (entries : list (string * node)).

(** What [filepath.Walk] hands to its callback, one call after the other:
    the path, and what is found there. *)
Inductive Visit :=
| VFile (content : string)
| VNoOpen
| VDir
| VWalkErr.

(** [filepath.Walk(root, fn)], as the sequence of calls of [fn] when no call
    returns an error.  A directory is visited before its entries; one that
    cannot be listed is reported with the error.  (Older versions of Go call
    [fn] once without the error before that; both callbacks of the program
    answer such a call on a directory by doing nothing.) *)
Fixpoint Walk (path : string) (n : node) : list (string * Visit) :=
  match n with
  | File c => [(path, VFile c)]
  | Unreadable => [(path, VNoOpen)]
  | BadDir => [(path, VWalkErr)]
  | Directory es =>
      (path, VDir) ::
      (fix walk_entries (es : list (string * node)) : list (string * Visit) :=
         match es with
         | [] => []
         | (name, child) :: es' => Walk (Join [path; name]) child ++ walk_entries es'
         end) es
  end.

(** [os.Create] of [name] in a directory, followed by the writes that give
    the file its content: an existing file is replaced where it is, a new
    one takes its place in the order of names; creating over a directory, or
    over a file that may not be opened, fails. *)
Fixpoint create_entry (name content : string) (es : list (string * node))
  : option (list (string * node)) :=
  match es with
  | [] => Some [(name, File content)]
  | (n, x) :: es' =>
      if String.eqb n name then
        match x with
        | Directory _ | BadDir | Unreadable => None
        | File _ => Some ((name, File content) :: es')
        end
      else if String.ltb name n then Some ((name, File content) :: es)
      else match create_entry name content es' with
           | Some r => Some ((n, x) :: r)
           | None => None
           end
  end.

(** ** The order of [range] over a map

    Go leaves it unspecified and changes it from one loop to the next.  An
    oracle rearranges the keys; all that is known of it is that it neither
    loses nor invents a key. *)
Record MapOrder := {
  range_order : list string -> list string;
  range_order_perm : forall l, Permutation (range_order l) l
}.

(** [for k := range m]: the keys in the order of the oracle. *)
Definition range_keys {V} (o : MapOrder) (m : gmap string V) : list string :=
  range_order o (map_to_list m).*1.

Definition order_id : MapOrder :=
  {| range_order := fun l => l; range_order_perm := fun l => Permutation_refl l |}.

Definition order_rev : MapOrder :=
  {| range_order := @rev string;
     range_order_perm := fun l => Permutation_sym (Permutation_rev l) |}.

(** ** Sets of lines: [map[string]struct{}] *)

Abbreviation LineSet := (gmap string ()).

(** [uniqueLines[line] = struct{}{}] *)
Definition set_add (line : string) (m : LineSet) : LineSet := <[line := tt]> m.

(** [for _, line := range lines { uniqueLines[line] = struct{}{} }] *)
Definition add_lines (m : LineSet) (lines : list string) : LineSet :=
  foldl (fun acc line => set_add line acc) m lines.

(** [getUniqueLineCount] (main.go 128-134, part_000 116-122). *)
Definition getUniqueLineCount (lines : list string) : nat :=
  size (add_lines ∅ lines).

(** ** The world outside the program

    What the operating system, the external commands and the clock answer
    during one run. *)

(** [terraform output -json] followed by [json.Unmarshal]: the command
    fails, its output is not JSON, or the decoded
    [instance_public_ip.value] (empty when the field is missing). *)
Inductive TfOutcome :=
| TfExecError
| TfBadJSON
| TfValue (v : string).

(** [scp]: it fails, or it has copied the remote history, whose content is
    given, to the local file. *)
Inductive ScpOutcome :=
| ScpError
| ScpCopied (history : string).

Record Env := {
  env_getwd : option string;             (* os.Getwd *)
  env_home : option string;              (* os.UserHomeDir *)
  env_executable : option string;        (* os.Executable *)
  env_args0 : string;                    (* os.Args[0] *)
  env_now : string;                      (* time.Now().Format("20060102_150405") *)
  env_terraform : TfOutcome;
  env_scp : ScpOutcome;
  env_create : string -> bool;           (* does os.Create succeed on this path *)
  env_launchctl_load : bool;             (* does launchctl load succeed *)
  env_launchctl_list : option string;    (* the output of launchctl list, at both calls *)
  env_order : MapOrder;                  (* the order of range over a map *)
  env_ParseIP : string -> option netaddr_IP     (* netaddr.ParseIP *)
}.

(** What a run does that can be observed from outside, the directory of
    captures apart. *)
Inductive Event :=
| Exec (name : string) (args : list string)   (* exec.Command(name, args...) is run *)
| Create (path content : string)              (* a file is created and written *)
| Print (text : string)                       (* a line on standard output *)
| Sleep (ms : Z).

Record World := {
  histdir : option node;     (* ./data/bash_history, when it exists *)
  trace : list Event
}.

(** How a run ends before its time. *)
Inductive Halt :=
| Fatal (msg : string)       (* log.Fatal, log.Fatalf *)
| Panic (msg : string)       (* panic(err) *)
| Exit (code : Z).           (* os.Exit *)

Inductive Res (A : Type) :=
| Ok (a : A) (w : World)
| Stop (h : Halt) (w : World).
Arguments Ok {A} a w.
Arguments Stop {A} h w.

Definition M (A : Type) : Type := World -> Res A.

Definition ret {A} (a : A) : M A := fun w => Ok a w.

Definition bind {A B} (m : M A) (k : A -> M B) : M B :=
  fun w =>
    match m w with
    | Ok a w' => k a w'
    | Stop h w' => Stop h w'
    end.

Declare Scope run_scope.
Delimit Scope run_scope with run.
Notation "x <- e ;; k" := (bind e (fun x => k))
  (at level 100, e at next level, right associativity) : run_scope.
Notation "e ;; k" := (bind e (fun _ => k))
  (at level 100, right associativity) : run_scope.
Local Open Scope run_scope.

Definition halt {A} (h : Halt) : M A := fun w => Stop h w.

Definition emit (e : Event) : M unit :=
  fun w => Ok tt {| histdir := histdir w; trace := trace w ++ [e] |}.

Definition set_histdir (d : node) : M unit :=
  fun w => Ok tt {| histdir := Some d; trace := trace w |}.

(** [fmt.Println(a, b)]: the operands separated by a space. *)
Definition Println (parts : list string) : M unit :=
  emit (Print (strings_Join parts " ")).

(** The trace of a result, and what it stopped with. *)
Definition world_of {A} (r : Res A) : World :=
  match r with
  | Ok _ w => w
  | Stop _ w => w
  end.

Definition is_exec (name : string) (e : Event) : bool :=
  match e with
  | Exec n _ => String.eqb n name
  | _ => false
  end.

(** Was the command [name] run? *)
Definition ran (name : string) (w : World) : bool :=
  existsb (is_exec name) (trace w).

(** [flag.Parse], seen from the names of the flags on the command line: a
    name that the program has not defined ends the run with status 2, after
    the usage message; -h and -help end it with status 0. *)
Definition flag_Parse (defined given : list string) : M unit :=
  if existsb (fun n => String.eqb n "h" || String.eqb n "help") given
  then halt (Exit 0)
  else if forallb (fun n => existsb (String.eqb n) defined) given
  then ret tt
  else halt (Exit 2).

(** A fold that stops at the first error. *)
Fixpoint foldE {S A : Type} (f : S -> A -> string + S) (s : S) (l : list A)
  : string + S :=
  match l with
  | [] => inr s
  | a :: l' =>
      match f s a with
      | inl e => inl e
      | inr s' => foldE f s' l'
      end
  end.

(** ** Functions that main.go and part_000 share, word for word *)

(** [readLines] (main.go 107-125, part_000 95-113): the number of lines and
    the lines of a file, or an error.  The file is given as [Walk] found
    it. *)
Definition readLines (file : Visit) : option (nat * list string) :=
  match file with
  | VFile content =>
      match scan_lines content with
      | Some lines => Some (length lines, lines)
      | None => None
      end
  | _ => None
  end.

(** The callback of [filepath.Walk] in [getUniqueBashLines]. *)
Definition unique_visit (uniqueLines : LineSet) (pv : string * Visit)
  : string + LineSet :=
  match pv.2 with
  | VWalkErr => inl "Failed to walk through files"
  | VDir => inr uniqueLines
  | VNoOpen => inl "Failed to open file"
  | VFile content =>
      match scan_lines content with
      | Some lines => inr (add_lines uniqueLines lines)
      | None => inl "Failed to scan file"
      end
  end.

(** The set that [getUniqueBashLines] has when the walk is over. *)
Definition unique_set (logDir : string) (d : option node) : string + LineSet :=
  match d with
  | None => inl "Failed to walk through files"
  | Some root => foldE unique_visit ∅ (Walk logDir root)
  end.

(** [getUniqueBashLines] (main.go 137-180, part_000 125-168). *)
Definition getUniqueBashLines (env : Env) (logDir : string) : M (list string) :=
  fun w =>
    match unique_set logDir (histdir w) with
    | inl msg => Stop (Fatal msg) w
    | inr uniqueLines => Ok (range_keys (env_order env) uniqueLines) w
    end.

(** The callback of [filepath.Walk] in the aggregation loop (main.go
    449-463, part_000 312-326): [lineCounts] and [aggregateLines]. *)
Definition aggregate_visit (st : gmap string nat * list string)
    (pv : string * Visit) : string + (gmap string nat * list string) :=
  match pv.2 with
  | VWalkErr => inl "Failed to walk through files"
  | VDir => inr st
  | file =>
      match readLines file with
      | None => inl "Failed to walk through files"
      | Some (fileLines, lines) => inr (<[pv.1 := fileLines]> st.1, st.2 ++ lines)
      end
  end.

(** The aggregation loop. *)
Definition aggregate (localDir : string) : M (gmap string nat * list string) :=
  fun w =>
    match histdir w with
    | None => Stop (Fatal "Failed to walk through files") w
    | Some root =>
        match foldE aggregate_visit (∅, []) (Walk localDir root) with
        | inl msg => Stop (Fatal msg) w
        | inr st => Ok st w
        end
    end.

(** [os.MkdirAll] on the directory of captures. *)
Definition MkdirAll : M unit :=
  fun w =>
    match histdir w with
    | None => set_histdir (Directory []) w
    | Some (Directory _) | Some BadDir => Ok tt w
    | Some (File _) | Some Unreadable => Stop (Fatal "Failed to create directory") w
    end.

(** A file written into the directory of captures. *)
Definition write_file (name content msg : string) : M unit :=
  fun w =>
    match histdir w with
    | Some (Directory es) =>
        match create_entry name content es with
        | Some es' => set_histdir (Directory es') w
        | None => Stop (Fatal msg) w
        end
    | _ => Stop (Fatal msg) w
    end.

(** The [scp] command is run; when it succeeds the capture is in the
    directory. *)
Definition run_scp (env : Env) (args : list string) (capture : string) : M unit :=
  emit (Exec "scp" args) ;;
  match env_scp env with
  | ScpError => halt (Fatal "Failed to execute command")
  | ScpCopied history => write_file capture history "Failed to execute command"
  end.

(** The [terraform] command is run and its output decoded. *)
Definition run_terraform (env : Env) (args : list string) : M string :=
  emit (Exec "terraform" args) ;;
  match env_terraform env with
  | TfExecError => halt (Fatal "Failed to execute command")
  | TfBadJSON => halt (Fatal "Failed to parse JSON")
  | TfValue v => ret v
  end.

(** Templates of [text/template] with fields of the data only. *)
Inductive Seg (D : Type) :=
| Lit (text : string)
| Field (get : D -> string).
Arguments Lit {D} text.
Arguments Field {D} get.

(** A whole line of literal text. *)
Definition Line {D} (text : string) : Seg D := Lit (text +:+ nl).

(** [tmpl.Execute(file, data)]. *)
Definition Execute {D} (tmpl : list (Seg D)) (data : D) : string :=
  foldr (fun seg out =>
           match seg with
           | Lit text => text +:+ out
           | Field get => get data +:+ out
           end) EmptyString tmpl.

Definition quoted (s : string) : string := String DQ s +:+ String DQ EmptyString.

(** ** src/main.go *)

Module MainGo.

(** The flags; [IP] has no flag and stays empty. *)
Record Config := {
  IP : string;
  Label : string;
  CWD : string;
  ShowFull : bool;
  Install : bool;
  Delay : Z
}.

(** The flags that [main] defines. *)
Definition flag_names : list string :=
  ["label"; "cwd"; "show-full"; "install"; "delay"].

(** The values of the flags that are not given. *)
Definition default_config : Config :=
  {| IP := EmptyString; Label := "com.tarsnap"; CWD := "."; ShowFull := false;
     Install := false; Delay := 10 * Minute |}.

Record PlistData := {
  pLabel : string;
  pIP : string;
  pArgs : string;
  pPath : string;
  pCwd : string;
  pLogPath : string;
  pStartInterval : string
}.

Definition PlistTemplate : list (Seg PlistData) :=
  [ Line EmptyString;
    Line ("<?xml version=" +:+ quoted "1.0" +:+ " encoding=" +:+ quoted "UTF-8" +:+ "?>");
    Line ("<!DOCTYPE plist PUBLIC " +:+ quoted "-//Apple//DTD PLIST 1.0//EN" +:+ " "
          +:+ quoted "http://www.apple.com/DTDs/PropertyList-1.0.dtd" +:+ ">");
    Line ("<plist version=" +:+ quoted "1.0" +:+ ">");
    Line "<dict>";
    Line "  <key>Label</key>";
    Lit "  <string>"; Field pLabel; Line "</string>";
    Line EmptyString;
    Line "  <key>ProgramArguments</key>";
    Line "  <array>";
    Lit "    <string>"; Field pArgs; Line "</string>";
    Line "  </array>";
    Line EmptyString;
    Line "  <key>EnvironmentVariables</key>";
    Line "<dict>";
    Line "  <key>PATH</key>";
    Lit "  <string>/usr/local/bin:"; Field pPath; Line ":/usr/bin:/bin:/usr/sbin:/sbin:</string>";
    Line "</dict>";
    Line EmptyString;
    Line "  <key>StartInterval</key>";
    Lit "  <integer>"; Field pStartInterval; Line "</integer>";
    Line EmptyString;
    Line "  <key>StandardOutPath</key>";
    Lit "  <string>"; Field pLogPath; Line "</string>";
    Line EmptyString;
    Line "  <key>StandardErrorPath</key>";
    Lit "  <string>"; Field pLogPath; Line "</string>";
    Line EmptyString;
    Line "  <key>WorkingDirectory</key>";
    Lit "  <string>"; Field pCwd; Line "</string>";
    Line EmptyString;
    Line "  <key>RunAtLoad</key>";
    Line "  <false/>";
    Line "</dict>";
    Line "</plist>" ].

Definition MAX_LEN : nat := 10.

(** The loop of [generateSummaryFile] over the unique lines: what it has
    written when it is over. *)
Definition summary_text (uniqueLines : list string) : string :=
  foldl (fun file line =>
           if (String.length line <? MAX_LEN)%nat then file
           else Fprintln file line)
        EmptyString uniqueLines.

(** [generateSummaryFile] (main.go 78-104). *)
Definition generateSummaryFile (env : Env) (logDir : string) : M unit :=
  uniqueLines <- getUniqueBashLines env logDir ;;
  write_file "summary.txt" (summary_text uniqueLines) "Failed to create summary.txt".

(** [isValidIPv4] (main.go 519-525). *)
Definition isValidIPv4 (env : Env) (ip : string) : bool :=
  match env_ParseIP env ip with
  | None => false
  | Some parsedIP => Is4 parsedIP
  end.

(** [getip] (main.go 212-254): the address, or [None] for the error it
    returns when the working directory is unknown. *)
Definition getip (env : Env) : M (option string) :=
  match env_getwd env with
  | None => Println ["Error getting current working directory:"] ;; ret None
  | Some cwd =>
      let tfpath := Join [cwd; "./terraform"] in
      let args := ["-chdir=" +:+ tfpath; "output"; "-json"] in
      value <- run_terraform env args ;;
      if negb (isValidIPv4 env value)
      then halt (Fatal ("'" +:+ value +:+ "' is not a valid ip"))
      else ret (Some value)
  end.

(** [loadLaunchdTarsnap] (main.go 510-517). *)
Definition loadLaunchdTarsnap (env : Env) (launctlTask plist : string) : M unit :=
  emit (Print ("running command launchctl load " +:+ plist)) ;;
  emit (Exec "launchctl" ["load"; plist]) ;;
  if env_launchctl_load env then ret tt else halt (Fatal "launchctl load").

(** [searchLaunchdList] (main.go 484-508). *)
Definition searchLaunchdList (env : Env) (launctlTask : string) : M unit :=
  emit (Exec "launchctl" ["list"]) ;;
  match env_launchctl_list env with
  | None => halt (Fatal "launchctl list")
  | Some out =>
      match List.find (fun line => Contains line launctlTask) (Split LF out) with
      | Some line =>
          emit (Print line) ;;
          emit (Print (launctlTask +:+ " found, load was successful"))
      | None => emit (Print (launctlTask +:+ " not found, load failed"))
      end
  end.

(** [setup] (main.go 256-375): [None] is the nil error. *)
Definition setup (env : Env) (config : Config) : M (option string) :=
  if ShowFull config then
    uniqueLines <- getUniqueBashLines env "./data/bash_history" ;;
    foldr (fun line rest => emit (Print line) ;; rest) (ret None) uniqueLines
  else
    match Abs (env_getwd env) (CWD config) with
    | None => halt (Fatal "Failed to get absolute path")
    | Some absCwd =>
    r <- getip env ;;
    match r with
    | None => halt (Panic "getip")
    | Some ip =>
    if String.eqb ip EmptyString then halt (Fatal "cound not get ip, quitting") else
    match env_executable env with
    | None => halt (Panic "os.Executable")
    | Some exePath =>
    match Abs (env_getwd env) exePath with
    | None => halt (Panic "filepath.Abs")
    | Some absExePath =>
    let exeDir := Dir absExePath in
    Println ["Executable Path:"; absExePath] ;;
    Println ["Executable Directory:"; exeDir] ;;
    let exeName := Base exePath in
    Println [exeName] ;;
    let launctlTask := Label config +:+ "." +:+ ip in
    match env_getwd env with
    | None => Println ["Error getting current directory:"] ;; ret (Some "os.Getwd")
    | Some cwd =>
    Println ["CWD:"; cwd] ;;
    match env_home env with
    | None => Println ["Error getting home directory:"] ;; ret (Some "os.UserHomeDir")
    | Some home =>
    let LaunchAgentsDir := Join [home; "Library/LaunchAgents/"] in
    Println [LaunchAgentsDir] ;;
    let plist := LaunchAgentsDir +:+ "/" +:+ launctlTask +:+ ".plist" in
    let baseName := Base plist in
    let baseNameWithoutExt := TrimSuffix baseName (Ext baseName) in
    Println [baseNameWithoutExt] ;;
    let data :=
      {| pLabel := baseNameWithoutExt;
         pIP := ip;
         pStartInterval := Itoa (Seconds_int (Delay config));
         pArgs := absExePath;
         pPath := exeDir;
         pCwd := absCwd;
         pLogPath := "/tmp/" +:+ "tarsnap" +:+ ".log" |} in
    if negb (env_create env plist) then halt (Fatal "Failed to create .plist file") else
    emit (Create plist (Execute PlistTemplate data)) ;;
    loadLaunchdTarsnap env launctlTask plist ;;
    searchLaunchdList env launctlTask ;;
    emit (Sleep 500) ;;
    searchLaunchdList env launctlTask ;;
    ret None
    end end end end end end.

(** [dowork] (main.go 377-482). *)
Definition dowork (env : Env) : M unit :=
  let user := "root" in
  r <- getip env ;;
  match r with
  | None => halt (Panic "getip")
  | Some ip =>
  match Abs (env_getwd env) "./data/bash_history" with
  | None => Println ["filepath.Abs"] ;; halt (Exit 1)
  | Some localDir =>
  Println [localDir] ;;
  let capture := "bash_history_" +:+ env_now env +:+ ".txt" in
  let localFile := localDir +:+ "/" +:+ capture in
  match Abs (env_getwd env) localFile with
  | None => halt (Fatal "Failed to get absolute path")
  | Some absLocalFile =>
  MkdirAll ;;
  run_scp env
    ["-o"; "ConnectTimeout=10"; user +:+ "@" +:+ ip +:+ ":~/.bash_history"; absLocalFile]
    capture ;;
  st <- aggregate localDir ;;
  let uniqueLineCount := getUniqueLineCount st.2 in
  generateSummaryFile env localDir
  end end end.

(** [main] (main.go 192-210), after [flag.Parse]. *)
Definition main (env : Env) (config : Config) : M unit :=
  if Install config then
    err <- setup env config ;;
    match err with
    | Some e => halt (Panic e)
    | None => ret tt
    end
  else dowork env.

(** [main] from the command line: [given] are the names of the flags on
    it, [config] their values once parsed. *)
Definition run (env : Env) (given : list string) (config : Config) : M unit :=
  flag_Parse flag_names given ;;
  main env config.

End MainGo.

(** ** src/unnamed/part_000 *)

Module Part000.

Record Flags := {
  ip : string;          (* -ip, empty when not given *)
  launchd : bool;
  label : string;
  cwd : string;
  showFull : bool
}.

Definition flag_names : list string :=
  ["ip"; "launchd"; "label"; "cwd"; "show-full"].

Definition default_flags : Flags :=
  {| ip := EmptyString; launchd := false; label := "com.tarsnap"; cwd := ".";
     showFull := false |}.

Record PlistData := {
  pLabel : string;
  pIP : string;
  pArgs : string;
  pPath : string;
  pCwd : string;
  pLogPath : string
}.

Definition PlistTemplate : list (Seg PlistData) :=
  [ Line EmptyString;
    Line ("<?xml version=" +:+ quoted "1.0" +:+ " encoding=" +:+ quoted "UTF-8" +:+ "?>");
    Line ("<!DOCTYPE plist PUBLIC " +:+ quoted "-//Apple//DTD PLIST 1.0//EN" +:+ " "
          +:+ quoted "http://www.apple.com/DTDs/PropertyList-1.0.dtd" +:+ ">");
    Line ("<plist version=" +:+ quoted "1.0" +:+ ">");
    Line "<dict>";
    Line "  <key>Label</key>";
    Lit "  <string>"; Field pLabel; Line "</string>";
    Line EmptyString;
    Line "  <key>ProgramArguments</key>";
    Line "  <array>";
    Lit "    <string>"; Field pArgs; Line "</string>";
    Line "  </array>";
    Line EmptyString;
    Line "  <key>EnvironmentVariables</key>";
    Line "<dict>";
    Line "  <key>PATH</key>";
    Lit "  <string>/usr/local/bin:"; Field pPath;
    Line "/go/bin:/usr/bin:/bin:/usr/sbin:/sbin:</string>";
    Line "</dict>";
    Line EmptyString;
    Line "  <key>StartInterval</key>";
    Line "  <integer>3600</integer>";
    Line EmptyString;
    Line "  <key>StandardOutPath</key>";
    Lit "  <string>"; Field pLogPath; Line "</string>";
    Line EmptyString;
    Line "  <key>StandardErrorPath</key>";
    Lit "  <string>"; Field pLogPath; Line "</string>";
    Line EmptyString;
    Line "  <key>WorkingDirectory</key>";
    Lit "  <string>"; Field pCwd; Line "</string>";
    Line EmptyString;
    Line "  <key>RunAtLoad</key>";
    Line "  <true/>";
    Line "</dict>";
    Line "</plist>" ].

(** The loop of [generateSummaryFile]: every unique line is written. *)
Definition summary_text (uniqueLines : list string) : string :=
  foldl Fprintln EmptyString uniqueLines.

(** [generateSummaryFile] (part_000 72-92). *)
Definition generateSummaryFile (env : Env) (logDir : string) : M unit :=
  uniqueLines <- getUniqueBashLines env logDir ;;
  write_file "summary.txt" (summary_text uniqueLines) "Failed to create summary.txt".

(** The address: the flag when it is not empty, the output of terraform
    otherwise (part_000 197-220). *)
Definition resolve_ip (env : Env) (ipFlag : string) : M string :=
  if negb (String.eqb ipFlag EmptyString) then ret ipFlag
  else run_terraform env ["-chdir=./terraform"; "output"; "-json"].

(** [main] (part_000 170-345), after [flag.Parse]. *)
Definition main (env : Env) (flags : Flags) : M unit :=
  if showFull flags then
    uniqueLines <- getUniqueBashLines env "./data/bash_history" ;;
    foldr (fun line rest => emit (Print line) ;; rest) (ret tt) uniqueLines
  else
    match Abs (env_getwd env) (cwd flags) with
    | None => halt (Fatal "Failed to get absolute path")
    | Some absCwd =>
    ip <- resolve_ip env (ip flags) ;;
    if launchd flags then
      match env_executable env with
      | None => halt (Panic "os.Executable")
      | Some exePath =>
      match Abs (env_getwd env) exePath with
      | None => halt (Panic "filepath.Abs")
      | Some absExePath =>
      let exeDir := Dir absExePath in
      Println ["Executable Path:"; absExePath] ;;
      Println ["Executable Directory:"; exeDir] ;;
      let exeName := Base exePath in
      Println [exeName] ;;
      let filename := label flags +:+ "." +:+ ip +:+ ".plist" in
      let data :=
        {| pLabel := substring 0 (String.length filename - 6) filename;
           pIP := ip;
           pArgs := absExePath;
           pPath := exeDir;
           pCwd := absCwd;
           pLogPath := "/tmp/" +:+ env_args0 env +:+ ".log" |} in
      if negb (env_create env filename) then halt (Fatal "Failed to create .plist file") else
      emit (Create filename (Execute PlistTemplate data))
      end end
    else
      let user := "root" in
      let localDir := "./data/bash_history" in
      MkdirAll ;;
      let capture := "bash_history_" +:+ env_now env +:+ ".txt" in
      let localFile := localDir +:+ "/" +:+ capture in
      match Abs (env_getwd env) localFile with
      | None => halt (Fatal "Failed to get absolute path")
      | Some absLocalFile =>
      run_scp env [user +:+ "@" +:+ ip +:+ ":~/.bash_history"; absLocalFile] capture ;;
      st <- aggregate localDir ;;
      let uniqueLineCount := getUniqueLineCount st.2 in
      generateSummaryFile env localDir
      end
    end.

End Part000.

(** ** src/unnamed/part_001 *)

Module Part001.

Record Flags := {
  ip : string;          (* -ip, empty when not given *)
  launchd : bool;
  label : string;
  cwd : string
}.

Definition flag_names : list string := ["ip"; "launchd"; "label"; "cwd"].

Definition default_flags : Flags :=
  {| ip := EmptyString; launchd := false; label := "com.mytarsnap"; cwd := "." |}.

Record PlistData := {
  pLabel : string;
  pIP : string;
  pArgs : string;
  pPath : string;
  pCwd : string;
  pLogPath : string
}.

Definition PlistTemplate : list (Seg PlistData) :=
  [ Line EmptyString;
    Line ("<?xml version=" +:+ quoted "1.0" +:+ " encoding=" +:+ quoted "UTF-8" +:+ "?>");
    Line ("<!DOCTYPE plist PUBLIC " +:+ quoted "-//Apple//DTD PLIST 1.0//EN" +:+ " "
          +:+ quoted "http://www.apple.com/DTDs/PropertyList-1.0.dtd" +:+ ">");
    Line ("<plist version=" +:+ quoted "1.0" +:+ ">");
    Line "<dict>";
    Line "  <key>Label</key>";
    Lit "  <string>"; Field pLabel; Line "</string>";
    Line EmptyString;
    Line "  <key>ProgramArguments</key>";
    Line "  <array>";
    Lit "    <string>"; Field pArgs; Line "</string>";
    Line "  </array>";
    Line EmptyString;
    Line "  <key>EnvironmentVariables</key>";
    Line "<dict>";
    Line "  <key>PATH</key>";
    Lit "  <string>/usr/local/bin:"; Field pPath;
    Line "/go/bin:/usr/bin:/bin:/usr/sbin:/sbin:</string>";
    Line "</dict>";
    Line EmptyString;
    Line "  <key>StartInterval</key>";
    Line "  <integer>600</integer>";
    Line EmptyString;
    Line "  <key>StandardOutPath</key>";
    Lit "  <string>"; Field pLogPath; Line "</string>";
    Line EmptyString;
    Line "  <key>StandardErrorPath</key>";
    Lit "  <string>"; Field pLogPath; Line "</string>";
    Line EmptyString;
    Line "  <key>WorkingDirectory</key>";
    Lit "  <string>"; Field pCwd; Line "</string>";
    Line EmptyString;
    Line "  <key>RunAtLoad</key>";
    Line "  <true/>";
    Line "</dict>";
    Line "</plist>" ].

(** The address (part_001 87-110). *)
Definition resolve_ip (env : Env) (ipFlag : string) : M string :=
  if negb (String.eqb ipFlag EmptyString) then ret ipFlag
  else run_terraform env ["-chdir=./terraform"; "output"; "-json"].

(** [main] (part_001 70-189), after [flag.Parse]. *)
Definition main (env : Env) (flags : Flags) : M unit :=
  match Abs (env_getwd env) (cwd flags) with
  | None => halt (Fatal "Failed to get absolute path")
  | Some absCwd =>
  ip <- resolve_ip env (ip flags) ;;
  if launchd flags then
    match env_executable env with
    | None => halt (Panic "os.Executable")
    | Some exePath =>
    let exeName := Base exePath in
    Println [exeName] ;;
    let filename := label flags +:+ "." +:+ ip +:+ ".plist" in
    let data :=
      {| pLabel := substring 0 (String.length filename - 6) filename;
         pIP := ip;
         pArgs := exePath;
         pPath := env_args0 env;
         pCwd := absCwd;
         pLogPath := "/tmp/" +:+ env_args0 env +:+ ".log" |} in
    if negb (env_create env filename) then halt (Fatal "Failed to create .plist file") else
    emit (Create filename (Execute PlistTemplate data))
    end
  else
    let user := "root" in
    let localDir := "./data/bash_history" in
    MkdirAll ;;
    let capture := "bash_history_" +:+ env_now env +:+ ".txt" in
    let localFile := localDir +:+ "/" +:+ capture in
    match Abs (env_getwd env) localFile with
    | None => halt (Fatal "Failed to get absolute path")
    | Some absLocalFile =>
    run_scp env [user +:+ "@" +:+ ip +:+ ":~/.bash_history"; absLocalFile] capture
    end
  end.

End Part001.

(** ** Reading the model *)

(** The lines that a callback reads at one visit; [None] where it fails. *)
Definition visit_lines (pv : string * Visit) : option (list string) :=
  match pv.2 with
  | VWalkErr | VNoOpen => None
  | VDir => Some []
  | VFile content => scan_lines content
  end.

Definition readable (pv : string * Visit) : bool :=
  match visit_lines pv with
  | Some _ => true
  | None => false
  end.

(** All the lines of a walk, in the order of the walk. *)
Definition lines_of (visits : list (string * Visit)) : list string :=
  flat_map (fun pv => default [] (visit_lines pv)) visits.

(** The lines that the filter of main.go lets through. *)
Definition long_enough (line : string) : bool :=
  negb (String.length line <? MainGo.MAX_LEN)%nat.

Definition summary_lines (uniqueLines : list string) : list string :=
  List.filter long_enough uniqueLines.

(** The first entry of a directory with a given name. *)
Fixpoint lookup_entry (name : string) (es : list (string * node)) : option node :=
  match es with
  | [] => None
  | (n, x) :: es' => if String.eqb n name then Some x else lookup_entry name es'
  end.

(** The content of [summary.txt] in the directory of captures. *)
Definition summary_of (w : World) : option string :=
  match histdir w with
  | Some (Directory es) =>
      match lookup_entry "summary.txt" es with
      | Some (File content) => Some content
      | _ => None
      end
  | _ => None
  end.

(** No carriage return at the end. *)
Definition no_CR (line : string) : Prop := dropCR line = line.

(** ** Sample runs *)

Definition text (lines : list string) : string :=
  foldl Fprintln EmptyString lines.

Definition a_txt : string := text ["ls -la"; "cd /tmp"; "ls -la"].
Definition b_txt : string := text ["cd /tmp"; "echo hello world"].

(** A directory with the two files [a.txt] and [b.txt] and nothing else. *)
Definition two_files : node :=
  Directory [("a.txt", File a_txt); ("b.txt", File b_txt)].

Definition in_dir (d : node) : World := {| histdir := Some d; trace := [] |}.

Definition nothing : World := {| histdir := None; trace := [] |}.

Definition sample_env : Env :=
  {| env_getwd := Some "/home/op/tarsnap";
     env_home := Some "/Users/op";
     env_executable := Some "/home/op/tarsnap/tarsnap";
     env_args0 := "./tarsnap";
     env_now := "20240101_120000";
     env_terraform := TfValue "10.0.0.5";
     env_scp := ScpCopied (text ["ls -la"; "echo hello world"]);
     env_create := fun _ => true;
     env_launchctl_load := true;
     env_launchctl_list := Some (text ["PID Status Label"; "- 0 com.test.10.0.0.5"]);
     env_order := order_id;
     env_ParseIP := parseIPv4 |}.

(** The same world, where terraform reports something else. *)
Definition with_terraform (env : Env) (out : TfOutcome) : Env :=
  {| env_getwd := env_getwd env;
     env_home := env_home env;
     env_executable := env_executable env;
     env_args0 := env_args0 env;
     env_now := env_now env;
     env_terraform := out;
     env_scp := env_scp env;
     env_create := env_create env;
     env_launchctl_load := env_launchctl_load env;
     env_launchctl_list := env_launchctl_list env;
     env_order := env_order env;
     env_ParseIP := env_ParseIP env |}.

(** The same world, where maps are ranged over in another order. *)
Definition with_order (env : Env) (o : MapOrder) : Env :=
  {| env_getwd := env_getwd env;
     env_home := env_home env;
     env_executable := env_executable env;
     env_args0 := env_args0 env;
     env_now := env_now env;
     env_terraform := env_terraform env;
     env_scp := env_scp env;
     env_create := env_create env;
     env_launchctl_load := env_launchctl_load env;
     env_launchctl_list := env_launchctl_list env;
     env_order := o;
     env_ParseIP := env_ParseIP env |}.

(** A capture with one line that ends in two carriage returns. *)
Definition cr_capture : string :=
  "echo hello" +:+ String CR (String CR EmptyString) +:+ nl.

Definition cr_dir : node := Directory [("bash_history_1.txt", File cr_capture)].

Definition install_config : MainGo.Config :=
  {| MainGo.IP := EmptyString;
     MainGo.Label := "com.test";
     MainGo.CWD := ".";
     MainGo.ShowFull := false;
     MainGo.Install := true;
     MainGo.Delay := 5 * Minute |}.

(** The lines of the two files, one file after the other. *)
Definition two_files_lines : list string :=
  ["ls -la"; "cd /tmp"; "ls -la"; "cd /tmp"; "echo hello world"].

(** Lines that differ in case or in blanks only. *)
Definition look_alikes : list string :=
  ["ls -la"; "LS -LA"; "ls -la "; " ls -la"; "ls  -la"; "ls -la"].

(** The number of characters of a string in UTF-8, as
    [utf8.RuneCountInString] counts them in well formed text: the bytes that
    do not continue a character. *)
Definition is_continuation (c : ascii) : bool :=
  let n := N_of_ascii c in (128 <=? n)%N && (n <? 192)%N.

Fixpoint utf8_length (s : string) : nat :=
  match s with
  | EmptyString => 0%nat
  | String c s' => ((if is_continuation c then 0 else 1) + utf8_length s')%nat
  end.

(** The letter e with an acute accent, two bytes, and a line of five. *)
Definition e_acute : string := String "195"%char (String "169"%char EmptyString).

Definition five_letters : string :=
  e_acute +:+ e_acute +:+ e_acute +:+ e_acute +:+ e_acute.

Definition accent_dir : node :=
  Directory [("bash_history_1.txt", File (text [five_letters]))].

(** A run adds events to the trace; [emits_only P m] says that every event
    that [m] adds satisfies [P]. *)
Definition emits_only {A} (P : Event -> Prop) (m : M A) : Prop :=
  forall w, exists new,
    trace (world_of (m w)) = trace w ++ new /\ Forall P new.

(** The event is not a run of terraform, and if it is a run of scp the
    remote file is the history of root on the host [ip]. *)
Definition uses_ip (ip : string) (e : Event) : Prop :=
  is_exec "terraform" e = false /\
  forall args, e = Exec "scp" args ->
    List.hd EmptyString args = "root@" +:+ ip +:+ ":~/.bash_history".

Definition ip_flags_000 (ipFlag : string) (doLaunchd : bool) : Part000.Flags :=
  {| Part000.ip := ipFlag; Part000.launchd := doLaunchd; Part000.label := "com.tarsnap";
     Part000.cwd := "."; Part000.showFull := false |}.

Definition ip_flags_001 (ipFlag : string) (doLaunchd : bool) : Part001.Flags :=
  {| Part001.ip := ipFlag; Part001.launchd := doLaunchd; Part001.label := "com.mytarsnap";
     Part001.cwd := "." |}.

(** ** More of the model, for the properties that follow the claims *)

(** The paths of the regular files that a walk reads. *)
Definition file_paths (visits : list (string * Visit)) : list string :=
  flat_map (fun pv => match pv.2 with VFile _ => [pv.1] | _ => [] end) visits.

(** The sum of the counts in [lineCounts]. *)
Definition total_count (lineCounts : gmap string nat) : nat :=
  map_fold (fun _ n acc => (n + acc)%nat) 0%nat lineCounts.

(** A readable file with the given content lies in the tree, at any depth. *)
Inductive contains_file : node -> string -> Prop :=
| contains_here (content : string) : contains_file (File content) content
| contains_below (es : list (string * node)) (name : string) (child : node)
    (content : string) :
    In (name, child) es -> contains_file child content ->
    contains_file (Directory es) content.

(** What [dowork] of main.go may add to the trace: the run of terraform, a
    printed line, or a run of scp that copies from a host whose address has
    passed [isValidIPv4]. *)
Definition fetch_event (env : Env) (e : Event) : Prop :=
  match e with
  | Exec name args =>
      name = "terraform" \/
      (name = "scp" /\
       exists ip, MainGo.isValidIPv4 env ip = true /\
                  List.nth 2 args EmptyString = "root@" +:+ ip +:+ ":~/.bash_history")
  | Print _ => True
  | Create _ _ | Sleep _ => False
  end.


(** The event is a run of terraform or a printed line. *)
Definition asks_or_prints (e : Event) : Prop :=
  match e with
  | Exec name _ => name = "terraform"
  | Print _ => True
  | Create _ _ | Sleep _ => False
  end.

(** The event is a printed line, a pause, [launchctl list], or
    [launchctl load] of the given file. *)
Definition loads (plist : string) (e : Event) : Prop :=
  match e with
  | Exec name args =>
      name = "launchctl" /\ (args = ["load"; plist] \/ args = ["list"])
  | Print _ | Sleep _ => True
  | Create _ _ => False
  end.

(** The events of an installation: before the descriptor is written
    nothing but terraform is run, and after it only launchctl, to load that
    file and to list the tasks. *)
Definition descriptor_first (new : list Event) : Prop :=
  Forall asks_or_prints new \/
  exists before plist content after,
    new = before ++ Create plist content :: after /\
    Forall asks_or_prints before /\
    Forall (loads plist) after.

Definition installs_in_order {A} (m : M A) : Prop :=
  forall w, exists new,
    trace (world_of (m w)) = trace w ++ new /\ descriptor_first new.

(** A directory with a sub-directory. *)
Definition nested_dir : node :=
  Directory [("2023", Directory [("old.txt", File (text ["make install-all"]))]);
             ("a.txt", File a_txt)].

(** The flags of part_000 for -show-full. *)
Definition show_flags_000 : Part000.Flags :=
  {| Part000.ip := EmptyString; Part000.launchd := false; Part000.label := "com.tarsnap";
     Part000.cwd := "."; Part000.showFull := true |}.

(** The flags of main.go for -install -show-full. *)
Definition show_config : MainGo.Config :=
  {| MainGo.IP := EmptyString; MainGo.Label := "com.tarsnap"; MainGo.CWD := ".";
     MainGo.ShowFull := true; MainGo.Install := true; MainGo.Delay := 10 * Minute |}.

(** The same world, where scp answers something else. *)
Definition with_scp (env : Env) (out : ScpOutcome) : Env :=
  {| env_getwd := env_getwd env;
     env_home := env_home env;
     env_executable := env_executable env;
     env_args0 := env_args0 env;
     env_now := env_now env;
     env_terraform := env_terraform env;
     env_scp := out;
     env_create := env_create env;
     env_launchctl_load := env_launchctl_load env;
     env_launchctl_list := env_launchctl_list env;
     env_order := env_order env;
     env_ParseIP := env_ParseIP env |}.

(** The entries of the directory of captures; none when it is missing. *)
Definition entries (w : World) : list (string * node) :=
  match histdir w with
  | Some (Directory es) => es
  | _ => []
  end.

(** A directory where the captures are gone and the summary is left. *)
Definition summary_alone : node :=
  Directory [("summary.txt", File (text ["make install-all"]))].

(* end of the definitions *)

(** * Properties *)

(** ** Sets of lines *)

Lemma add_lines_dom (lines : list string) (m : LineSet) :
  dom (add_lines m lines) = dom m ∪ list_to_set lines.
Proof.
  revert m. induction lines as [|l ls IH]; intros m; simpl.
  - set_solver.
  - rewrite IH. unfold set_add. rewrite dom_insert_L. set_solver.
Qed.

Lemma add_lines_app (m : LineSet) (l1 l2 : list string) :
  add_lines m (l1 ++ l2) = add_lines (add_lines m l1) l2.
Proof. unfold add_lines. apply foldl_app. Qed.

(** A set of lines is its set of keys: the values carry nothing. *)
Lemma LineSet_eq (m1 m2 : LineSet) : dom m1 = dom m2 -> m1 = m2.
Proof.
  intros Hdom. apply map_eq. intros k.
  destruct (m1 !! k) as [[]|] eqn:E1, (m2 !! k) as [[]|] eqn:E2; try reflexivity.
  - assert (k ∈ dom m2) as Hk by (rewrite <- Hdom; apply elem_of_dom; eauto).
    apply elem_of_dom in Hk as [? Hk]. congruence.
  - assert (k ∈ dom m1) as Hk by (rewrite Hdom; apply elem_of_dom; eauto).
    apply elem_of_dom in Hk as [? Hk]. congruence.
Qed.

Lemma elem_of_add_lines (lines : list string) (l : string) :
  l ∈ dom (add_lines ∅ lines) <-> l ∈ lines.
Proof. rewrite add_lines_dom, dom_empty_L. set_solver. Qed.

Lemma getUniqueLineCount_size (lines : list string) :
  getUniqueLineCount lines = size (list_to_set lines : gset string).
Proof.
  unfold getUniqueLineCount. rewrite <- size_dom, add_lines_dom, dom_empty_L.
  f_equal. set_solver.
Qed.

Lemma size_list_to_set_le (lines : list string) :
  size (list_to_set lines : gset string) <= length lines.
Proof.
  induction lines as [|l ls IH].
  - rewrite list_to_set_nil, size_empty. simpl. lia.
  - rewrite list_to_set_cons. simpl length.
    destruct (decide (l ∈ (list_to_set ls : gset string))) as [Hin|Hni].
    + replace ({[l]} ∪ list_to_set ls) with (list_to_set ls : gset string)
        by set_solver.
      lia.
    + rewrite size_union by set_solver. rewrite size_singleton. lia.
Qed.

Lemma size_list_to_set_eq_NoDup (lines : list string) :
  size (list_to_set lines : gset string) = length lines -> NoDup lines.
Proof.
  induction lines as [|l ls IH]; intros Hsize.
  - constructor.
  - rewrite list_to_set_cons in Hsize. simpl length in Hsize.
    pose proof (size_list_to_set_le ls) as Hle.
    destruct (decide (l ∈ (list_to_set ls : gset string))) as [Hin|Hni].
    + replace ({[l]} ∪ list_to_set ls) with (list_to_set ls : gset string) in Hsize
        by set_solver.
      lia.
    + rewrite size_union in Hsize by set_solver.
      rewrite size_singleton in Hsize.
      constructor.
      * intros Hl. apply Hni. apply elem_of_list_to_set. exact Hl.
      * apply IH. lia.
Qed.

(** C3. The number of unique lines that [getUniqueLineCount] returns is at
    most the number of lines it is given, and the two are equal exactly when
    the lines are pairwise distinct. *)
Theorem unique_count_le_total (lines : list string) :
  getUniqueLineCount lines <= length lines /\
  (getUniqueLineCount lines = length lines <-> NoDup lines).
Proof.
  rewrite getUniqueLineCount_size. split.
  - apply size_list_to_set_le.
  - split.
    + apply size_list_to_set_eq_NoDup.
    + intros Hnd. apply size_list_to_set. exact Hnd.
Qed.

(** ** The two walks read the same lines *)

Lemma unique_visit_Some m pv ls :
  visit_lines pv = Some ls -> unique_visit m pv = inr (add_lines m ls).
Proof.
  unfold visit_lines, unique_visit. destruct pv as [p v]; simpl.
  destruct v; try discriminate.
  - intros ->. reflexivity.
  - intros [= <-]. reflexivity.
Qed.

Lemma unique_visit_None m pv :
  visit_lines pv = None -> exists e, unique_visit m pv = inl e.
Proof.
  unfold visit_lines, unique_visit. destruct pv as [p v]; simpl.
  destruct v; try discriminate; try solve [intros _; eauto].
  intros ->. eauto.
Qed.

Lemma aggregate_visit_Some st pv ls :
  visit_lines pv = Some ls ->
  exists counts, aggregate_visit st pv = inr (counts, st.2 ++ ls).
Proof.
  unfold visit_lines, aggregate_visit, readLines. destruct pv as [p v], st as [c a]; simpl.
  destruct v; try discriminate.
  - intros ->. eauto.
  - intros [= <-]. rewrite app_nil_r. eauto.
Qed.

Lemma aggregate_visit_None st pv :
  visit_lines pv = None -> exists e, aggregate_visit st pv = inl e.
Proof.
  unfold visit_lines, aggregate_visit, readLines. destruct pv as [p v]; simpl.
  destruct v; try discriminate; try solve [intros _; eauto].
  intros ->. eauto.
Qed.

Lemma lines_of_cons pv vs :
  lines_of (pv :: vs) = default [] (visit_lines pv) ++ lines_of vs.
Proof. reflexivity. Qed.

Lemma lines_of_app vs1 vs2 : lines_of (vs1 ++ vs2) = lines_of vs1 ++ lines_of vs2.
Proof. unfold lines_of. apply flat_map_app. Qed.

Lemma foldE_unique vs : forall m m',
  foldE unique_visit m vs = inr m' ->
  m' = add_lines m (lines_of vs) /\ forallb readable vs = true.
Proof.
  induction vs as [|pv vs IH]; intros m m' H; simpl in H.
  - injection H as <-. split; reflexivity.
  - destruct (visit_lines pv) as [ls|] eqn:E.
    + rewrite (unique_visit_Some m pv ls E) in H.
      apply IH in H as [-> Hall]. split.
      * rewrite lines_of_cons, E. simpl. symmetry. apply add_lines_app.
      * simpl. unfold readable at 1. rewrite E. exact Hall.
    + destruct (unique_visit_None m pv E) as [e He]. rewrite He in H. discriminate.
Qed.

Lemma foldE_unique_total vs : forall m,
  forallb readable vs = true ->
  foldE unique_visit m vs = inr (add_lines m (lines_of vs)).
Proof.
  induction vs as [|pv vs IH]; intros m H; simpl in H.
  - reflexivity.
  - apply andb_true_iff in H as [Hpv Hvs]. unfold readable in Hpv.
    destruct (visit_lines pv) as [ls|] eqn:E; [|discriminate].
    cbn [foldE]. rewrite (unique_visit_Some m pv ls E), (IH _ Hvs).
    rewrite lines_of_cons, E. simpl. f_equal. symmetry. apply add_lines_app.
Qed.

Lemma foldE_aggregate vs : forall st st',
  foldE aggregate_visit st vs = inr st' ->
  st'.2 = st.2 ++ lines_of vs /\ forallb readable vs = true.
Proof.
  induction vs as [|pv vs IH]; intros st st' H; simpl in H.
  - injection H as <-. rewrite app_nil_r. split; reflexivity.
  - destruct (visit_lines pv) as [ls|] eqn:E.
    + destruct (aggregate_visit_Some st pv ls E) as [c Hc]. rewrite Hc in H.
      apply IH in H as [-> Hall]. split.
      * rewrite lines_of_cons, E. simpl. symmetry. apply app_assoc.
      * simpl. unfold readable at 1. rewrite E. exact Hall.
    + destruct (aggregate_visit_None st pv E) as [e He]. rewrite He in H. discriminate.
Qed.

Lemma foldE_aggregate_total vs : forall st,
  forallb readable vs = true ->
  exists counts, foldE aggregate_visit st vs = inr (counts, st.2 ++ lines_of vs).
Proof.
  induction vs as [|pv vs IH]; intros st H; simpl in H.
  - exists st.1. simpl. rewrite app_nil_r. destruct st; reflexivity.
  - apply andb_true_iff in H as [Hpv Hvs]. unfold readable in Hpv.
    destruct (visit_lines pv) as [ls|] eqn:E; [|discriminate].
    destruct (aggregate_visit_Some st pv ls E) as [c Hc]. cbn [foldE]. rewrite Hc.
    destruct (IH (c, st.2 ++ ls) Hvs) as [c' Hc']. exists c'.
    rewrite Hc'. rewrite lines_of_cons, E. simpl. rewrite app_assoc. reflexivity.
Qed.

(** The set of [getUniqueBashLines] is the set of the aggregated lines, and
    one walk succeeds when the other does. *)
Lemma unique_set_aggregate logDir w m :
  unique_set logDir (histdir w) = inr m ->
  exists counts agg,
    aggregate logDir w = Ok (counts, agg) w /\ m = add_lines ∅ agg.
Proof.
  unfold unique_set, aggregate. destruct (histdir w) as [root|]; [|discriminate].
  intros H. apply foldE_unique in H as [-> Hall].
  destruct (foldE_aggregate_total _ (∅, []) Hall) as [c Hc].
  rewrite Hc. simpl. eauto.
Qed.

Lemma aggregate_unique_set logDir w st w' :
  aggregate logDir w = Ok st w' ->
  w' = w /\ unique_set logDir (histdir w) = inr (add_lines ∅ st.2).
Proof.
  unfold unique_set, aggregate. destruct (histdir w) as [root|]; [|discriminate].
  destruct (foldE aggregate_visit _ _) as [e|st0] eqn:E; [discriminate|].
  intros [= <- <-]. split; [reflexivity|].
  apply foldE_aggregate in E as [-> Hall]. simpl.
  apply foldE_unique_total. exact Hall.
Qed.

(** ** Byte strings *)

Local Arguments append !s1 s2 : simpl nomatch.

Lemma str_app_nil_r (a : string) : a +:+ EmptyString = a.
Proof. induction a as [|c a IH]; simpl; [reflexivity | now rewrite IH]. Qed.

Lemma str_app_assoc (a b c : string) : (a +:+ b) +:+ c = a +:+ (b +:+ c).
Proof. induction a as [|x a IH]; simpl; [reflexivity | now rewrite IH]. Qed.

Lemma str_length_app (a b : string) :
  String.length (a +:+ b) = (String.length a + String.length b)%nat.
Proof. induction a as [|x a IH]; simpl; [reflexivity | now rewrite IH]. Qed.

Lemma has_byte_app (b : ascii) (s t : string) :
  has_byte b (s +:+ t) = has_byte b s || has_byte b t.
Proof.
  induction s as [|c s IH]; simpl; [reflexivity|].
  rewrite IH. apply orb_assoc.
Qed.

(** ** Lines written and read back *)

Lemma foldl_Fprintln (lines : list string) : forall acc,
  foldl Fprintln acc lines = acc +:+ text lines.
Proof.
  unfold text. induction lines as [|l ls IH]; intros acc; simpl.
  - now rewrite str_app_nil_r.
  - rewrite IH. rewrite (IH (Fprintln EmptyString l)).
    unfold Fprintln. simpl. now rewrite !str_app_assoc.
Qed.

Lemma text_cons (l : string) (ls : list string) :
  text (l :: ls) = l +:+ nl +:+ text ls.
Proof.
  unfold text at 1. simpl. rewrite foldl_Fprintln. unfold Fprintln. simpl.
  now rewrite str_app_assoc.
Qed.

Lemma raw_lines_no_LF (s : string) :
  Forall (fun l => has_byte LF l = false) (raw_lines s).
Proof.
  induction s as [|c s IH]; simpl.
  - constructor.
  - destruct (Ascii.eqb c LF) eqn:E.
    + constructor; [reflexivity | exact IH].
    + destruct (raw_lines s) as [|l ls].
      * constructor; [simpl; now rewrite E | constructor].
      * inversion IH as [|? ? Hl Hls]; subst.
        constructor; [simpl; now rewrite E, Hl | exact Hls].
Qed.

Lemma raw_lines_line (l rest : string) :
  has_byte LF l = false -> raw_lines (l +:+ nl +:+ rest) = l :: raw_lines rest.
Proof.
  change (nl +:+ rest) with (String LF rest).
  induction l as [|c l IH]; simpl; intros H.
  - reflexivity.
  - apply orb_false_iff in H as [Hc Hl]. rewrite Hc, (IH Hl). reflexivity.
Qed.

Lemma raw_lines_text (lines : list string) :
  Forall (fun l => has_byte LF l = false) lines -> raw_lines (text lines) = lines.
Proof.
  induction 1 as [|l ls Hl Hls IH].
  - reflexivity.
  - rewrite text_cons, (raw_lines_line _ _ Hl), IH. reflexivity.
Qed.

Lemma dropCR_cons (c c' : ascii) (l : string) :
  dropCR (String c (String c' l)) = String c (dropCR (String c' l)).
Proof. reflexivity. Qed.

Lemma dropCR_no_LF (l : string) :
  has_byte LF l = false -> has_byte LF (dropCR l) = false.
Proof.
  induction l as [|c l IH]; intros H; [reflexivity|].
  change (Ascii.eqb c LF || has_byte LF l = false) in H.
  apply orb_false_iff in H as [Hc Hl].
  destruct l as [|c' l'].
  - simpl. destruct (Ascii.eqb c CR); simpl; [reflexivity | now rewrite Hc].
  - rewrite dropCR_cons.
    change (Ascii.eqb c LF || has_byte LF (dropCR (String c' l')) = false).
    rewrite Hc, (IH Hl). reflexivity.
Qed.

Lemma dropCR_length (l : string) : (String.length (dropCR l) <= String.length l)%nat.
Proof.
  induction l as [|c l IH]; [simpl; lia|].
  destruct l as [|c' l'].
  - simpl. destruct (Ascii.eqb c CR); simpl; lia.
  - rewrite dropCR_cons.
    change (S (String.length (dropCR (String c' l'))) <= S (String.length (String c' l')))%nat.
    lia.
Qed.

Lemma too_long_dropCR (l : string) : too_long l = false -> too_long (dropCR l) = false.
Proof.
  unfold too_long. intros H. apply N.leb_gt in H. apply N.leb_gt.
  pose proof (dropCR_length l). lia.
Qed.

(** What the scanner returns has no line feed in it and fits the buffer. *)
Lemma scan_lines_lines (content : string) (lines : list string) :
  scan_lines content = Some lines ->
  Forall (fun l => has_byte LF l = false /\ too_long l = false) lines.
Proof.
  unfold scan_lines. destruct (existsb too_long (raw_lines content)) eqn:E; [discriminate|].
  intros [= <-]. pose proof (raw_lines_no_LF content) as Hlf.
  induction (raw_lines content) as [|r rs IH]; simpl in *.
  - constructor.
  - apply orb_false_iff in E as [Er Ers]. inversion Hlf as [|? ? Hr Hrs]; subst.
    constructor.
    + split; [now apply dropCR_no_LF | now apply too_long_dropCR].
    + apply IH; assumption.
Qed.

(** The scanner reads back what [Fprintln] wrote, one carriage return less
    at the end of each line. *)
Lemma scan_lines_text (lines : list string) :
  Forall (fun l => has_byte LF l = false /\ too_long l = false) lines ->
  scan_lines (text lines) = Some (map dropCR lines).
Proof.
  intros H. unfold scan_lines. rewrite raw_lines_text.
  - replace (existsb too_long lines) with false; [reflexivity|].
    symmetry. induction H as [|l ls [_ Hl] _ IH]; simpl; [reflexivity|].
    now rewrite Hl, IH.
  - eapply Forall_impl; [exact H|]. intros l [Hl _]. exact Hl.
Qed.

Lemma MainGo_summary_text (uniqueLines : list string) :
  MainGo.summary_text uniqueLines = text (summary_lines uniqueLines).
Proof.
  unfold MainGo.summary_text.
  assert (forall acc,
    foldl (fun file line =>
             if (String.length line <? MainGo.MAX_LEN)%nat then file
             else Fprintln file line) acc uniqueLines
    = acc +:+ text (summary_lines uniqueLines)) as H.
  { induction uniqueLines as [|l ls IH]; intros acc; simpl.
    - now rewrite str_app_nil_r.
    - unfold long_enough at 1. destruct (String.length l <? MainGo.MAX_LEN)%nat; simpl.
      + apply IH.
      + rewrite IH, text_cons. unfold Fprintln. now rewrite !str_app_assoc. }
  apply H.
Qed.

(** ** The walk of a directory *)

Lemma Walk_Directory (path : string) (es : list (string * node)) :
  Walk path (Directory es) =
  (path, VDir) :: flat_map (fun e => Walk (Join [path; e.1]) e.2) es.
Proof.
  simpl. f_equal. induction es as [|[name child] es IH]; [reflexivity|].
  simpl. rewrite IH. reflexivity.
Qed.

Lemma lines_of_flat_map {A} (f : A -> list (string * Visit)) (l : list A) :
  lines_of (flat_map f l) = flat_map (fun a => lines_of (f a)) l.
Proof.
  induction l as [|a l IH]; simpl; [reflexivity|].
  now rewrite lines_of_app, IH.
Qed.

Lemma readable_flat_map {A} (f : A -> list (string * Visit)) (l : list A) :
  forallb readable (flat_map f l) = forallb (fun a => forallb readable (f a)) l.
Proof.
  induction l as [|a l IH]; simpl; [reflexivity|].
  now rewrite forallb_app, IH.
Qed.

(** The lines of the entries of a directory, and whether all can be read. *)
Lemma lines_of_Directory (path : string) (es : list (string * node)) :
  lines_of (Walk path (Directory es)) =
  flat_map (fun e => lines_of (Walk (Join [path; e.1]) e.2)) es.
Proof. rewrite Walk_Directory, lines_of_cons. simpl. apply lines_of_flat_map. Qed.

Lemma readable_Directory (path : string) (es : list (string * node)) :
  forallb readable (Walk path (Directory es)) =
  forallb (fun e => forallb readable (Walk (Join [path; e.1]) e.2)) es.
Proof. rewrite Walk_Directory. simpl. apply readable_flat_map. Qed.

(** ** Creating a file in the directory *)

Lemma create_entry_spec (name c : string) (es : list (string * node)) : forall es',
  create_entry name c es = Some es' ->
  exists pre post,
    es' = pre ++ (name, File c) :: post /\
    (es = pre ++ post \/ exists c0, es = pre ++ (name, File c0) :: post) /\
    lookup_entry name pre = None /\
    (forall c', create_entry name c' es = Some (pre ++ (name, File c') :: post)) /\
    (forall c', create_entry name c' es' = Some (pre ++ (name, File c') :: post)).
Proof.
  induction es as [|[n x] es IH]; intros es' H; simpl in H.
  - injection H as <-. exists [], []. simpl. rewrite String.eqb_refl. auto 6.
  - destruct (String.eqb n name) eqn:En.
    + apply String.eqb_eq in En as ->.
      destruct x as [c0| | |sub]; try discriminate; injection H as <-;
        exists [], es; simpl; rewrite String.eqb_refl;
        (split; [reflexivity|]); (split; [right; eauto 6|]); auto.
    + destruct (String.ltb name n) eqn:Elt.
      * injection H as <-. exists [], ((n, x) :: es). simpl.
        rewrite String.eqb_refl, En, Elt. auto 6.
      * destruct (create_entry name c es) as [r|] eqn:Er; [|discriminate].
        injection H as <-.
        destruct (IH r eq_refl) as (pre & post & -> & Hes & Hpre & Hsame & Hre).
        exists ((n, x) :: pre), post. simpl. rewrite En, Elt.
        split; [reflexivity|]. split; [|split; [exact Hpre|split]].
        -- destruct Hes as [-> | (c0 & ->)]; [left | right]; eauto.
        -- intros c'. rewrite Hsame. reflexivity.
        -- intros c'. rewrite Hre. reflexivity.
Qed.

Lemma lookup_entry_app (name : string) (pre post : list (string * node)) :
  lookup_entry name pre = None ->
  lookup_entry name (pre ++ post) = lookup_entry name post.
Proof.
  induction pre as [|[n x] pre IH]; simpl; [reflexivity|].
  destruct (String.eqb n name); [discriminate | exact IH].
Qed.

(** ** What [generateSummaryFile] does *)

Lemma getUniqueBashLines_inv env logDir w ul w' :
  getUniqueBashLines env logDir w = Ok ul w' ->
  w' = w /\
  exists m, unique_set logDir (histdir w) = inr m /\
            ul = range_keys (env_order env) m.
Proof.
  unfold getUniqueBashLines. destruct (unique_set logDir (histdir w)) as [e|m]; [discriminate|].
  intros [= <- <-]. eauto.
Qed.

Lemma write_file_inv name c msg w w' :
  write_file name c msg w = Ok tt w' ->
  exists es es',
    histdir w = Some (Directory es) /\
    create_entry name c es = Some es' /\
    w' = {| histdir := Some (Directory es'); trace := trace w |}.
Proof.
  unfold write_file, set_histdir. destruct (histdir w) as [[| | |es]|]; try discriminate.
  destruct (create_entry name c es) as [es'|] eqn:E; [|discriminate].
  intros [= <-]. eauto.
Qed.

Lemma MainGo_generateSummaryFile_inv env logDir w w' :
  MainGo.generateSummaryFile env logDir w = Ok tt w' ->
  exists es m es',
    histdir w = Some (Directory es) /\
    unique_set logDir (Some (Directory es)) = inr m /\
    create_entry "summary.txt"
      (text (summary_lines (range_keys (env_order env) m))) es = Some es' /\
    w' = {| histdir := Some (Directory es'); trace := trace w |}.
Proof.
  unfold MainGo.generateSummaryFile, bind.
  destruct (getUniqueBashLines env logDir w) as [ul w1|] eqn:E; [|discriminate].
  apply getUniqueBashLines_inv in E as (-> & m & Hm & ->).
  intros H. apply write_file_inv in H as (es & es' & Hes & Hc & ->).
  rewrite Hes in Hm. rewrite MainGo_summary_text in Hc. eauto 10.
Qed.

Lemma MainGo_generateSummaryFile_intro env logDir w es m es' :
  histdir w = Some (Directory es) ->
  unique_set logDir (Some (Directory es)) = inr m ->
  create_entry "summary.txt"
    (text (summary_lines (range_keys (env_order env) m))) es = Some es' ->
  MainGo.generateSummaryFile env logDir w =
  Ok tt {| histdir := Some (Directory es'); trace := trace w |}.
Proof.
  intros Hes Hm Hc.
  unfold MainGo.generateSummaryFile, bind, getUniqueBashLines.
  rewrite Hes, Hm. unfold write_file, set_histdir. simpl.
  rewrite Hes, MainGo_summary_text, Hc. reflexivity.
Qed.

(** ** Ranging over the set *)

Lemma In_range_keys {V} (o : MapOrder) (m : gmap string V) (l : string) :
  In l (range_keys o m) <-> l ∈ dom m.
Proof.
  unfold range_keys.
  rewrite (Permutation_in' (eq_refl l) (range_order_perm o _)).
  rewrite <- list_elem_of_In, list_elem_of_fmap, elem_of_dom. split.
  - intros ([k v] & -> & Hkv). apply elem_of_map_to_list in Hkv. simpl. eauto.
  - intros [v Hv]. exists (l, v). split; [reflexivity|].
    now apply elem_of_map_to_list.
Qed.

Lemma NoDup_range_keys {V} (o : MapOrder) (m : gmap string V) :
  NoDup (range_keys o m).
Proof.
  unfold range_keys. rewrite (range_order_perm o _).
  apply NoDup_fst_map_to_list.
Qed.

Lemma length_range_keys {V} (o : MapOrder) (m : gmap string V) :
  length (range_keys o m) = size m.
Proof.
  unfold range_keys. rewrite (Permutation_length (range_order_perm o _)).
  rewrite length_fmap. apply length_map_to_list.
Qed.

(** Two orders give the same lines. *)
Lemma range_keys_perm {V} (o1 o2 : MapOrder) (m : gmap string V) :
  Permutation (range_keys o1 m) (range_keys o2 m).
Proof.
  unfold range_keys.
  etransitivity; [apply range_order_perm|].
  apply Permutation_sym, range_order_perm.
Qed.

Lemma summary_lines_perm (l1 l2 : list string) :
  Permutation l1 l2 -> Permutation (summary_lines l1) (summary_lines l2).
Proof.
  unfold summary_lines. induction 1 as [|x l l' _ IH|x y l|l l' l'' _ IH1 _ IH2]; simpl.
  - constructor.
  - destruct (long_enough x); [now constructor | exact IH].
  - destruct (long_enough x), (long_enough y); try reflexivity. constructor.
  - etransitivity; eassumption.
Qed.

Lemma In_summary_lines (ls : list string) (l : string) :
  In l (summary_lines ls) <-> In l ls /\ (10 <= String.length l)%nat.
Proof.
  unfold summary_lines. rewrite filter_In. unfold long_enough, MainGo.MAX_LEN.
  rewrite negb_true_iff, Nat.ltb_ge. reflexivity.
Qed.

(** Every line read during a walk is free of line feeds and fits the
    buffer of the scanner. *)
Lemma lines_of_lines (vs : list (string * Visit)) :
  Forall (fun l => has_byte LF l = false /\ too_long l = false) (lines_of vs).
Proof.
  induction vs as [|[p v] vs IH].
  - constructor.
  - rewrite lines_of_cons. apply Forall_app. split; [|exact IH].
    unfold visit_lines. simpl. destruct v as [c| | |]; simpl; try constructor.
    destruct (scan_lines c) as [ls|] eqn:E; simpl; [|constructor].
    now apply (scan_lines_lines c).
Qed.

(** A line is read during a walk exactly when some file of the walk has
    it, provided all can be read. *)
Lemma In_lines_of (vs : list (string * Visit)) (l : string) :
  forallb readable vs = true ->
  In l (lines_of vs) <->
  exists path content lines,
    In (path, VFile content) vs /\ scan_lines content = Some lines /\ In l lines.
Proof.
  intros Hall. unfold lines_of. rewrite in_flat_map. split.
  - intros ([p v] & Hpv & Hl).
    rewrite forallb_forall in Hall. specialize (Hall _ Hpv).
    unfold readable, visit_lines in Hall, Hl. simpl in Hall, Hl.
    destruct v as [c| | |]; simpl in Hl; try contradiction; try discriminate.
    destruct (scan_lines c) as [ls|] eqn:E; [|discriminate].
    exists p, c, ls. auto.
  - intros (p & c & ls & Hpv & Hs & Hl). exists (p, VFile c). split; [exact Hpv|].
    unfold visit_lines. simpl. rewrite Hs. exact Hl.
Qed.

Lemma unique_set_inv logDir d m :
  unique_set logDir d = inr m ->
  exists root,
    d = Some root /\
    m = add_lines ∅ (lines_of (Walk logDir root)) /\
    forallb readable (Walk logDir root) = true.
Proof.
  unfold unique_set. destruct d as [root|]; [|discriminate].
  intros H. apply foldE_unique in H as [-> Hall]. eauto.
Qed.

Lemma In_add_lines (lines : list string) (l : string) :
  l ∈ dom (add_lines ∅ lines) <-> In l lines.
Proof. rewrite elem_of_add_lines. apply list_elem_of_In. Qed.

(** The unique lines are lines of the walk: free of line feeds, and short
    enough for the scanner. *)
Lemma range_keys_lines (o : MapOrder) (vs : list (string * Visit)) :
  Forall (fun l => has_byte LF l = false /\ too_long l = false)
         (range_keys o (add_lines ∅ (lines_of vs))).
Proof.
  apply List.Forall_forall. intros l Hl.
  apply In_range_keys, In_add_lines in Hl.
  pose proof (lines_of_lines vs) as H.
  rewrite List.Forall_forall in H. now apply H.
Qed.

Lemma summary_lines_lines (ls : list string) :
  Forall (fun l => has_byte LF l = false /\ too_long l = false) ls ->
  Forall (fun l => has_byte LF l = false /\ too_long l = false) (summary_lines ls).
Proof.
  rewrite !List.Forall_forall. intros H l Hl.
  apply In_summary_lines in Hl as [Hl _]. now apply H.
Qed.

Lemma summary_of_created (pre post : list (string * node)) (c : string) (t : list Event) :
  lookup_entry "summary.txt" pre = None ->
  summary_of {| histdir := Some (Directory (pre ++ ("summary.txt", File c) :: post));
                trace := t |} = Some c.
Proof.
  intros Hpre. unfold summary_of. simpl histdir. cbv iota beta.
  rewrite (lookup_entry_app _ _ _ Hpre). reflexivity.
Qed.

(** ** The summary file *)

(** C2, as amended.  In src/main.go every line that [generateSummaryFile]
    writes to summary.txt has at least ten bytes, and the lines of the file
    are the lines written. *)
Theorem summary_lines_at_least_ten (env : Env) (logDir : string) (w w' : World) :
  MainGo.generateSummaryFile env logDir w = Ok tt w' ->
  exists emitted,
    summary_of w' = Some (text emitted) /\
    raw_lines (text emitted) = emitted /\
    Forall (fun line => (10 <= String.length line)%nat) emitted.
Proof.
  intros H. apply MainGo_generateSummaryFile_inv in H as (es & m & es' & Hes & Hm & Hc & ->).
  apply create_entry_spec in Hc as (pre & post & -> & _ & Hpre & _ & _).
  apply unique_set_inv in Hm as (root & [= <-] & -> & _).
  exists (summary_lines (range_keys (env_order env)
            (add_lines ∅ (lines_of (Walk logDir (Directory es)))))).
  split; [|split].
  - now apply summary_of_created.
  - apply raw_lines_text.
    eapply Forall_impl; [apply summary_lines_lines, range_keys_lines|].
    intros l [Hl _]. exact Hl.
  - apply List.Forall_forall. intros l Hl. now apply In_summary_lines in Hl.
Qed.

Lemma summary_lines_at_least_ten_witness :
  MainGo.generateSummaryFile sample_env "/home/op/tarsnap/data/bash_history"
    (in_dir two_files)
  = Ok tt (world_of (MainGo.generateSummaryFile sample_env
                       "/home/op/tarsnap/data/bash_history" (in_dir two_files))) /\
  exists emitted,
    summary_of (world_of (MainGo.generateSummaryFile sample_env
                            "/home/op/tarsnap/data/bash_history" (in_dir two_files)))
    = Some (text emitted) /\
    raw_lines (text emitted) = emitted /\
    Forall (fun line => (10 <= String.length line)%nat) emitted.
Proof.
  split.
  - vm_compute. reflexivity.
  - apply (summary_lines_at_least_ten sample_env "/home/op/tarsnap/data/bash_history"
             (in_dir two_files)).
    vm_compute. reflexivity.
Defined.

(** The earlier revision writes every unique line, the short ones too. *)
Lemma part000_summary_has_short_lines :
  exists w' content,
    Part000.generateSummaryFile sample_env "./data/bash_history" (in_dir two_files)
    = Ok tt w' /\
    summary_of w' = Some content /\
    ~ Forall (fun line => (10 <= String.length line)%nat) (raw_lines content).
Proof.
  eexists. eexists. split; [vm_compute; reflexivity|]. split; [vm_compute; reflexivity|].
  intros H. vm_compute in H. inversion H as [|? ? Hlen _]. simpl in Hlen. lia.
Qed.

(** The filter of main.go counts bytes: a line of five characters that
    take two bytes each is long enough for it. *)
Lemma filter_counts_bytes :
  exists w',
    MainGo.generateSummaryFile sample_env "/home/op/tarsnap/data/bash_history"
      (in_dir accent_dir) = Ok tt w' /\
    summary_of w' = Some (text [five_letters]) /\
    String.length five_letters = 10%nat /\
    utf8_length five_letters = 5%nat.
Proof.
  eexists. split; [vm_compute; reflexivity|]. repeat split; vm_compute; reflexivity.
Qed.

(** ** The deduplicated set *)

(** C4. The lines that [getUniqueBashLines] returns are pairwise distinct,
    and a string is among them exactly when some file of the directory has
    it as a line, byte for byte; they are the members of the aggregated
    sequence, which [getUniqueLineCount] counts. *)
Theorem unique_lines_are_read_lines
    (env : Env) (logDir : string) (w w' : World) (ul : list string) :
  getUniqueBashLines env logDir w = Ok ul w' ->
  exists root,
    histdir w = Some root /\
    NoDup ul /\
    (forall line, In line ul <->
       exists path content lines,
         In (path, VFile content) (Walk logDir root) /\
         scan_lines content = Some lines /\ In line lines) /\
    exists counts aggregateLines,
      aggregate logDir w = Ok (counts, aggregateLines) w /\
      (forall line, In line ul <-> In line aggregateLines) /\
      getUniqueLineCount aggregateLines = length ul.
Proof.
  intros H. apply getUniqueBashLines_inv in H as (-> & m & Hm & ->).
  destruct (unique_set_aggregate _ _ _ Hm) as (counts & agg & Hagg & Hmagg).
  apply unique_set_inv in Hm as (root & Hroot & Hmw & Hall).
  exists root. split; [exact Hroot|]. split; [apply NoDup_range_keys|]. split.
  - intros line. rewrite In_range_keys, Hmw, In_add_lines. now apply In_lines_of.
  - exists counts, agg. split; [exact Hagg|]. split.
    + intros line. rewrite In_range_keys, Hmagg, In_add_lines. reflexivity.
    + rewrite length_range_keys, Hmagg. reflexivity.
Qed.

Lemma unique_lines_are_read_lines_witness :
  getUniqueBashLines sample_env "/home/op/tarsnap/data/bash_history" (in_dir two_files)
  = Ok ["cd /tmp"; "echo hello world"; "ls -la"] (in_dir two_files) /\
  exists root,
    histdir (in_dir two_files) = Some root /\
    NoDup ["cd /tmp"; "echo hello world"; "ls -la"] /\
    (forall line, In line ["cd /tmp"; "echo hello world"; "ls -la"] <->
       exists path content lines,
         In (path, VFile content) (Walk "/home/op/tarsnap/data/bash_history" root) /\
         scan_lines content = Some lines /\ In line lines) /\
    exists counts aggregateLines,
      aggregate "/home/op/tarsnap/data/bash_history" (in_dir two_files)
      = Ok (counts, aggregateLines) (in_dir two_files) /\
      (forall line, In line ["cd /tmp"; "echo hello world"; "ls -la"]
                    <-> In line aggregateLines) /\
      getUniqueLineCount aggregateLines = length ["cd /tmp"; "echo hello world"; "ls -la"].
Proof.
  split.
  - vm_compute. reflexivity.
  - apply (unique_lines_are_read_lines sample_env "/home/op/tarsnap/data/bash_history"
             (in_dir two_files) (in_dir two_files)).
    vm_compute. reflexivity.
Defined.

(** Lines that look alike are different lines: nothing is trimmed or
    folded before the comparison; only the repeated line is dropped. *)
Lemma look_alikes_are_distinct :
  getUniqueLineCount look_alikes = 5%nat /\ length look_alikes = 6%nat.
Proof. split; vm_compute; reflexivity. Qed.

(** ** The directory with two files *)

Lemma two_files_readable (logDir : string) :
  forallb readable (Walk logDir two_files) = true.
Proof. reflexivity. Qed.

Lemma two_files_lines_of (logDir : string) :
  lines_of (Walk logDir two_files) = two_files_lines.
Proof. reflexivity. Qed.

Lemma two_files_unique_set (logDir : string) :
  unique_set logDir (Some two_files) = inr (add_lines ∅ two_files_lines).
Proof.
  unfold unique_set. rewrite foldE_unique_total by apply two_files_readable.
  now rewrite two_files_lines_of.
Qed.

(** The aggregate of the two files has five entries, not four. *)
Lemma two_files_aggregate_is_not_four :
  exists counts,
    aggregate "/home/op/tarsnap/data/bash_history" (in_dir two_files)
    = Ok (counts, two_files_lines) (in_dir two_files) /\
    length two_files_lines <> 4%nat.
Proof.
  unfold aggregate. simpl histdir.
  destruct (foldE_aggregate_total (Walk "/home/op/tarsnap/data/bash_history" two_files)
              (∅, []) eq_refl) as [counts Hc].
  exists counts. rewrite Hc. split; [reflexivity|]. vm_compute. discriminate.
Qed.

(** C1, as amended.  For the directory with a.txt and b.txt the aggregate
    has five entries (three lines and two lines), the unique lines are the
    three lines "ls -la", "cd /tmp" and "echo hello world", and summary.txt
    holds the one line "echo hello world", whatever the order of [range]. *)
Theorem two_files_scenario (env : Env) (logDir : string) :
  (exists counts,
     aggregate logDir (in_dir two_files) = Ok (counts, two_files_lines) (in_dir two_files)) /\
  length two_files_lines = 5%nat /\
  getUniqueLineCount two_files_lines = 3%nat /\
  (exists ul,
     getUniqueBashLines env logDir (in_dir two_files) = Ok ul (in_dir two_files) /\
     Permutation ul ["ls -la"; "cd /tmp"; "echo hello world"]) /\
  exists w',
    MainGo.generateSummaryFile env logDir (in_dir two_files) = Ok tt w' /\
    summary_of w' = Some (text ["echo hello world"]) /\
    raw_lines (text ["echo hello world"]) = ["echo hello world"].
Proof.
  assert (Permutation (range_keys (env_order env) (add_lines ∅ two_files_lines))
                      ["cd /tmp"; "echo hello world"; "ls -la"]) as Hperm.
  { etransitivity; [apply (range_keys_perm _ order_id)|]. vm_compute. reflexivity. }
  split; [|split; [|split; [|split]]].
  - unfold aggregate. simpl histdir.
    destruct (foldE_aggregate_total (Walk logDir two_files) (∅, [])
                (two_files_readable logDir)) as [counts Hc].
    exists counts. rewrite Hc, two_files_lines_of. reflexivity.
  - reflexivity.
  - vm_compute. reflexivity.
  - eexists. split.
    + unfold getUniqueBashLines. simpl histdir. rewrite two_files_unique_set. reflexivity.
    + etransitivity; [exact Hperm|].
      apply Permutation_sym. etransitivity; [apply perm_swap|]. apply perm_skip, perm_swap.
  - apply summary_lines_perm in Hperm.
    change (summary_lines ["cd /tmp"; "echo hello world"; "ls -la"])
      with ["echo hello world"] in Hperm.
    apply Permutation_sym, Permutation_length_1_inv in Hperm.
    eexists. split; [|split].
    + apply (MainGo_generateSummaryFile_intro env logDir (in_dir two_files)
               [("a.txt", File a_txt); ("b.txt", File b_txt)]
               (add_lines ∅ two_files_lines)).
      * reflexivity.
      * apply two_files_unique_set.
      * rewrite Hperm. vm_compute. reflexivity.
    + vm_compute. reflexivity.
    + vm_compute. reflexivity.
Qed.

(** ** The order of the lines *)

Lemma add_lines_perm (lines1 lines2 : list string) :
  Permutation lines1 lines2 -> add_lines ∅ lines1 = add_lines ∅ lines2.
Proof.
  intros Hp. apply LineSet_eq. apply set_eq. intros l.
  rewrite !In_add_lines. split; apply Permutation_in; [|apply Permutation_sym]; exact Hp.
Qed.

Lemma forallb_perm {A} (f : A -> bool) (l1 l2 : list A) :
  Permutation l1 l2 -> forallb f l1 = true -> forallb f l2 = true.
Proof.
  intros Hp. rewrite !forallb_forall. intros H x Hx.
  apply H. eapply Permutation_in; [apply Permutation_sym|]; eassumption.
Qed.

(** The entries of the directory in another order: the same set. *)
Lemma order_of_entries_is_irrelevant
    (logDir : string) (es1 es2 : list (string * node)) (m : LineSet) :
  Permutation es1 es2 ->
  unique_set logDir (Some (Directory es1)) = inr m ->
  unique_set logDir (Some (Directory es2)) = inr m.
Proof.
  intros Hp H. apply unique_set_inv in H as (root & [= <-] & -> & Hall).
  unfold unique_set. rewrite foldE_unique_total.
  - f_equal. apply add_lines_perm. rewrite !lines_of_Directory.
    apply Permutation_flat_map, Permutation_sym, Hp.
  - rewrite readable_Directory in *. eapply forallb_perm; eassumption.
Qed.

(** C9. The set that [getUniqueBashLines] computes from the directory is
    the same when the entries of the directory are visited in another order,
    and it is the set of every rearrangement of the aggregate line sequence,
    which has the same number of unique lines; the lines that pass the
    filter of the summary are the same whatever the order of [range]. *)
Theorem order_of_lines_is_irrelevant
    (logDir : string) (w : World) (m : LineSet) (o1 o2 : MapOrder) :
  unique_set logDir (histdir w) = inr m ->
  (forall es1 es2,
     histdir w = Some (Directory es1) -> Permutation es1 es2 ->
     unique_set logDir (Some (Directory es2)) = inr m) /\
  exists counts aggregateLines,
    aggregate logDir w = Ok (counts, aggregateLines) w /\
    forall lines, Permutation aggregateLines lines ->
      add_lines ∅ lines = m /\
      getUniqueLineCount lines = getUniqueLineCount aggregateLines /\
      Permutation (summary_lines (range_keys o1 m))
                  (summary_lines (range_keys o2 (add_lines ∅ lines))).
Proof.
  intros Hm. split.
  - intros es1 es2 Hes Hp. rewrite Hes in Hm.
    now apply (order_of_entries_is_irrelevant logDir es1 es2).
  - destruct (unique_set_aggregate _ _ _ Hm) as (counts & agg & Hagg & ->).
    exists counts, agg. split; [exact Hagg|]. intros lines Hp.
    rewrite <- (add_lines_perm _ _ Hp). split; [reflexivity|]. split.
    + unfold getUniqueLineCount. now rewrite (add_lines_perm _ _ Hp).
    + apply summary_lines_perm, range_keys_perm.
Qed.

Lemma order_of_lines_is_irrelevant_witness :
  unique_set "/home/op/tarsnap/data/bash_history" (histdir (in_dir two_files))
  = inr (add_lines ∅ two_files_lines) /\
  (forall es1 es2,
     histdir (in_dir two_files) = Some (Directory es1) -> Permutation es1 es2 ->
     unique_set "/home/op/tarsnap/data/bash_history" (Some (Directory es2))
     = inr (add_lines ∅ two_files_lines)) /\
  exists counts aggregateLines,
    aggregate "/home/op/tarsnap/data/bash_history" (in_dir two_files)
    = Ok (counts, aggregateLines) (in_dir two_files) /\
    forall lines, Permutation aggregateLines lines ->
      add_lines ∅ lines = add_lines ∅ two_files_lines /\
      getUniqueLineCount lines = getUniqueLineCount aggregateLines /\
      Permutation (summary_lines (range_keys order_id (add_lines ∅ two_files_lines)))
                  (summary_lines (range_keys order_rev (add_lines ∅ lines))).
Proof.
  split.
  - vm_compute. reflexivity.
  - apply (order_of_lines_is_irrelevant "/home/op/tarsnap/data/bash_history"
             (in_dir two_files) (add_lines ∅ two_files_lines) order_id order_rev).
    vm_compute. reflexivity.
Defined.

(** ** Running again *)

Lemma In_lines_of_Directory (logDir : string) (es : list (string * node)) (l : string) :
  In l (lines_of (Walk logDir (Directory es))) <->
  exists e, In e es /\ In l (lines_of (Walk (Join [logDir; e.1]) e.2)).
Proof. rewrite lines_of_Directory, in_flat_map. reflexivity. Qed.

Lemma readable_Directory_forall (logDir : string) (es : list (string * node)) :
  forallb readable (Walk logDir (Directory es)) = true <->
  forall e, In e es -> forallb readable (Walk (Join [logDir; e.1]) e.2) = true.
Proof. rewrite readable_Directory, forallb_forall. reflexivity. Qed.

Lemma lines_of_File (path c : string) (ls : list string) :
  scan_lines c = Some ls -> lines_of (Walk path (File c)) = ls.
Proof.
  intros H. unfold lines_of, visit_lines. simpl. rewrite H. simpl. apply app_nil_r.
Qed.

Lemma readable_File (path c : string) (ls : list string) :
  scan_lines c = Some ls -> forallb readable (Walk path (File c)) = true.
Proof. intros H. unfold readable, visit_lines. simpl. now rewrite H. Qed.

(** A regular file of the directory is visited by the walk, and its lines
    are among the lines of the walk. *)
Lemma file_entry_is_read (logDir name c : string) (es : list (string * node))
    (ls : list string) :
  In (name, File c) es ->
  scan_lines c = Some ls ->
  In (Join [logDir; name], VFile c) (Walk logDir (Directory es)) /\
  incl ls (lines_of (Walk logDir (Directory es))).
Proof.
  intros Hin Hs. split.
  - rewrite Walk_Directory. right. apply in_flat_map.
    exists (name, File c). split; [exact Hin | left; reflexivity].
  - intros l Hl. apply In_lines_of_Directory. exists (name, File c).
    split; [exact Hin|]. cbn [fst snd]. erewrite lines_of_File; eassumption.
Qed.

(** The directory after summary.txt is written over, seen by the next
    walk: the entries that were there, and the new file. *)
Lemma walk_after_create (logDir name c : string) (pre post es : list (string * node))
    (ls : list string) :
  es = pre ++ post \/ (exists c0, es = pre ++ (name, File c0) :: post) ->
  forallb readable (Walk logDir (Directory es)) = true ->
  scan_lines c = Some ls ->
  forallb readable (Walk logDir (Directory (pre ++ (name, File c) :: post))) = true /\
  (forall l,
     In l (lines_of (Walk logDir (Directory (pre ++ (name, File c) :: post)))) ->
     In l ls \/ In l (lines_of (Walk logDir (Directory es)))) /\
  (forall l, In l ls ->
     In l (lines_of (Walk logDir (Directory (pre ++ (name, File c) :: post))))).
Proof.
  intros Hes Hall Hs.
  assert (forall e, In e pre \/ In e post -> In e es) as Hsub.
  { intros e He. destruct Hes as [-> | (c0 & ->)]; apply in_app_iff.
    - exact He.
    - destruct He; [left | right; right]; assumption. }
  rewrite readable_Directory_forall in Hall. split; [|split].
  - apply readable_Directory_forall. intros e He.
    apply in_app_iff in He as [He | [<- | He]].
    + apply Hall, Hsub. now left.
    + cbn [fst snd]. now apply (readable_File _ _ ls).
    + apply Hall, Hsub. now right.
  - intros l Hl. apply In_lines_of_Directory in Hl as (e & He & Hl).
    apply in_app_iff in He as [He | [<- | He]].
    + right. apply In_lines_of_Directory. exists e. split; [apply Hsub; now left | exact Hl].
    + left. cbn [fst snd] in Hl. erewrite lines_of_File in Hl; eassumption.
    + right. apply In_lines_of_Directory. exists e. split; [apply Hsub; now right | exact Hl].
  - intros l Hl. apply In_lines_of_Directory. exists (name, File c). split.
    + apply in_app_iff. right. left. reflexivity.
    + cbn [fst snd]. erewrite lines_of_File; eassumption.
Qed.

Lemma map_dropCR_no_CR (ls : list string) :
  Forall no_CR ls -> map dropCR ls = ls.
Proof.
  induction 1 as [|l ls Hl _ IH]; simpl; [reflexivity|].
  unfold no_CR in Hl. now rewrite Hl, IH.
Qed.

Lemma NoDup_summary_lines (ls : list string) : NoDup ls -> NoDup (summary_lines ls).
Proof.
  intros H. apply NoDup_ListNoDup. apply List.NoDup_filter. now apply NoDup_ListNoDup.
Qed.

Lemma no_LF_of_lines (ls : list string) :
  Forall (fun l => has_byte LF l = false /\ too_long l = false) ls ->
  Forall (fun l => has_byte LF l = false) ls.
Proof. intros H. eapply Forall_impl; [exact H|]. intros l [Hl _]. exact Hl. Qed.

(** The second of two runs in a row writes the lines of the first, when no
    line of the first summary ends in a carriage return. *)
Lemma second_summary_lines (o1 o2 : MapOrder) (L L1 : list string) :
  (forall l, In l L1 ->
     In l (summary_lines (range_keys o1 (add_lines ∅ L))) \/ In l L) ->
  (forall l, In l (summary_lines (range_keys o1 (add_lines ∅ L))) -> In l L1) ->
  Permutation (summary_lines (range_keys o1 (add_lines ∅ L)))
              (summary_lines (range_keys o2 (add_lines ∅ L1))).
Proof.
  intros Hsub Hsup. apply NoDup_Permutation.
  - apply NoDup_summary_lines, NoDup_range_keys.
  - apply NoDup_summary_lines, NoDup_range_keys.
  - intros l. rewrite !list_elem_of_In. split.
    + intros Hl. pose proof (Hsup l Hl) as Hl1.
      apply In_summary_lines in Hl as [_ Hlen].
      apply In_summary_lines. split; [|exact Hlen].
      now apply In_range_keys, In_add_lines.
    + intros Hl. apply In_summary_lines in Hl as [Hl Hlen].
      apply In_range_keys, In_add_lines in Hl.
      destruct (Hsub l Hl) as [Hs | HL]; [exact Hs|].
      apply In_summary_lines. split; [|exact Hlen].
      now apply In_range_keys, In_add_lines.
Qed.

(** C5, as amended.  Two runs of [generateSummaryFile] of src/main.go write
    the same lines, up to their order, when both start from the same
    directory; and when the second follows the first on the directory that
    the first has left, provided no line of the first summary ends in a
    carriage return. *)
Theorem rerun_gives_same_summary
    (env1 env2 : Env) (logDir : string) (w0 w1 : World) :
  MainGo.generateSummaryFile env1 logDir w0 = Ok tt w1 ->
  exists c1,
    summary_of w1 = Some c1 /\
    (exists w1' c1',
       MainGo.generateSummaryFile env2 logDir w0 = Ok tt w1' /\
       summary_of w1' = Some c1' /\
       Permutation (raw_lines c1) (raw_lines c1')) /\
    (Forall no_CR (raw_lines c1) ->
     exists w2 c2,
       MainGo.generateSummaryFile env2 logDir w1 = Ok tt w2 /\
       summary_of w2 = Some c2 /\
       Permutation (raw_lines c1) (raw_lines c2)).
Proof.
  intros H.
  apply MainGo_generateSummaryFile_inv in H as (es & m & es' & Hes & Hm & Hc & ->).
  apply create_entry_spec in Hc as (pre & post & -> & Hshape & Hpre & Hsame & Hre).
  destruct (unique_set_inv _ _ _ Hm) as (root & [= <-] & -> & Hall).
  pose proof (summary_lines_lines _
                (range_keys_lines (env_order env1) (Walk logDir (Directory es)))) as HS1.
  pose proof (raw_lines_text _ (no_LF_of_lines _ HS1)) as Hraw1.
  eexists. split; [now apply summary_of_created|]. rewrite Hraw1. split.
  - eexists. eexists. split; [|split].
    + eapply MainGo_generateSummaryFile_intro; [exact Hes | exact Hm | apply Hsame].
    + now apply summary_of_created.
    + rewrite raw_lines_text
        by apply no_LF_of_lines, summary_lines_lines, range_keys_lines.
      apply summary_lines_perm, range_keys_perm.
  - intros Hcr.
    assert (scan_lines (text (summary_lines (range_keys (env_order env1)
              (add_lines ∅ (lines_of (Walk logDir (Directory es)))))))
            = Some (summary_lines (range_keys (env_order env1)
              (add_lines ∅ (lines_of (Walk logDir (Directory es))))))) as Hscan.
    { rewrite (scan_lines_text _ HS1). f_equal. now apply map_dropCR_no_CR. }
    destruct (walk_after_create logDir "summary.txt" _ pre post es _ Hshape Hall Hscan)
      as (Hall1 & Hsub1 & Hsup1).
    eexists. eexists. split; [|split].
    + eapply MainGo_generateSummaryFile_intro.
      * reflexivity.
      * unfold unique_set. apply foldE_unique_total. exact Hall1.
      * apply Hre.
    + now apply summary_of_created.
    + rewrite raw_lines_text
        by apply no_LF_of_lines, summary_lines_lines, range_keys_lines.
      apply second_summary_lines; assumption.
Qed.

Lemma rerun_gives_same_summary_witness :
  MainGo.generateSummaryFile sample_env "/home/op/tarsnap/data/bash_history"
    (in_dir two_files)
  = Ok tt (world_of (MainGo.generateSummaryFile sample_env
                       "/home/op/tarsnap/data/bash_history" (in_dir two_files))) /\
  exists c1,
    summary_of (world_of (MainGo.generateSummaryFile sample_env
                            "/home/op/tarsnap/data/bash_history" (in_dir two_files)))
    = Some c1 /\
    (exists w1' c1',
       MainGo.generateSummaryFile (with_order sample_env order_rev)
         "/home/op/tarsnap/data/bash_history" (in_dir two_files) = Ok tt w1' /\
       summary_of w1' = Some c1' /\
       Permutation (raw_lines c1) (raw_lines c1')) /\
    (Forall no_CR (raw_lines c1) ->
     exists w2 c2,
       MainGo.generateSummaryFile (with_order sample_env order_rev)
         "/home/op/tarsnap/data/bash_history"
         (world_of (MainGo.generateSummaryFile sample_env
                      "/home/op/tarsnap/data/bash_history" (in_dir two_files)))
       = Ok tt w2 /\
       summary_of w2 = Some c2 /\
       Permutation (raw_lines c1) (raw_lines c2)).
Proof.
  split.
  - vm_compute. reflexivity.
  - apply (rerun_gives_same_summary sample_env (with_order sample_env order_rev)
             "/home/op/tarsnap/data/bash_history" (in_dir two_files)).
    vm_compute. reflexivity.
Defined.

(** A line that ends in a carriage return is written with it and read back
    without it: the second run in a row finds a line that the first did not
    have, and writes two lines where the first wrote one. *)
Lemma rerun_after_CR_line_differs :
  exists w1 w2 c1 c2,
    MainGo.generateSummaryFile sample_env "/home/op/tarsnap/data/bash_history"
      (in_dir cr_dir) = Ok tt w1 /\
    MainGo.generateSummaryFile sample_env "/home/op/tarsnap/data/bash_history" w1
    = Ok tt w2 /\
    summary_of w1 = Some c1 /\
    summary_of w2 = Some c2 /\
    length (raw_lines c1) = 1%nat /\
    length (raw_lines c2) = 2%nat /\
    ~ Permutation (raw_lines c1) (raw_lines c2).
Proof.
  do 4 eexists.
  split; [vm_compute; reflexivity|].
  split; [vm_compute; reflexivity|].
  split; [vm_compute; reflexivity|].
  split; [vm_compute; reflexivity|].
  split; [vm_compute; reflexivity|].
  split; [vm_compute; reflexivity|].
  intros Hp. apply Permutation_length in Hp. vm_compute in Hp. discriminate.
Qed.

(** ** The summary is an input of the next run *)

(** Writing a file of another name leaves an entry where it is. *)
Lemma create_entry_keeps (name c n : string) (x : node) (es es' : list (string * node)) :
  create_entry name c es = Some es' ->
  n <> name -> In (n, x) es -> In (n, x) es'.
Proof.
  intros Hc Hn Hin.
  apply create_entry_spec in Hc as (pre & post & -> & Hshape & _).
  apply in_app_iff.
  destruct Hshape as [-> | (c0 & ->)]; apply in_app_iff in Hin as [Hin | Hin].
  - now left.
  - right. now right.
  - now left.
  - destruct Hin as [[= <- _] | Hin]; [congruence|]. right. now right.
Qed.

Lemma aggregate_inv logDir w st w' :
  aggregate logDir w = Ok st w' ->
  exists root,
    histdir w = Some root /\ w' = w /\
    st.2 = lines_of (Walk logDir root) /\
    forallb readable (Walk logDir root) = true.
Proof.
  unfold aggregate. destruct (histdir w) as [root|]; [|discriminate].
  destruct (foldE aggregate_visit _ _) as [e|st0] eqn:E; [discriminate|].
  intros [= <- <-]. apply foldE_aggregate in E as [Hst Hall]. eauto.
Qed.

Lemma aggregate_intro logDir w root :
  histdir w = Some root ->
  forallb readable (Walk logDir root) = true ->
  exists counts, aggregate logDir w = Ok (counts, lines_of (Walk logDir root)) w.
Proof.
  intros Hroot Hall. unfold aggregate. rewrite Hroot.
  destruct (foldE_aggregate_total _ (∅, []) Hall) as [counts Hcounts].
  rewrite Hcounts. eauto.
Qed.

Lemma getUniqueBashLines_intro env logDir w root :
  histdir w = Some root ->
  forallb readable (Walk logDir root) = true ->
  getUniqueBashLines env logDir w =
  Ok (range_keys (env_order env) (add_lines ∅ (lines_of (Walk logDir root)))) w.
Proof.
  intros Hroot Hall. unfold getUniqueBashLines, unique_set. rewrite Hroot.
  now rewrite (foldE_unique_total _ ∅ Hall).
Qed.

(** C10. [generateSummaryFile] leaves summary.txt as a regular file of the
    directory that is walked; the next walk visits it, and its lines are in
    the aggregate sequence and in the unique set of the next run, also after
    the next capture has been copied in. *)
Theorem summary_is_read_by_the_next_run
    (env env' : Env) (logDir : string) (w0 w1 : World) :
  MainGo.generateSummaryFile env logDir w0 = Ok tt w1 ->
  exists es1 c1 ls1,
    histdir w1 = Some (Directory es1) /\
    In ("summary.txt", File c1) es1 /\
    summary_of w1 = Some c1 /\
    scan_lines c1 = Some ls1 /\
    In (Join [logDir; "summary.txt"], VFile c1) (Walk logDir (Directory es1)) /\
    (exists counts aggregateLines,
       aggregate logDir w1 = Ok (counts, aggregateLines) w1 /\
       incl ls1 aggregateLines) /\
    (exists uniqueLines,
       getUniqueBashLines env' logDir w1 = Ok uniqueLines w1 /\
       incl ls1 uniqueLines) /\
    (forall capture history msg w2 st w3,
       capture <> "summary.txt" ->
       write_file capture history msg w1 = Ok tt w2 ->
       aggregate logDir w2 = Ok st w3 ->
       incl ls1 st.2).
Proof.
  intros H.
  apply MainGo_generateSummaryFile_inv in H as (es & m & es' & Hes & Hm & Hc & ->).
  apply create_entry_spec in Hc as (pre & post & -> & Hshape & Hpre & _ & _).
  destruct (unique_set_inv _ _ _ Hm) as (root & [= <-] & -> & Hall).
  pose proof (summary_lines_lines _
                (range_keys_lines (env_order env) (Walk logDir (Directory es)))) as HS1.
  pose proof (scan_lines_text _ HS1) as Hscan.
  destruct (walk_after_create logDir "summary.txt" _ pre post es _ Hshape Hall Hscan)
    as (Hall1 & _ & Hsup1).
  clear Hm HS1.
  set (S1 := summary_lines (range_keys (env_order env)
               (add_lines ∅ (lines_of (Walk logDir (Directory es)))))) in *.
  clearbody S1.
  assert (In ("summary.txt", File (text S1)) (pre ++ ("summary.txt", File (text S1)) :: post))
    as Hin.
  { apply in_app_iff. right. left. reflexivity. }
  exists (pre ++ ("summary.txt", File (text S1)) :: post), (text S1), (map dropCR S1).
  split; [reflexivity|]. split; [exact Hin|].
  split; [now apply summary_of_created|]. split; [exact Hscan|].
  split; [exact (proj1 (file_entry_is_read logDir _ _ _ _ Hin Hscan))|].
  split; [|split].
  - match goal with
    | |- context [aggregate logDir ?w] =>
        destruct (aggregate_intro logDir w _ eq_refl Hall1) as [counts Hcounts]
    end.
    eexists. eexists. split; [exact Hcounts|].
    intros l Hl. now apply Hsup1.
  - match goal with
    | |- context [getUniqueBashLines env' logDir ?w] =>
        pose proof (getUniqueBashLines_intro env' logDir w _ eq_refl Hall1) as Hul
    end.
    eexists. split; [exact Hul|].
    intros l Hl. apply In_range_keys, In_add_lines. now apply Hsup1.
  - intros capture history msg w2 st w3 Hne Hw Hagg.
    apply write_file_inv in Hw as (es1 & es2 & Hh & Hc2 & ->).
    cbn [histdir] in Hh. injection Hh as <-.
    apply aggregate_inv in Hagg as (root & Hr & _ & -> & _).
    cbn [histdir] in Hr. injection Hr as <-.
    apply (file_entry_is_read logDir "summary.txt" (text S1) es2 (map dropCR S1));
      [|exact Hscan].
    eapply create_entry_keeps; [exact Hc2 | | exact Hin].
    intros E. apply Hne. now symmetry.
Qed.

Lemma summary_is_read_by_the_next_run_witness :
  MainGo.generateSummaryFile sample_env "/home/op/tarsnap/data/bash_history"
    (in_dir two_files)
  = Ok tt (world_of (MainGo.generateSummaryFile sample_env
                       "/home/op/tarsnap/data/bash_history" (in_dir two_files))) /\
  exists es1 c1 ls1,
    histdir (world_of (MainGo.generateSummaryFile sample_env
                         "/home/op/tarsnap/data/bash_history" (in_dir two_files)))
    = Some (Directory es1) /\
    In ("summary.txt", File c1) es1 /\
    summary_of (world_of (MainGo.generateSummaryFile sample_env
                            "/home/op/tarsnap/data/bash_history" (in_dir two_files)))
    = Some c1 /\
    scan_lines c1 = Some ls1 /\
    In (Join ["/home/op/tarsnap/data/bash_history"; "summary.txt"], VFile c1)
       (Walk "/home/op/tarsnap/data/bash_history" (Directory es1)) /\
    (exists counts aggregateLines,
       aggregate "/home/op/tarsnap/data/bash_history"
         (world_of (MainGo.generateSummaryFile sample_env
                      "/home/op/tarsnap/data/bash_history" (in_dir two_files)))
       = Ok (counts, aggregateLines)
            (world_of (MainGo.generateSummaryFile sample_env
                         "/home/op/tarsnap/data/bash_history" (in_dir two_files))) /\
       incl ls1 aggregateLines) /\
    (exists uniqueLines,
       getUniqueBashLines sample_env "/home/op/tarsnap/data/bash_history"
         (world_of (MainGo.generateSummaryFile sample_env
                      "/home/op/tarsnap/data/bash_history" (in_dir two_files)))
       = Ok uniqueLines
            (world_of (MainGo.generateSummaryFile sample_env
                         "/home/op/tarsnap/data/bash_history" (in_dir two_files))) /\
       incl ls1 uniqueLines) /\
    (forall capture history msg w2 st w3,
       capture <> "summary.txt" ->
       write_file capture history msg
         (world_of (MainGo.generateSummaryFile sample_env
                      "/home/op/tarsnap/data/bash_history" (in_dir two_files)))
       = Ok tt w2 ->
       aggregate "/home/op/tarsnap/data/bash_history" w2 = Ok st w3 ->
       incl ls1 st.2).
Proof.
  split.
  - vm_compute. reflexivity.
  - apply (summary_is_read_by_the_next_run sample_env sample_env
             "/home/op/tarsnap/data/bash_history" (in_dir two_files)).
    vm_compute. reflexivity.
Defined.

(** ** The address of the host *)

Lemma ran_app (name : string) (h : option node) (t new : list Event) :
  ran name {| histdir := h; trace := t ++ new |} =
  ran name {| histdir := h; trace := t |} || existsb (is_exec name) new.
Proof. unfold ran. simpl. apply existsb_app. Qed.

(** C6. In src/main.go, when the address that terraform reports is not a
    valid IPv4 address, [getip] ends the run with the diagnostic, and
    [dowork] ends with it: terraform is the only command that was run, scp
    is not, and the directory of captures is as it was. *)
Theorem invalid_address_stops_before_fetch
    (env : Env) (w : World) (cwd value : string) :
  env_getwd env = Some cwd ->
  env_terraform env = TfValue value ->
  MainGo.isValidIPv4 env value = false ->
  exists w',
    MainGo.getip env w = Stop (Fatal ("'" +:+ value +:+ "' is not a valid ip")) w' /\
    MainGo.dowork env w = Stop (Fatal ("'" +:+ value +:+ "' is not a valid ip")) w' /\
    (forall config, MainGo.Install config = false ->
       MainGo.main env config w
       = Stop (Fatal ("'" +:+ value +:+ "' is not a valid ip")) w') /\
    histdir w' = histdir w /\
    trace w' = trace w ++
      [Exec "terraform" ["-chdir=" +:+ Join [cwd; "./terraform"]; "output"; "-json"]] /\
    ran "scp" w' = ran "scp" w.
Proof.
  intros Hwd Htf Hbad.
  assert (MainGo.getip env w
          = Stop (Fatal ("'" +:+ value +:+ "' is not a valid ip"))
              {| histdir := histdir w;
                 trace := trace w ++
                   [Exec "terraform"
                      ["-chdir=" +:+ Join [cwd; "./terraform"]; "output"; "-json"]] |})
    as Hgetip.
  { unfold MainGo.getip. rewrite Hwd. unfold bind, run_terraform, bind, emit.
    rewrite Htf. unfold ret. rewrite Hbad. reflexivity. }
  eexists. split; [exact Hgetip|]. split; [|split; [|split; [|split]]].
  - unfold MainGo.dowork, bind. rewrite Hgetip. reflexivity.
  - intros config Hinst. unfold MainGo.main. rewrite Hinst.
    unfold MainGo.dowork, bind. rewrite Hgetip. reflexivity.
  - reflexivity.
  - reflexivity.
  - destruct w as [h t]. simpl histdir. simpl trace. rewrite ran_app. simpl.
    apply orb_false_r.
Qed.

Lemma invalid_address_stops_before_fetch_witness :
  env_getwd (with_terraform sample_env (TfValue "10.0.0.256")) = Some "/home/op/tarsnap" /\
  env_terraform (with_terraform sample_env (TfValue "10.0.0.256")) = TfValue "10.0.0.256" /\
  MainGo.isValidIPv4 (with_terraform sample_env (TfValue "10.0.0.256")) "10.0.0.256" = false /\
  exists w',
    MainGo.getip (with_terraform sample_env (TfValue "10.0.0.256")) nothing
    = Stop (Fatal ("'" +:+ "10.0.0.256" +:+ "' is not a valid ip")) w' /\
    MainGo.dowork (with_terraform sample_env (TfValue "10.0.0.256")) nothing
    = Stop (Fatal ("'" +:+ "10.0.0.256" +:+ "' is not a valid ip")) w' /\
    (forall config, MainGo.Install config = false ->
       MainGo.main (with_terraform sample_env (TfValue "10.0.0.256")) config nothing
       = Stop (Fatal ("'" +:+ "10.0.0.256" +:+ "' is not a valid ip")) w') /\
    histdir w' = histdir nothing /\
    trace w' = trace nothing ++
      [Exec "terraform"
         ["-chdir=" +:+ Join ["/home/op/tarsnap"; "./terraform"]; "output"; "-json"]] /\
    ran "scp" w' = ran "scp" nothing.
Proof.
  split; [reflexivity|]. split; [reflexivity|]. split; [vm_compute; reflexivity|].
  apply (invalid_address_stops_before_fetch
           (with_terraform sample_env (TfValue "10.0.0.256")) nothing
           "/home/op/tarsnap" "10.0.0.256").
  - reflexivity.
  - reflexivity.
  - vm_compute. reflexivity.
Defined.

(** The earlier revisions hand whatever terraform reports to scp. *)
Lemma part000_fetches_from_invalid_address :
  ran "scp" (world_of (Part000.main (with_terraform sample_env (TfValue "10.0.0.256"))
                         Part000.default_flags nothing)) = true.
Proof. vm_compute. reflexivity. Qed.

(** ** What a run adds to the trace *)

Section Emits.
Variable P : Event -> Prop.

Lemma emits_only_same {A} (m : M A) :
  (forall w, trace (world_of (m w)) = trace w) -> emits_only P m.
Proof.
  intros H w. exists []. rewrite H, app_nil_r. split; [reflexivity | constructor].
Qed.

Lemma emits_only_ret {A} (a : A) : emits_only P (ret a).
Proof. apply emits_only_same. reflexivity. Qed.

Lemma emits_only_halt {A} (h : Halt) : emits_only P (@halt A h).
Proof. apply emits_only_same. reflexivity. Qed.

Lemma emits_only_emit (e : Event) : P e -> emits_only P (emit e).
Proof. intros He w. exists [e]. split; [reflexivity | now constructor]. Qed.

Lemma emits_only_bind {A B} (m : M A) (k : A -> M B) :
  emits_only P m -> (forall a, emits_only P (k a)) -> emits_only P (bind m k).
Proof.
  intros Hm Hk w. unfold bind. destruct (Hm w) as (new1 & Ht1 & HP1).
  destruct (m w) as [a w1 | h w1]; simpl in Ht1.
  - destruct (Hk a w1) as (new2 & Ht2 & HP2). exists (new1 ++ new2).
    rewrite Ht2, Ht1, app_assoc. split; [reflexivity | now apply Forall_app].
  - exists new1. simpl. auto.
Qed.

Lemma emits_only_bind_ret {A B} (a : A) (k : A -> M B) :
  emits_only P (k a) -> emits_only P (bind (ret a) k).
Proof. intros H w. exact (H w). Qed.

Lemma emits_only_getUniqueBashLines env logDir :
  emits_only P (getUniqueBashLines env logDir).
Proof.
  apply emits_only_same. intros w. unfold getUniqueBashLines.
  destruct (unique_set logDir (histdir w)); reflexivity.
Qed.

Lemma emits_only_aggregate localDir : emits_only P (aggregate localDir).
Proof.
  apply emits_only_same. intros w. unfold aggregate.
  destruct (histdir w) as [root|]; [|reflexivity].
  destruct (foldE aggregate_visit _ _); reflexivity.
Qed.

Lemma emits_only_MkdirAll : emits_only P MkdirAll.
Proof.
  apply emits_only_same. intros w. unfold MkdirAll.
  destruct (histdir w) as [[| | |]|]; reflexivity.
Qed.

Lemma emits_only_write_file name c msg : emits_only P (write_file name c msg).
Proof.
  apply emits_only_same. intros w. unfold write_file.
  destruct (histdir w) as [[| | |es]|]; try reflexivity.
  destruct (create_entry name c es); reflexivity.
Qed.

Lemma emits_only_run_scp env args capture :
  P (Exec "scp" args) -> emits_only P (run_scp env args capture).
Proof.
  intros He. unfold run_scp. apply emits_only_bind; [now apply emits_only_emit|].
  intros _. destruct (env_scp env); [apply emits_only_halt | apply emits_only_write_file].
Qed.

Lemma emits_only_prints {A} (a : A) (lines : list string) :
  (forall line, P (Print line)) ->
  emits_only P (foldr (fun line rest => bind (emit (Print line)) (fun _ => rest))
                      (ret a) lines).
Proof.
  intros HP. induction lines as [|l ls IH]; simpl.
  - apply emits_only_ret.
  - apply emits_only_bind; [apply emits_only_emit, HP | intros _; exact IH].
Qed.
End Emits.

Lemma uses_ip_Print (ip text : string) : uses_ip ip (Print text).
Proof. split; [reflexivity | discriminate]. Qed.

Lemma uses_ip_Create (ip path content : string) : uses_ip ip (Create path content).
Proof. split; [reflexivity | discriminate]. Qed.

Lemma uses_ip_scp (ip : string) (rest : list string) :
  uses_ip ip (Exec "scp" (("root@" +:+ ip +:+ ":~/.bash_history") :: rest)).
Proof. split; [reflexivity|]. intros args [= <-]. reflexivity. Qed.

Lemma uses_ip_no_terraform {A} (ip : string) (m : M A) :
  emits_only (uses_ip ip) m ->
  forall w, ran "terraform" (world_of (m w)) = ran "terraform" w.
Proof.
  intros H w. destruct (H w) as (new & Ht & HP). unfold ran. rewrite Ht, existsb_app.
  replace (existsb (is_exec "terraform") new) with false; [apply orb_false_r|].
  symmetry. clear Ht.
  induction HP as [|e new [He _] _ IH]; cbn [existsb]; [reflexivity|].
  now rewrite He, IH.
Qed.

Local Ltac emits_step :=
  first
    [ apply emits_only_ret
    | apply emits_only_halt
    | apply emits_only_getUniqueBashLines
    | apply emits_only_aggregate
    | apply emits_only_MkdirAll
    | apply emits_only_write_file
    | apply emits_only_run_scp; apply uses_ip_scp
    | apply emits_only_emit; first [apply uses_ip_Print | apply uses_ip_Create]
    | apply emits_only_prints; intros; apply uses_ip_Print
    | apply emits_only_bind; [|intros]
    | match goal with
      | |- emits_only _ (match ?x with _ => _ end) => destruct x
      | |- emits_only _ (if ?b then _ else _) => destruct b
      end ].

Lemma part000_main_uses_ip (env : Env) (flags : Part000.Flags) :
  Part000.ip flags <> EmptyString ->
  emits_only (uses_ip (Part000.ip flags)) (Part000.main env flags).
Proof.
  intros Hip. apply String.eqb_neq in Hip.
  unfold Part000.main, Part000.resolve_ip, Part000.generateSummaryFile, Println.
  rewrite Hip. cbv zeta. simpl negb. cbv iota.
  destruct (Part000.showFull flags); [repeat emits_step|].
  destruct (Abs (env_getwd env) (Part000.cwd flags)); [|repeat emits_step].
  apply emits_only_bind_ret. repeat emits_step.
Qed.

Lemma part001_main_uses_ip (env : Env) (flags : Part001.Flags) :
  Part001.ip flags <> EmptyString ->
  emits_only (uses_ip (Part001.ip flags)) (Part001.main env flags).
Proof.
  intros Hip. apply String.eqb_neq in Hip.
  unfold Part001.main, Part001.resolve_ip, Println.
  rewrite Hip. cbv zeta. simpl negb. cbv iota.
  destruct (Abs (env_getwd env) (Part001.cwd flags)); [|repeat emits_step].
  apply emits_only_bind_ret. repeat emits_step.
Qed.

(** C7. In the two revisions that define the flag, part_000 and part_001,
    a value given with -ip is the address of the host as it stands, and the
    run never executes terraform: every scp it runs copies from that host,
    whatever the other flags and whatever the world answers. *)
Theorem ip_flag_skips_terraform
    (env : Env) (flags0 : Part000.Flags) (flags1 : Part001.Flags) :
  Part000.ip flags0 <> EmptyString ->
  Part001.ip flags1 <> EmptyString ->
  (forall w, Part000.resolve_ip env (Part000.ip flags0) w = Ok (Part000.ip flags0) w) /\
  emits_only (uses_ip (Part000.ip flags0)) (Part000.main env flags0) /\
  (forall w, ran "terraform" (world_of (Part000.main env flags0 w)) = ran "terraform" w) /\
  (forall w, Part001.resolve_ip env (Part001.ip flags1) w = Ok (Part001.ip flags1) w) /\
  emits_only (uses_ip (Part001.ip flags1)) (Part001.main env flags1) /\
  (forall w, ran "terraform" (world_of (Part001.main env flags1 w)) = ran "terraform" w).
Proof.
  intros H0 H1.
  pose proof (part000_main_uses_ip env flags0 H0) as E0.
  pose proof (part001_main_uses_ip env flags1 H1) as E1.
  apply String.eqb_neq in H0, H1.
  split; [|split; [|split; [|split; [|split]]]].
  - intros w. unfold Part000.resolve_ip. now rewrite H0.
  - exact E0.
  - now apply (uses_ip_no_terraform (Part000.ip flags0)).
  - intros w. unfold Part001.resolve_ip. now rewrite H1.
  - exact E1.
  - now apply (uses_ip_no_terraform (Part001.ip flags1)).
Qed.

Lemma ip_flag_skips_terraform_witness :
  Part000.ip (ip_flags_000 "10.0.0.5" false) <> EmptyString /\
  Part001.ip (ip_flags_001 "10.0.0.5" false) <> EmptyString /\
  trace (world_of (Part001.main (with_terraform sample_env TfExecError)
                     (ip_flags_001 "10.0.0.5" false) nothing))
  = [Exec "scp" ["root@10.0.0.5:~/.bash_history";
                 "/home/op/tarsnap/data/bash_history/bash_history_20240101_120000.txt"]] /\
  (forall w,
     Part000.resolve_ip (with_terraform sample_env TfExecError)
       (Part000.ip (ip_flags_000 "10.0.0.5" false)) w
     = Ok (Part000.ip (ip_flags_000 "10.0.0.5" false)) w) /\
  emits_only (uses_ip (Part000.ip (ip_flags_000 "10.0.0.5" false)))
    (Part000.main (with_terraform sample_env TfExecError) (ip_flags_000 "10.0.0.5" false)) /\
  (forall w,
     ran "terraform"
       (world_of (Part000.main (with_terraform sample_env TfExecError)
                    (ip_flags_000 "10.0.0.5" false) w))
     = ran "terraform" w) /\
  (forall w,
     Part001.resolve_ip (with_terraform sample_env TfExecError)
       (Part001.ip (ip_flags_001 "10.0.0.5" false)) w
     = Ok (Part001.ip (ip_flags_001 "10.0.0.5" false)) w) /\
  emits_only (uses_ip (Part001.ip (ip_flags_001 "10.0.0.5" false)))
    (Part001.main (with_terraform sample_env TfExecError) (ip_flags_001 "10.0.0.5" false)) /\
  (forall w,
     ran "terraform"
       (world_of (Part001.main (with_terraform sample_env TfExecError)
                    (ip_flags_001 "10.0.0.5" false) w))
     = ran "terraform" w).
Proof.
  split; [simpl; discriminate|]. split; [simpl; discriminate|].
  split; [vm_compute; reflexivity|].
  apply (ip_flag_skips_terraform (with_terraform sample_env TfExecError)
           (ip_flags_000 "10.0.0.5" false) (ip_flags_001 "10.0.0.5" false)).
  - simpl. discriminate.
  - simpl. discriminate.
Defined.

(** The latest revision defines no such flag: a command line with -ip ends
    in [flag.Parse], before anything is run. *)
Lemma main_go_has_no_ip_flag :
  ~ In "ip" MainGo.flag_names /\ In "ip" Part000.flag_names /\ In "ip" Part001.flag_names.
Proof.
  split; [|split].
  - simpl. intros H. repeat destruct H as [H|H]; try discriminate H. exact H.
  - simpl. auto.
  - simpl. auto.
Qed.

Lemma main_go_rejects_ip_flag (env : Env) (config : MainGo.Config) (w : World) :
  exists code, MainGo.run env ["ip"] config w = Stop (Exit code) w.
Proof. exists 2%Z. reflexivity. Qed.

(** ** Paths *)

Lemma Split_nonempty (sep : ascii) (s : string) : Split sep s <> [].
Proof.
  induction s as [|c s IH]; simpl; [discriminate|].
  destruct (Ascii.eqb c sep); [discriminate|].
  destruct (Split sep s); [contradiction | discriminate].
Qed.

Lemma Split_no_sep (sep : ascii) (s : string) :
  has_byte sep s = false -> Split sep s = [s].
Proof.
  induction s as [|c s IH]; simpl; intros H; [reflexivity|].
  apply orb_false_iff in H as [Hc Hs]. now rewrite Hc, (IH Hs).
Qed.

Lemma Split_app_sep (sep : ascii) (d n : string) :
  Split sep (d +:+ String sep n) = Split sep d ++ Split sep n.
Proof.
  induction d as [|c d IH]; simpl.
  - now rewrite Ascii.eqb_refl.
  - rewrite IH. destruct (Ascii.eqb c sep); [reflexivity|].
    pose proof (Split_nonempty sep d) as Hd.
    destruct (Split sep d) as [|x xs]; [contradiction | reflexivity].
Qed.

Lemma last_app_nonempty {A} (l1 l2 : list A) (d : A) :
  l2 <> [] -> List.last (l1 ++ l2) d = List.last l2 d.
Proof.
  intros H. induction l1 as [|a l1 IH]; [reflexivity|].
  simpl. rewrite IH. destruct (l1 ++ l2) eqn:E; [|reflexivity].
  apply app_eq_nil in E as [_ ->]. contradiction.
Qed.

Lemma strip_trailing_slashes_no_slash (n : string) :
  has_byte slash n = false -> strip_trailing_slashes n = n.
Proof.
  induction n as [|c n IH]; simpl; intros H; [reflexivity|].
  apply orb_false_iff in H as [Hc Hn]. rewrite (IH Hn), Hc.
  destruct n; reflexivity.
Qed.

Lemma strip_trailing_slashes_app (d t : string) :
  t <> EmptyString -> strip_trailing_slashes t = t ->
  strip_trailing_slashes (d +:+ t) = d +:+ t.
Proof.
  intros Hne Ht. induction d as [|c d IH]; simpl; [exact Ht|].
  rewrite IH. destruct (d +:+ t) eqn:E; [|reflexivity].
  destruct d; simpl in E; [contradiction | discriminate].
Qed.

(** The last element of a path that ends in a slash and a name. *)
Lemma Base_in_dir (d n : string) :
  n <> EmptyString -> has_byte slash n = false ->
  Base (d +:+ String slash n) = n.
Proof.
  intros Hne Hn. unfold Base.
  replace (String.eqb (d +:+ String slash n) EmptyString) with false
    by (destruct d; reflexivity).
  rewrite strip_trailing_slashes_app.
  - rewrite Split_app_sep, (Split_no_sep slash n Hn).
    rewrite last_app_nonempty by discriminate. simpl.
    apply String.eqb_neq in Hne. now rewrite Hne.
  - discriminate.
  - simpl. rewrite (strip_trailing_slashes_no_slash n Hn).
    destruct n; [contradiction | reflexivity].
Qed.

(** ** Templates *)

Lemma Execute_app {D} (t1 t2 : list (Seg D)) (data : D) :
  Execute (t1 ++ t2) data = Execute t1 data +:+ Execute t2 data.
Proof.
  unfold Execute. induction t1 as [|seg t1 IH]; simpl; [reflexivity|].
  rewrite IH. destruct seg; now rewrite str_app_assoc.
Qed.

(** The repeat interval in the descriptor of main.go. *)
Lemma PlistTemplate_StartInterval (data : MainGo.PlistData) :
  Execute MainGo.PlistTemplate data =
  Execute (firstn 25 MainGo.PlistTemplate) data +:+
  ("  <key>StartInterval</key>" +:+ nl +:+
   "  <integer>" +:+ MainGo.pStartInterval data +:+ "</integer>" +:+ nl) +:+
  Execute (skipn 29 MainGo.PlistTemplate) data.
Proof.
  change MainGo.PlistTemplate with
    (firstn 25 MainGo.PlistTemplate ++
     [Line "  <key>StartInterval</key>"; Lit "  <integer>";
      Field MainGo.pStartInterval; Line "</integer>"] ++
     skipn 29 MainGo.PlistTemplate) at 1.
  rewrite !Execute_app. f_equal.
Qed.

(** ** Installing the task *)

Lemma bind_ok {A B} (m : M A) (k : A -> M B) (w w' : World) (a : A) :
  m w = Ok a w' -> bind m k w = k a w'.
Proof. intros Hm. unfold bind. now rewrite Hm. Qed.

Lemma bind_emit {B} (e : Event) (k : unit -> M B) (w : World) :
  bind (emit e) k w = k tt {| histdir := histdir w; trace := trace w ++ [e] |}.
Proof. reflexivity. Qed.

Lemma trace_grows {A} (m : M A) (w : World) (e : Event) :
  emits_only (fun _ => True) m ->
  In e (trace w) -> In e (trace (world_of (m w))).
Proof.
  intros Hm He. destruct (Hm w) as (new & -> & _). apply in_or_app. now left.
Qed.

Lemma trace_grows_bind {A B} (m : M A) (k : A -> M B) (w : World) (e : Event) :
  In e (trace (world_of (m w))) ->
  (forall a, emits_only (fun _ => True) (k a)) ->
  In e (trace (world_of (bind m k w))).
Proof.
  intros He Hk. unfold bind. destruct (m w) as [a w'|h w']; simpl in *.
  - now apply trace_grows.
  - exact He.
Qed.
Lemma Abs_Some (cwd path : string) :
  Abs (Some cwd) path = Some (if IsAbs path then Clean path else Join [cwd; path]).
Proof. unfold Abs. destruct (IsAbs path); reflexivity. Qed.

Lemma getip_ok (env : Env) (w : World) (cwd value : string) :
  env_getwd env = Some cwd ->
  env_terraform env = TfValue value ->
  MainGo.isValidIPv4 env value = true ->
  MainGo.getip env w =
  Ok (Some value)
     {| histdir := histdir w;
        trace := trace w ++
          [Exec "terraform" ["-chdir=" +:+ Join [cwd; "./terraform"]; "output"; "-json"]] |}.
Proof.
  intros Hwd Htf Hok. unfold MainGo.getip. rewrite Hwd.
  unfold bind, run_terraform, bind, emit. rewrite Htf. unfold ret. rewrite Hok.
  reflexivity.
Qed.

Local Ltac grows_step :=
  first
    [ apply emits_only_ret
    | apply emits_only_halt
    | apply emits_only_emit; exact I
    | apply emits_only_bind; [|intros]
    | match goal with
      | |- emits_only _ (match ?x with _ => _ end) => destruct x
      | |- emits_only _ (if ?b then _ else _) => destruct b
      end ].

Lemma after_create_grows (env : Env) (launctlTask plist : string) :
  emits_only (fun _ => True)
    (bind (MainGo.loadLaunchdTarsnap env launctlTask plist) (fun _ =>
     bind (MainGo.searchLaunchdList env launctlTask) (fun _ =>
     bind (emit (Sleep 500)) (fun _ =>
     bind (MainGo.searchLaunchdList env launctlTask) (fun _ =>
     ret (@None string)))))).
Proof.
  unfold MainGo.loadLaunchdTarsnap, MainGo.searchLaunchdList. repeat grows_step.
Qed.

(** C8. Running src/main.go with -install, the label com.test and a delay
    of five minutes, when terraform reports 10.0.0.5, creates the file
    com.test.10.0.0.5.plist in the LaunchAgents directory of the user; its
    label is com.test.10.0.0.5 and its StartInterval is 300. *)
Theorem install_writes_descriptor
    (env : Env) (config : MainGo.Config) (w : World) (cwd home exePath : string) :
  MainGo.Install config = true ->
  MainGo.ShowFull config = false ->
  MainGo.Label config = "com.test" ->
  MainGo.Delay config = (5 * Minute)%Z ->
  env_getwd env = Some cwd ->
  env_home env = Some home ->
  env_executable env = Some exePath ->
  env_terraform env = TfValue "10.0.0.5" ->
  MainGo.isValidIPv4 env "10.0.0.5" = true ->
  env_create env
    (Join [home; "Library/LaunchAgents/"] +:+ "/" +:+ "com.test.10.0.0.5.plist") = true ->
  exists path data,
    In (Create path (Execute MainGo.PlistTemplate data))
       (trace (world_of (MainGo.main env config w))) /\
    path = Join [home; "Library/LaunchAgents/"] +:+ "/" +:+ "com.test.10.0.0.5.plist" /\
    Base path = "com.test.10.0.0.5.plist" /\
    MainGo.pLabel data = "com.test.10.0.0.5" /\
    MainGo.pIP data = "10.0.0.5" /\
    MainGo.pStartInterval data = "300" /\
    exists before after,
      Execute MainGo.PlistTemplate data =
      before +:+
      ("  <key>StartInterval</key>" +:+ nl +:+ "  <integer>300</integer>" +:+ nl) +:+
      after.
Proof.
  intros Hinst Hshow Hlabel Hdelay Hwd Hhome Hexe Htf Hok Hcreate.
  destruct config as [cIP cLabel cCWD cShow cInst cDelay].
  cbn [MainGo.Install MainGo.ShowFull MainGo.Label MainGo.Delay] in *. subst.
  assert (Base (Join [home; "Library/LaunchAgents/"] +:+ "/" +:+ "com.test.10.0.0.5.plist")
          = "com.test.10.0.0.5.plist") as HBase.
  { apply (Base_in_dir _ "com.test.10.0.0.5.plist"); [discriminate | reflexivity]. }
  eexists. eexists. split; [|split; [|split; [|split; [|split; [|split]]]]].
  - unfold MainGo.main.
    cbn [MainGo.Install MainGo.ShowFull MainGo.Label MainGo.Delay MainGo.CWD].
    apply trace_grows_bind; [|intros [e|]; [apply emits_only_halt | apply emits_only_ret]].
    unfold MainGo.setup.
    cbn [MainGo.Install MainGo.ShowFull MainGo.Label MainGo.Delay MainGo.CWD].
    rewrite Hwd, Abs_Some.
    rewrite (bind_ok _ _ _ _ _ (getip_ok env w cwd "10.0.0.5" Hwd Htf Hok)).
    change (String.eqb "10.0.0.5" EmptyString) with false. cbv iota.
    rewrite Hexe, Abs_Some, Hhome. cbv zeta.
    unfold Println. rewrite !bind_emit.
    match goal with
    | |- context [env_create env ?p] =>
        replace (env_create env p) with true by (symmetry; exact Hcreate)
    end.
    cbn [negb]. cbv iota. rewrite bind_emit.
    apply trace_grows; [apply after_create_grows|].
    cbn [trace]. apply in_or_app. right. left. reflexivity.
  - reflexivity.
  - exact HBase.
  - cbn [MainGo.pLabel].
    change (Join [home; "Library/LaunchAgents/"] +:+
            "/" +:+ ("com.test" +:+ "." +:+ "10.0.0.5") +:+ ".plist")
      with (Join [home; "Library/LaunchAgents/"] +:+ "/" +:+ "com.test.10.0.0.5.plist").
    rewrite HBase. vm_compute. reflexivity.
  - reflexivity.
  - vm_compute. reflexivity.
  - rewrite PlistTemplate_StartInterval. eexists. eexists. reflexivity.
Qed.

Lemma install_writes_descriptor_witness :
  MainGo.Install install_config = true /\
  MainGo.ShowFull install_config = false /\
  MainGo.Label install_config = "com.test" /\
  MainGo.Delay install_config = (5 * Minute)%Z /\
  env_getwd sample_env = Some "/home/op/tarsnap" /\
  env_home sample_env = Some "/Users/op" /\
  env_executable sample_env = Some "/home/op/tarsnap/tarsnap" /\
  env_terraform sample_env = TfValue "10.0.0.5" /\
  MainGo.isValidIPv4 sample_env "10.0.0.5" = true /\
  env_create sample_env
    (Join ["/Users/op"; "Library/LaunchAgents/"] +:+ "/" +:+ "com.test.10.0.0.5.plist")
  = true /\
  exists path data,
    In (Create path (Execute MainGo.PlistTemplate data))
       (trace (world_of (MainGo.main sample_env install_config nothing))) /\
    path = Join ["/Users/op"; "Library/LaunchAgents/"] +:+ "/" +:+ "com.test.10.0.0.5.plist" /\
    Base path = "com.test.10.0.0.5.plist" /\
    MainGo.pLabel data = "com.test.10.0.0.5" /\
    MainGo.pIP data = "10.0.0.5" /\
    MainGo.pStartInterval data = "300" /\
    exists before after,
      Execute MainGo.PlistTemplate data =
      before +:+
      ("  <key>StartInterval</key>" +:+ nl +:+ "  <integer>300</integer>" +:+ nl) +:+
      after.
Proof.
  repeat (split; [vm_compute; reflexivity|]).
  apply (install_writes_descriptor sample_env install_config nothing
           "/home/op/tarsnap" "/Users/op" "/home/op/tarsnap/tarsnap");
    vm_compute; reflexivity.
Defined.

(** The run of the sample installation ends well, and the descriptor is
    where the task manager is told to load it from. *)
Lemma sample_install_run :
  exists w',
    MainGo.main sample_env install_config nothing = Ok tt w' /\
    In (Exec "launchctl" ["load"; "/Users/op/Library/LaunchAgents/com.test.10.0.0.5.plist"])
       (trace w').
Proof.
  eexists. split; [vm_compute; reflexivity|]. vm_compute. tauto.
Qed.

(** * Further properties of the code *)

(** ** Reading lines *)

(** X1. [readLines] reads back what was written with [Fprintln], one line
    for each line written: the count is the number of lines written, and the
    lines are the written ones less one carriage return at their end. *)
Theorem readLines_reads_back (lines : list string) :
  Forall (fun l => has_byte LF l = false /\ too_long l = false) lines ->
  readLines (VFile (text lines)) = Some (length lines, map dropCR lines) /\
  (Forall no_CR lines -> readLines (VFile (text lines)) = Some (length lines, lines)).
Proof.
  intros H. unfold readLines. rewrite (scan_lines_text _ H), length_map.
  split; [reflexivity|]. intros Hcr. now rewrite (map_dropCR_no_CR _ Hcr).
Qed.

Lemma readLines_reads_back_witness :
  Forall (fun l => has_byte LF l = false /\ too_long l = false) two_files_lines /\
  readLines (VFile (text two_files_lines))
  = Some (length two_files_lines, map dropCR two_files_lines) /\
  (Forall no_CR two_files_lines ->
   readLines (VFile (text two_files_lines)) = Some (length two_files_lines, two_files_lines)).
Proof.
  assert (Forall (fun l => has_byte LF l = false /\ too_long l = false) two_files_lines)
    as H by (repeat constructor).
  split; [exact H|]. apply (readLines_reads_back two_files_lines). exact H.
Defined.

(** The count that [readLines] returns is the number of lines it returns,
    and none of them holds a line feed. *)
Lemma readLines_count (file : Visit) (n : nat) (lines : list string) :
  readLines file = Some (n, lines) ->
  n = length lines /\ Forall (fun l => has_byte LF l = false) lines.
Proof.
  unfold readLines. destruct file as [c| | |]; try discriminate.
  destruct (scan_lines c) as [ls|] eqn:E; [|discriminate].
  intros [= <- <-]. split; [reflexivity|].
  apply no_LF_of_lines. now apply (scan_lines_lines c).
Qed.

(** ** Counting unique lines *)

Lemma list_to_set_app_string (l1 l2 : list string) :
  (list_to_set (l1 ++ l2) : gset string) = list_to_set l1 ∪ list_to_set l2.
Proof. apply list_to_set_app_L. Qed.

(** X2. The unique count of two sequences put together is at least the
    count of each and at most their sum; putting a sequence after itself
    changes nothing, and the count does not depend on the order of the two. *)
Theorem unique_count_of_concatenation (lines1 lines2 : list string) :
  getUniqueLineCount lines1 <= getUniqueLineCount (lines1 ++ lines2) /\
  getUniqueLineCount lines2 <= getUniqueLineCount (lines1 ++ lines2) /\
  getUniqueLineCount (lines1 ++ lines2)
    <= getUniqueLineCount lines1 + getUniqueLineCount lines2 /\
  getUniqueLineCount (lines1 ++ lines1) = getUniqueLineCount lines1 /\
  getUniqueLineCount (lines1 ++ lines2) = getUniqueLineCount (lines2 ++ lines1).
Proof.
  rewrite !getUniqueLineCount_size, !list_to_set_app_string.
  split; [|split; [|split; [|split]]].
  - apply subseteq_size. set_solver.
  - apply subseteq_size. set_solver.
  - rewrite size_union_alt.
    assert (size ((list_to_set lines2 : gset string) ∖ list_to_set lines1)
            <= size (list_to_set lines2 : gset string))
      by (apply subseteq_size; set_solver).
    lia.
  - f_equal. set_solver.
  - f_equal. set_solver.
Qed.

(** ** The two walks *)

Lemma getUniqueBashLines_reads env logDir w ul w' :
  getUniqueBashLines env logDir w = Ok ul w' ->
  exists root, histdir w = Some root /\ forallb readable (Walk logDir root) = true.
Proof.
  intros H. apply getUniqueBashLines_inv in H as (_ & m & Hm & _).
  apply unique_set_inv in Hm as (root & Hroot & _ & Hall). eauto.
Qed.

(** X3. The aggregation loop of [dowork] and [getUniqueBashLines] succeed
    on the same directories: those that exist and in which every entry of
    the walk can be read.  Otherwise both end the run with a fatal error;
    neither changes the directory or runs anything. *)
Theorem walks_fail_together (env : Env) (logDir : string) (w : World) :
  ((exists st, aggregate logDir w = Ok st w) <->
   (exists ul, getUniqueBashLines env logDir w = Ok ul w)) /\
  ((exists ul, getUniqueBashLines env logDir w = Ok ul w) <->
   (exists root, histdir w = Some root /\ forallb readable (Walk logDir root) = true)) /\
  (forall h w', aggregate logDir w = Stop h w' -> exists msg, h = Fatal msg) /\
  (forall h w', getUniqueBashLines env logDir w = Stop h w' -> exists msg, h = Fatal msg) /\
  world_of (aggregate logDir w) = w /\
  world_of (getUniqueBashLines env logDir w) = w.
Proof.
  assert ((exists ul, getUniqueBashLines env logDir w = Ok ul w) <->
          (exists root, histdir w = Some root /\
                        forallb readable (Walk logDir root) = true)) as Hu.
  { split.
    - intros [ul H]. now apply (getUniqueBashLines_reads env logDir w ul w).
    - intros (root & Hroot & Hall).
      rewrite (getUniqueBashLines_intro env logDir w root Hroot Hall). eauto. }
  split; [|split; [exact Hu|split; [|split; [|split]]]].
  - rewrite Hu. split.
    + intros [st H]. apply aggregate_inv in H as (root & Hroot & _ & _ & Hall). eauto.
    + intros (root & Hroot & Hall).
      destruct (aggregate_intro logDir w root Hroot Hall) as [counts Hc]. eauto.
  - unfold aggregate. intros h w'. destruct (histdir w) as [root|].
    + destruct (foldE aggregate_visit _ _) as [e|st]; [|discriminate].
      intros [= <- _]. eauto.
    + intros [= <- _]. eauto.
  - unfold getUniqueBashLines. intros h w'.
    destruct (unique_set logDir (histdir w)) as [e|m]; [|discriminate].
    intros [= <- _]. eauto.
  - unfold aggregate. destruct (histdir w) as [root|]; [|reflexivity].
    destruct (foldE aggregate_visit _ _); reflexivity.
  - unfold getUniqueBashLines. destruct (unique_set logDir (histdir w)); reflexivity.
Qed.

(** ** The counts of lines per file *)

Lemma aggregate_visit_step st pv st1 :
  aggregate_visit st pv = inr st1 ->
  (pv.2 = VDir /\ st1 = st) \/
  exists c ls, pv.2 = VFile c /\ scan_lines c = Some ls /\
               st1 = (<[pv.1 := length ls]> st.1, st.2 ++ ls).
Proof.
  unfold aggregate_visit, readLines. destruct pv as [p v]. simpl.
  destruct v as [c| | |]; try discriminate.
  - destruct (scan_lines c) as [ls|] eqn:Es; [|discriminate]. intros [= <-]. right.
    exists c, ls. auto.
  - intros [= <-]. now left.
Qed.

Lemma total_count_insert (counts : gmap string nat) (p : string) (n : nat) :
  counts !! p = None -> total_count (<[p := n]> counts) = (n + total_count counts)%nat.
Proof.
  intros H. unfold total_count. apply map_fold_insert_L; [|exact H].
  intros. lia.
Qed.

Lemma counts_outside vs : forall st st' p,
  foldE aggregate_visit st vs = inr st' ->
  ~ In p (file_paths vs) -> st'.1 !! p = st.1 !! p.
Proof.
  induction vs as [|pv vs IH]; intros st st' p H Hp; simpl in H.
  - now injection H as <-.
  - destruct (aggregate_visit st pv) as [e|st1] eqn:E; [discriminate|].
    destruct pv as [q v].
    apply aggregate_visit_step in E as [[Hv ->] | (c & ls & Hv & _ & ->)];
      simpl in Hv; subst v.
    + apply (IH _ _ _ H). exact Hp.
    + rewrite (IH _ _ p H) by (intros Hin; apply Hp; right; exact Hin).
      simpl. apply lookup_insert_ne. intros <-. apply Hp. now left.
Qed.

Lemma counts_values vs : forall st st' p c ls,
  NoDup (file_paths vs) ->
  foldE aggregate_visit st vs = inr st' ->
  In (p, VFile c) vs -> scan_lines c = Some ls ->
  st'.1 !! p = Some (length ls).
Proof.
  induction vs as [|pv vs IH]; intros st st' p c ls Hnd H Hin Hs; simpl in H.
  - contradiction.
  - destruct (aggregate_visit st pv) as [e|st1] eqn:E; [discriminate|].
    destruct pv as [q v].
    apply aggregate_visit_step in E as [[Hv ->] | (c1 & ls1 & Hv & Hs1 & ->)];
      simpl in Hv; subst v.
    + destruct Hin as [[=]|Hin]. now apply (IH _ _ _ _ _ Hnd H Hin).
    + change (file_paths ((q, VFile c1) :: vs)) with (q :: file_paths vs) in Hnd.
      apply NoDup_cons in Hnd as [Hq Hnd]. rewrite list_elem_of_In in Hq.
      destruct Hin as [[= -> ->]|Hin].
      * rewrite (counts_outside _ _ _ _ H Hq). simpl.
        rewrite lookup_insert_eq. congruence.
      * now apply (IH _ _ _ _ _ Hnd H Hin).
Qed.

Lemma counts_keys vs : forall st st' p,
  foldE aggregate_visit st vs = inr st' ->
  is_Some (st'.1 !! p) <-> is_Some (st.1 !! p) \/ In p (file_paths vs).
Proof.
  induction vs as [|pv vs IH]; intros st st' p H; simpl in H.
  - injection H as <-. simpl. tauto.
  - destruct (aggregate_visit st pv) as [e|st1] eqn:E; [discriminate|].
    destruct pv as [q v].
    apply aggregate_visit_step in E as [[Hv ->] | (c1 & ls1 & Hv & Hs1 & ->)];
      simpl in Hv; subst v.
    + apply (IH _ _ p H).
    + rewrite (IH _ _ p H). simpl.
      change (file_paths ((q, VFile c1) :: vs)) with (q :: file_paths vs).
      destruct (decide (q = p)) as [->|Hne].
      * rewrite lookup_insert_eq. simpl. split; [tauto|]. intros _. left. eauto.
      * rewrite lookup_insert_ne by exact Hne. simpl. tauto.
Qed.

Lemma counts_total vs : forall st st',
  NoDup (file_paths vs) ->
  (forall p, In p (file_paths vs) -> st.1 !! p = None) ->
  foldE aggregate_visit st vs = inr st' ->
  total_count st'.1 = (total_count st.1 + length (lines_of vs))%nat.
Proof.
  induction vs as [|pv vs IH]; intros st st' Hnd Hfresh H; simpl in H.
  - injection H as <-. simpl. lia.
  - destruct (aggregate_visit st pv) as [e|st1] eqn:E; [discriminate|].
    destruct pv as [q v].
    apply aggregate_visit_step in E as [[Hv ->] | (c1 & ls1 & Hv & Hs1 & ->)];
      simpl in Hv; subst v.
    + rewrite (IH _ _ Hnd Hfresh H). reflexivity.
    + change (file_paths ((q, VFile c1) :: vs)) with (q :: file_paths vs) in *.
      apply NoDup_cons in Hnd as [Hq Hnd]. rewrite list_elem_of_In in Hq.
      rewrite (IH _ _ Hnd) with (2 := H).
      * simpl fst. rewrite total_count_insert by (apply Hfresh; now left).
        rewrite lines_of_cons. unfold visit_lines. cbn [snd]. rewrite Hs1.
        cbn [default]. unfold id. rewrite length_app. lia.
      * intros p Hp. simpl. rewrite lookup_insert_ne.
        -- apply Hfresh. now right.
        -- intros <-. contradiction.
Qed.

(** X4. [lineCounts] has an entry for each regular file that the walk has
    read and for nothing else, directories in particular.  When the paths
    of the walk are distinct, the entry of a file is the number of its
    lines, and the counts add up to the length of [aggregateLines]. *)
Theorem lineCounts_add_up
    (logDir : string) (w w' : World) (lineCounts : gmap string nat)
    (aggregateLines : list string) :
  aggregate logDir w = Ok (lineCounts, aggregateLines) w' ->
  exists root,
    histdir w = Some root /\
    (forall path, is_Some (lineCounts !! path) <->
                  In path (file_paths (Walk logDir root))) /\
    (NoDup (file_paths (Walk logDir root)) ->
     total_count lineCounts = length aggregateLines /\
     forall path content lines,
       In (path, VFile content) (Walk logDir root) ->
       scan_lines content = Some lines ->
       lineCounts !! path = Some (length lines)).
Proof.
  unfold aggregate. destruct (histdir w) as [root|]; [|discriminate].
  destruct (foldE aggregate_visit (∅, []) (Walk logDir root)) as [e|st] eqn:E;
    [discriminate|].
  intros [= -> _]. exists root. split; [reflexivity|]. split.
  - intros path. rewrite (counts_keys _ _ _ path E). simpl.
    rewrite lookup_empty. split; [intros [[? [=]]|H]; exact H | tauto].
  - intros Hnd. split.
    + pose proof (counts_total _ _ _ Hnd (fun p _ => lookup_empty p) E) as Ht.
      apply foldE_aggregate in E as [Hagg _]. simpl in *.
      rewrite Ht, Hagg. unfold total_count. rewrite map_fold_empty. reflexivity.
    + intros path content lines Hin Hs.
      exact (counts_values _ _ _ path content lines Hnd E Hin Hs).
Qed.

Lemma lineCounts_add_up_witness :
  aggregate "/home/op/tarsnap/data/bash_history" (in_dir two_files)
  = Ok (<["/home/op/tarsnap/data/bash_history/b.txt" := 2%nat]>
          (<["/home/op/tarsnap/data/bash_history/a.txt" := 3%nat]> ∅),
        two_files_lines) (in_dir two_files) /\
  exists root,
    histdir (in_dir two_files) = Some root /\
    (forall path,
       is_Some ((<["/home/op/tarsnap/data/bash_history/b.txt" := 2%nat]>
                   (<["/home/op/tarsnap/data/bash_history/a.txt" := 3%nat]> ∅)
                 : gmap string nat) !! path) <->
       In path (file_paths (Walk "/home/op/tarsnap/data/bash_history" root))) /\
    (NoDup (file_paths (Walk "/home/op/tarsnap/data/bash_history" root)) ->
     total_count (<["/home/op/tarsnap/data/bash_history/b.txt" := 2%nat]>
                    (<["/home/op/tarsnap/data/bash_history/a.txt" := 3%nat]> ∅))
     = length two_files_lines /\
     forall path content lines,
       In (path, VFile content) (Walk "/home/op/tarsnap/data/bash_history" root) ->
       scan_lines content = Some lines ->
       (<["/home/op/tarsnap/data/bash_history/b.txt" := 2%nat]>
          (<["/home/op/tarsnap/data/bash_history/a.txt" := 3%nat]> ∅)
        : gmap string nat) !! path = Some (length lines)).
Proof.
  split.
  - vm_compute. reflexivity.
  - apply (lineCounts_add_up "/home/op/tarsnap/data/bash_history"
             (in_dir two_files) (in_dir two_files)).
    vm_compute. reflexivity.
Defined.

(** ** What the summary holds *)

(** X5. After [generateSummaryFile] of main.go, summary.txt holds each line
    of at least ten bytes that some file of the directory has, once, and
    nothing else. *)
Theorem summary_holds_the_long_lines (env : Env) (logDir : string) (w w' : World) :
  MainGo.generateSummaryFile env logDir w = Ok tt w' ->
  exists root content,
    histdir w = Some root /\
    summary_of w' = Some content /\
    NoDup (raw_lines content) /\
    forall line, In line (raw_lines content) <->
      ((10 <= String.length line)%nat /\
       exists path c lines,
         In (path, VFile c) (Walk logDir root) /\
         scan_lines c = Some lines /\ In line lines).
Proof.
  intros H. apply MainGo_generateSummaryFile_inv in H as (es & m & es' & Hes & Hm & Hc & ->).
  apply create_entry_spec in Hc as (pre & post & -> & _ & Hpre & _ & _).
  apply unique_set_inv in Hm as (root & [= <-] & -> & Hall).
  eexists. eexists. split; [exact Hes|]. split; [now apply summary_of_created|].
  rewrite raw_lines_text
    by apply no_LF_of_lines, summary_lines_lines, range_keys_lines.
  split; [apply NoDup_summary_lines, NoDup_range_keys|].
  intros line. rewrite In_summary_lines, In_range_keys, In_add_lines.
  rewrite (In_lines_of _ line Hall). tauto.
Qed.

Lemma summary_holds_the_long_lines_witness :
  MainGo.generateSummaryFile sample_env "/home/op/tarsnap/data/bash_history"
    (in_dir two_files)
  = Ok tt (world_of (MainGo.generateSummaryFile sample_env
                       "/home/op/tarsnap/data/bash_history" (in_dir two_files))) /\
  exists root content,
    histdir (in_dir two_files) = Some root /\
    summary_of (world_of (MainGo.generateSummaryFile sample_env
                            "/home/op/tarsnap/data/bash_history" (in_dir two_files)))
    = Some content /\
    NoDup (raw_lines content) /\
    forall line, In line (raw_lines content) <->
      ((10 <= String.length line)%nat /\
       exists path c lines,
         In (path, VFile c) (Walk "/home/op/tarsnap/data/bash_history" root) /\
         scan_lines c = Some lines /\ In line lines).
Proof.
  split.
  - vm_compute. reflexivity.
  - apply (summary_holds_the_long_lines sample_env "/home/op/tarsnap/data/bash_history"
             (in_dir two_files)).
    vm_compute. reflexivity.
Defined.

Lemma Part000_generateSummaryFile_inv env logDir w w' :
  Part000.generateSummaryFile env logDir w = Ok tt w' ->
  exists es m es',
    histdir w = Some (Directory es) /\
    unique_set logDir (Some (Directory es)) = inr m /\
    create_entry "summary.txt" (text (range_keys (env_order env) m)) es = Some es' /\
    w' = {| histdir := Some (Directory es'); trace := trace w |}.
Proof.
  unfold Part000.generateSummaryFile, bind.
  destruct (getUniqueBashLines env logDir w) as [ul w1|] eqn:E; [|discriminate].
  apply getUniqueBashLines_inv in E as (-> & m & Hm & ->).
  intros H. apply write_file_inv in H as (es & es' & Hes & Hc & ->).
  rewrite Hes in Hm. eauto 10.
Qed.

(** X6. After [generateSummaryFile] of part_000, the lines of summary.txt
    are the unique lines that [getUniqueBashLines] returns for the directory,
    all of them, in the order of [range], each once. *)
Theorem part000_summary_lists_unique_lines
    (env : Env) (logDir : string) (w w' : World) :
  Part000.generateSummaryFile env logDir w = Ok tt w' ->
  exists uniqueLines content,
    getUniqueBashLines env logDir w = Ok uniqueLines w /\
    summary_of w' = Some content /\
    raw_lines content = uniqueLines /\
    NoDup uniqueLines.
Proof.
  intros H. apply Part000_generateSummaryFile_inv in H as (es & m & es' & Hes & Hm & Hc & ->).
  apply create_entry_spec in Hc as (pre & post & -> & _ & Hpre & _ & _).
  exists (range_keys (env_order env) m), (text (range_keys (env_order env) m)).
  split; [|split; [|split]].
  - unfold getUniqueBashLines. rewrite Hes, Hm. reflexivity.
  - now apply summary_of_created.
  - apply unique_set_inv in Hm as (root & _ & -> & _).
    apply raw_lines_text, no_LF_of_lines, range_keys_lines.
  - apply NoDup_range_keys.
Qed.

Lemma part000_summary_lists_unique_lines_witness :
  Part000.generateSummaryFile sample_env "./data/bash_history" (in_dir two_files)
  = Ok tt (world_of (Part000.generateSummaryFile sample_env "./data/bash_history"
                       (in_dir two_files))) /\
  exists uniqueLines content,
    getUniqueBashLines sample_env "./data/bash_history" (in_dir two_files)
    = Ok uniqueLines (in_dir two_files) /\
    summary_of (world_of (Part000.generateSummaryFile sample_env "./data/bash_history"
                            (in_dir two_files))) = Some content /\
    raw_lines content = uniqueLines /\
    NoDup uniqueLines.
Proof.
  split.
  - vm_compute. reflexivity.
  - apply (part000_summary_lists_unique_lines sample_env "./data/bash_history"
             (in_dir two_files)).
    vm_compute. reflexivity.
Defined.


(** ** The fetch of main.go *)

Lemma emits_only_bind_post {A B} (P : Event -> Prop) (Q : A -> Prop)
    (m : M A) (k : A -> M B) :
  emits_only P m ->
  (forall w a w', m w = Ok a w' -> Q a) ->
  (forall a, Q a -> emits_only P (k a)) ->
  emits_only P (bind m k).
Proof.
  intros Hm HQ Hk w. unfold bind. destruct (Hm w) as (new1 & Ht1 & HP1).
  destruct (m w) as [a w1 | h w1] eqn:E; simpl in Ht1.
  - destruct (Hk a (HQ _ _ _ E) w1) as (new2 & Ht2 & HP2). exists (new1 ++ new2).
    rewrite Ht2, Ht1, app_assoc. split; [reflexivity | now apply Forall_app].
  - exists new1. simpl. auto.
Qed.

Lemma getip_valid (env : Env) (w w' : World) (r : option string) :
  MainGo.getip env w = Ok r w' ->
  forall ip, r = Some ip -> MainGo.isValidIPv4 env ip = true.
Proof.
  unfold MainGo.getip. destruct (env_getwd env) as [cwd|].
  - unfold bind, run_terraform, bind, emit.
    destruct (env_terraform env) as [| |v]; try discriminate.
    unfold ret. destruct (MainGo.isValidIPv4 env v) eqn:Ev; simpl; [|discriminate].
    intros [= <- _] ip [= <-]. exact Ev.
  - unfold Println, bind, emit, ret. intros [= <- _] ip [=].
Qed.

Lemma getip_emits (env : Env) : emits_only (fetch_event env) (MainGo.getip env).
Proof.
  unfold MainGo.getip, run_terraform, Println. destruct (env_getwd env) as [cwd|].
  - apply emits_only_bind.
    + apply emits_only_bind; [apply emits_only_emit; simpl; auto|].
      intros _. destruct (env_terraform env);
        [apply emits_only_halt | apply emits_only_halt | apply emits_only_ret].
    + intros v. destruct (negb (MainGo.isValidIPv4 env v));
        [apply emits_only_halt | apply emits_only_ret].
  - apply emits_only_bind; [apply emits_only_emit; exact I|].
    intros _. apply emits_only_ret.
Qed.

Lemma MainGo_generateSummaryFile_emits (P : Event -> Prop) env logDir :
  emits_only P (MainGo.generateSummaryFile env logDir).
Proof.
  unfold MainGo.generateSummaryFile. apply emits_only_bind.
  - apply emits_only_getUniqueBashLines.
  - intros ul. apply emits_only_write_file.
Qed.

(** X8. Whatever the world answers, [dowork] of main.go runs terraform and
    scp only, and every scp it runs copies the history of root from a host
    whose address has passed [isValidIPv4]; it never runs launchctl and
    never writes a descriptor. *)
Theorem dowork_fetches_from_valid_address (env : Env) (w : World) :
  exists new,
    trace (world_of (MainGo.dowork env w)) = trace w ++ new /\
    Forall (fetch_event env) new.
Proof.
  revert w. change (emits_only (fetch_event env) (MainGo.dowork env)).
  unfold MainGo.dowork. cbv zeta.
  apply (emits_only_bind_post _
           (fun r => forall ip, r = Some ip -> MainGo.isValidIPv4 env ip = true)).
  - apply getip_emits.
  - intros w a w'. apply getip_valid.
  - intros [ip|] Hvalid; [|apply emits_only_halt].
    specialize (Hvalid ip eq_refl). unfold Println.
    destruct (Abs (env_getwd env) "./data/bash_history") as [localDir|].
    + apply emits_only_bind; [apply emits_only_emit; exact I|]. intros _.
      destruct (Abs (env_getwd env) _) as [absLocalFile|]; [|apply emits_only_halt].
      apply emits_only_bind; [apply emits_only_MkdirAll|]. intros _.
      apply emits_only_bind.
      * apply emits_only_run_scp. simpl. right. split; [reflexivity|].
        exists ip. split; [exact Hvalid | reflexivity].
      * intros _. apply emits_only_bind; [apply emits_only_aggregate|].
        intros st. apply MainGo_generateSummaryFile_emits.
    + apply emits_only_bind; [apply emits_only_emit; exact I|]. intros _.
      apply emits_only_halt.
Qed.

Lemma bind_inv {A B} (m : M A) (k : A -> M B) (w w' : World) (b : B) :
  bind m k w = Ok b w' -> exists a w1, m w = Ok a w1 /\ k a w1 = Ok b w'.
Proof.
  unfold bind. destruct (m w) as [a w1|h w1]; [|discriminate]. eauto.
Qed.

Lemma getip_inv (env : Env) (w w1 : World) (r : option string) :
  MainGo.getip env w = Ok r w1 ->
  (r = None /\ env_getwd env = None) \/
  exists cwd ip,
    r = Some ip /\
    env_getwd env = Some cwd /\
    env_terraform env = TfValue ip /\
    MainGo.isValidIPv4 env ip = true /\
    w1 = {| histdir := histdir w;
            trace := trace w ++
              [Exec "terraform"
                 ["-chdir=" +:+ Join [cwd; "./terraform"]; "output"; "-json"]] |}.
Proof.
  unfold MainGo.getip. destruct (env_getwd env) as [cwd|].
  - unfold bind, run_terraform, bind, emit.
    destruct (env_terraform env) as [| |v]; try discriminate.
    unfold ret. destruct (MainGo.isValidIPv4 env v) eqn:Ev; simpl; [|discriminate].
    intros [= <- <-]. right. exists cwd, v. auto 6.
  - unfold Println, bind, emit, ret. intros [= <- _]. now left.
Qed.

Lemma MkdirAll_inv (w w1 : World) :
  MkdirAll w = Ok tt w1 ->
  trace w1 = trace w /\
  histdir w1 = Some (match histdir w with Some d => d | None => Directory [] end) /\
  (forall c, histdir w <> Some (File c)) /\ histdir w <> Some Unreadable.
Proof.
  unfold MkdirAll, set_histdir. destruct w as [[[c| | |es]|] t]; cbn [histdir trace];
    try discriminate; intros [= <-]; cbn [histdir trace]; repeat split; congruence.
Qed.

Lemma MkdirAll_ok (w : World) :
  (forall c, histdir w <> Some (File c)) -> histdir w <> Some Unreadable ->
  MkdirAll w =
  Ok tt {| histdir := Some (match histdir w with Some d => d | None => Directory [] end);
           trace := trace w |}.
Proof.
  intros Hf Hu. unfold MkdirAll, set_histdir. destruct w as [[[c| | |es]|] t]; simpl in *;
    try reflexivity.
  - now destruct (Hf c).
  - now destruct Hu.
Qed.

Lemma capture_is_not_summary (now : string) :
  "bash_history_" +:+ now +:+ ".txt" <> "summary.txt".
Proof. simpl. discriminate. Qed.

(** X9. When scp fails, [dowork] of main.go ends with the fatal error of
    the command: nothing is aggregated and no summary is written; the
    directory of captures is as it was, or has been created empty. *)
Theorem failed_fetch_stops_the_run (env : Env) (w : World) (cwd ip : string) :
  env_getwd env = Some cwd ->
  env_terraform env = TfValue ip ->
  MainGo.isValidIPv4 env ip = true ->
  env_scp env = ScpError ->
  (forall c, histdir w <> Some (File c)) ->
  histdir w <> Some Unreadable ->
  exists w',
    MainGo.dowork env w = Stop (Fatal "Failed to execute command") w' /\
    histdir w' = Some (match histdir w with Some d => d | None => Directory [] end) /\
    summary_of w' = summary_of w /\
    ran "scp" w' = true.
Proof.
  intros Hwd Htf Hok Hscp Hf Hu. unfold MainGo.dowork. cbv zeta.
  rewrite (bind_ok _ _ _ _ _ (getip_ok env w cwd ip Hwd Htf Hok)).
  rewrite Hwd, !Abs_Some. cbv beta iota. unfold Println. rewrite bind_emit.
  cbn [histdir trace].
  match goal with |- context [bind MkdirAll _ ?w2] =>
    rewrite (bind_ok _ _ _ _ _ (MkdirAll_ok w2 Hf Hu)) end.
  cbn [histdir trace].
  unfold run_scp. rewrite Hscp. unfold bind at 1. rewrite bind_emit. unfold halt.
  eexists. split; [reflexivity|]. split; [reflexivity|]. split.
  - unfold summary_of. cbn [histdir]. destruct (histdir w); reflexivity.
  - unfold ran. cbn [trace]. rewrite existsb_app. simpl. apply orb_true_r.
Qed.

Lemma failed_fetch_stops_the_run_witness :
  env_getwd (with_scp sample_env ScpError) = Some "/home/op/tarsnap" /\
  env_terraform (with_scp sample_env ScpError) = TfValue "10.0.0.5" /\
  MainGo.isValidIPv4 (with_scp sample_env ScpError) "10.0.0.5" = true /\
  env_scp (with_scp sample_env ScpError) = ScpError /\
  (forall c, histdir (in_dir two_files) <> Some (File c)) /\
  histdir (in_dir two_files) <> Some Unreadable /\
  exists w',
    MainGo.dowork (with_scp sample_env ScpError) (in_dir two_files)
    = Stop (Fatal "Failed to execute command") w' /\
    histdir w' = Some (match histdir (in_dir two_files) with
                       | Some d => d
                       | None => Directory []
                       end) /\
    summary_of w' = summary_of (in_dir two_files) /\
    ran "scp" w' = true.
Proof.
  split; [reflexivity|]. split; [reflexivity|]. split; [vm_compute; reflexivity|].
  split; [reflexivity|]. split; [simpl; discriminate|]. split; [simpl; discriminate|].
  apply (failed_fetch_stops_the_run (with_scp sample_env ScpError) (in_dir two_files)
           "/home/op/tarsnap" "10.0.0.5").
  - reflexivity.
  - reflexivity.
  - vm_compute. reflexivity.
  - reflexivity.
  - simpl. discriminate.
  - simpl. discriminate.
Defined.

Lemma readable_File_inv (path c : string) :
  forallb readable (Walk path (File c)) = true -> exists ls, scan_lines c = Some ls.
Proof.
  cbn [Walk forallb]. unfold readable, visit_lines. cbn [fst snd].
  destruct (scan_lines c) as [ls|]; [eauto|discriminate].
Qed.

(** X10. A run of [dowork] of main.go that ends well has fetched from the
    address terraform reported, has stored what scp copied under the name
    of the second of the run, and leaves a summary that has every line of
    at least ten bytes of that capture. *)
Theorem dowork_stores_capture_and_summary (env : Env) (w w' : World) :
  MainGo.dowork env w = Ok tt w' ->
  exists ip history lines es' content,
    env_terraform env = TfValue ip /\
    MainGo.isValidIPv4 env ip = true /\
    env_scp env = ScpCopied history /\
    ran "scp" w' = true /\
    histdir w' = Some (Directory es') /\
    In ("bash_history_" +:+ env_now env +:+ ".txt", File history) es' /\
    scan_lines history = Some lines /\
    summary_of w' = Some content /\
    forall line, In line lines -> (10 <= String.length line)%nat ->
                 In line (raw_lines content).
Proof.
  unfold MainGo.dowork. cbv zeta. intros H.
  apply bind_inv in H as (r & w1 & Hip & H).
  apply getip_inv in Hip as [[-> _]|(cwd & ip & -> & Hwd & Htf & Hok & ->)];
    [discriminate|].
  rewrite Hwd, !Abs_Some in H. cbv beta iota in H.
  unfold Println in H. rewrite bind_emit in H. cbn [histdir trace] in H.
  apply bind_inv in H as ([] & w2 & Hmk & H).
  apply MkdirAll_inv in Hmk as (Ht2 & Hd2 & _ & _). cbn [histdir trace] in Ht2, Hd2.
  apply bind_inv in H as ([] & w3 & Hscp & H).
  unfold run_scp in Hscp. rewrite bind_emit in Hscp.
  destruct (env_scp env) as [|history] eqn:Escp; [discriminate|].
  apply write_file_inv in Hscp as (es & es3 & _ & Hc3 & ->).
  cbn [histdir trace] in Hc3.
  apply bind_inv in H as (st & w4 & Hag & H).
  apply aggregate_inv in Hag as (root & _ & -> & _ & _).
  apply MainGo_generateSummaryFile_inv in H as (es4 & m & es' & Hes4 & Hm & Hc & ->).
  cbn [histdir trace] in Hes4, Hm. injection Hes4 as <-.
  apply unique_set_inv in Hm as (root' & [= <-] & -> & Hall).
  assert (Hin3 : In ("bash_history_" +:+ env_now env +:+ ".txt", File history) es3).
  { apply create_entry_spec in Hc3 as (pre & post & -> & _).
    apply in_or_app. right. now left. }
  destruct (readable_File_inv
              (Join [if IsAbs "./data/bash_history" then Clean "./data/bash_history"
                     else Join [cwd; "./data/bash_history"];
                     "bash_history_" +:+ env_now env +:+ ".txt"]) history)
    as [lines Hlines].
  { rewrite readable_Directory_forall in Hall. exact (Hall _ Hin3). }
  pose proof (create_entry_keeps _ _ _ _ _ _ Hc (capture_is_not_summary _) Hin3) as Hin'.
  apply create_entry_spec in Hc as (pre & post & -> & _ & Hpre & _ & _).
  exists ip, history, lines. eexists. eexists.
  split; [exact Htf|]. split; [exact Hok|]. split; [reflexivity|].
  split.
  { unfold ran. cbn [trace]. rewrite Ht2, existsb_app. simpl. apply orb_true_r. }
  split; [reflexivity|]. split; [exact Hin'|]. split; [exact Hlines|].
  split; [now apply summary_of_created|].
  intros line Hl Hlen.
  rewrite raw_lines_text
    by apply no_LF_of_lines, summary_lines_lines, range_keys_lines.
  rewrite In_summary_lines, In_range_keys, In_add_lines. split; [|exact Hlen].
  eapply file_entry_is_read; eassumption.
Qed.

Lemma dowork_stores_capture_and_summary_witness :
  MainGo.dowork sample_env (in_dir two_files)
  = Ok tt (world_of (MainGo.dowork sample_env (in_dir two_files))) /\
  exists ip history lines es' content,
    env_terraform sample_env = TfValue ip /\
    MainGo.isValidIPv4 sample_env ip = true /\
    env_scp sample_env = ScpCopied history /\
    ran "scp" (world_of (MainGo.dowork sample_env (in_dir two_files))) = true /\
    histdir (world_of (MainGo.dowork sample_env (in_dir two_files)))
    = Some (Directory es') /\
    In ("bash_history_" +:+ env_now sample_env +:+ ".txt", File history) es' /\
    scan_lines history = Some lines /\
    summary_of (world_of (MainGo.dowork sample_env (in_dir two_files))) = Some content /\
    forall line, In line lines -> (10 <= String.length line)%nat ->
                 In line (raw_lines content).
Proof.
  split; [vm_compute; reflexivity|].
  apply (dowork_stores_capture_and_summary sample_env (in_dir two_files)).
  vm_compute. reflexivity.
Defined.

(** ** The installation of main.go *)

Lemma getip_emits_any (P : Event -> Prop) (env : Env) :
  (forall args, P (Exec "terraform" args)) -> (forall t, P (Print t)) ->
  emits_only P (MainGo.getip env).
Proof.
  intros Ht Hp. unfold MainGo.getip, run_terraform, Println.
  destruct (env_getwd env) as [cwd|].
  - apply emits_only_bind.
    + apply emits_only_bind; [apply emits_only_emit, Ht|].
      intros _. destruct (env_terraform env);
        [apply emits_only_halt | apply emits_only_halt | apply emits_only_ret].
    + intros v. destruct (negb (MainGo.isValidIPv4 env v));
        [apply emits_only_halt | apply emits_only_ret].
  - apply emits_only_bind; [apply emits_only_emit, Hp|].
    intros _. apply emits_only_ret.
Qed.

Lemma installs_of_emits {A} (m : M A) :
  emits_only asks_or_prints m -> installs_in_order m.
Proof.
  intros H w. destruct (H w) as (new & Ht & HP). exists new. split; [exact Ht|now left].
Qed.

Lemma installs_bind {A B} (m : M A) (k : A -> M B) :
  emits_only asks_or_prints m -> (forall a, installs_in_order (k a)) ->
  installs_in_order (bind m k).
Proof.
  intros Hm Hk w. unfold bind. destruct (Hm w) as (new1 & Ht1 & HP1).
  destruct (m w) as [a w1 | h w1]; simpl in Ht1.
  - destruct (Hk a w1) as (new2 & Ht2 & HP2). exists (new1 ++ new2).
    rewrite Ht2, Ht1, app_assoc. split; [reflexivity|].
    destruct HP2 as [HP2|(before & plist & content & after & -> & Hb & Ha)].
    + left. now apply Forall_app.
    + right. exists (new1 ++ before), plist, content, after.
      rewrite app_assoc. split; [reflexivity|]. split; [now apply Forall_app|exact Ha].
  - exists new1. simpl. split; [exact Ht1|now left].
Qed.

Lemma installs_create {A} (plist content : string) (rest : M A) :
  emits_only (loads plist) rest ->
  installs_in_order (bind (emit (Create plist content)) (fun _ => rest)).
Proof.
  intros Hr w. rewrite bind_emit.
  destruct (Hr {| histdir := histdir w; trace := trace w ++ [Create plist content] |})
    as (new & Ht & HP).
  cbn [trace] in Ht. exists (Create plist content :: new). split.
  - rewrite Ht, <- app_assoc. reflexivity.
  - right. exists [], plist, content, new. split; [reflexivity|]. split; [constructor|exact HP].
Qed.

Lemma searchLaunchdList_loads (env : Env) (task plist : string) :
  emits_only (loads plist) (MainGo.searchLaunchdList env task).
Proof.
  unfold MainGo.searchLaunchdList.
  apply emits_only_bind; [apply emits_only_emit; simpl; auto|].
  intros _. destruct (env_launchctl_list env) as [out|]; [|apply emits_only_halt].
  destruct (find _ _) as [line|].
  - apply emits_only_bind; [apply emits_only_emit; exact I|].
    intros _. apply emits_only_emit. exact I.
  - apply emits_only_emit. exact I.
Qed.

Lemma loadLaunchdTarsnap_loads (env : Env) (task plist : string) :
  emits_only (loads plist) (MainGo.loadLaunchdTarsnap env task plist).
Proof.
  unfold MainGo.loadLaunchdTarsnap.
  apply emits_only_bind; [apply emits_only_emit; exact I|]. intros _.
  apply emits_only_bind; [apply emits_only_emit; simpl; auto|]. intros _.
  destruct (env_launchctl_load env); [apply emits_only_ret|apply emits_only_halt].
Qed.

Local Ltac installs_step :=
  first
    [ apply installs_of_emits;
      first [ apply emits_only_ret | apply emits_only_halt ]
    | apply installs_bind;
      [ first [ apply emits_only_emit; exact I
              | apply emits_only_getUniqueBashLines
              | apply getip_emits_any; [reflexivity | exact (fun _ => I)] ]
      | intros ]
    | match goal with
      | |- installs_in_order (match ?x with _ => _ end) => destruct x eqn:?
      | |- installs_in_order (if ?x then _ else _) => destruct x eqn:?
      end ].

(** X11. Whatever the world answers, [setup] of main.go runs nothing but
    terraform before it writes the descriptor, and after it only launchctl,
    to load the very file it has written and to list the tasks; it never
    runs scp. *)
Theorem setup_writes_before_it_loads (env : Env) (config : MainGo.Config) (w : World) :
  exists new,
    trace (world_of (MainGo.setup env config w)) = trace w ++ new /\
    descriptor_first new.
Proof.
  revert w. change (installs_in_order (MainGo.setup env config)).
  unfold MainGo.setup, Println. cbv zeta.
  destruct (MainGo.ShowFull config).
  - apply installs_bind; [apply emits_only_getUniqueBashLines|]. intros ul.
    apply installs_of_emits, emits_only_prints. exact (fun _ => I).
  - repeat installs_step.
    apply installs_create.
    apply emits_only_bind; [apply loadLaunchdTarsnap_loads|]. intros _.
    apply emits_only_bind; [apply searchLaunchdList_loads|]. intros _.
    apply emits_only_bind; [apply emits_only_emit; exact I|]. intros _.
    apply emits_only_bind; [apply searchLaunchdList_loads|]. intros _.
    apply emits_only_ret.
Qed.











(** ** The listing of -show-full *)

Lemma prints_run {A} (a : A) (lines : list string) (w : World) :
  foldr (fun line rest => bind (emit (Print line)) (fun _ => rest)) (ret a) lines w
  = Ok a {| histdir := histdir w; trace := trace w ++ map Print lines |}.
Proof.
  revert w. induction lines as [|l ls IH]; intros w; cbn [foldr map].
  - unfold ret. rewrite app_nil_r. now destruct w.
  - rewrite bind_emit, IH. cbn [histdir trace]. now rewrite <- app_assoc.
Qed.

(** X13. With -show-full (and -install, in main.go) the program prints the
    lines of the files of ./data/bash_history, each distinct line once and
    short lines too, runs no command, writes no file and ends well; this is
    so in main.go and in part_000. *)
Theorem show_full_lists_each_line_once
    (env : Env) (config : MainGo.Config) (flags : Part000.Flags) (w : World) (root : node) :
  MainGo.Install config = true ->
  MainGo.ShowFull config = true ->
  Part000.showFull flags = true ->
  histdir w = Some root ->
  forallb readable (Walk "./data/bash_history" root) = true ->
  exists printed,
    MainGo.main env config w
    = Ok tt {| histdir := histdir w; trace := trace w ++ map Print printed |} /\
    Part000.main env flags w
    = Ok tt {| histdir := histdir w; trace := trace w ++ map Print printed |} /\
    NoDup printed /\
    forall line, In line printed <-> In line (lines_of (Walk "./data/bash_history" root)).
Proof.
  intros Hi Hs Hs0 Hroot Hall.
  exists (range_keys (env_order env)
            (add_lines ∅ (lines_of (Walk "./data/bash_history" root)))).
  split; [|split; [|split]].
  - unfold MainGo.main, MainGo.setup. rewrite Hi, Hs.
    unfold bind at 1. unfold bind at 1.
    rewrite (getUniqueBashLines_intro env _ w root Hroot Hall), prints_run.
    reflexivity.
  - unfold Part000.main. rewrite Hs0. unfold bind at 1.
    rewrite (getUniqueBashLines_intro env _ w root Hroot Hall), prints_run.
    reflexivity.
  - apply NoDup_range_keys.
  - intros line. now rewrite In_range_keys, In_add_lines.
Qed.

Lemma show_full_lists_each_line_once_witness :
  MainGo.Install show_config = true /\
  MainGo.ShowFull show_config = true /\
  Part000.showFull show_flags_000 = true /\
  histdir (in_dir nested_dir) = Some nested_dir /\
  forallb readable (Walk "./data/bash_history" nested_dir) = true /\
  exists printed,
    MainGo.main sample_env show_config (in_dir nested_dir)
    = Ok tt {| histdir := histdir (in_dir nested_dir);
               trace := trace (in_dir nested_dir) ++ map Print printed |} /\
    Part000.main sample_env show_flags_000 (in_dir nested_dir)
    = Ok tt {| histdir := histdir (in_dir nested_dir);
               trace := trace (in_dir nested_dir) ++ map Print printed |} /\
    NoDup printed /\
    forall line, In line printed <->
                 In line (lines_of (Walk "./data/bash_history" nested_dir)).
Proof.
  split; [reflexivity|]. split; [reflexivity|]. split; [reflexivity|].
  split; [reflexivity|]. split; [vm_compute; reflexivity|].
  apply (show_full_lists_each_line_once sample_env show_config show_flags_000
           (in_dir nested_dir) nested_dir).
  - reflexivity.
  - reflexivity.
  - reflexivity.
  - reflexivity.
  - vm_compute. reflexivity.
Defined.

(** ** Files below sub-directories *)

Lemma contains_file_walk (n : node) (content : string) :
  contains_file n content ->
  forall path, exists p, In (p, VFile content) (Walk path n).
Proof.
  induction 1 as [c|es name child c Hin _ IH]; intros path.
  - exists path. now left.
  - destruct (IH (Join [path; name])) as [p Hp]. exists p.
    rewrite Walk_Directory. right. apply in_flat_map.
    exists (name, child). split; [exact Hin | exact Hp].
Qed.

(** X14. The walk descends: a line of at least ten bytes of a file that
    lies anywhere below the directory, in a sub-directory of any depth, is in
    the summary that [generateSummaryFile] of main.go writes. *)
Theorem nested_files_are_summarised
    (env : Env) (logDir : string) (w w' : World) (root : node)
    (content line : string) (lines : list string) :
  histdir w = Some root ->
  contains_file root content ->
  scan_lines content = Some lines ->
  In line lines ->
  (10 <= String.length line)%nat ->
  MainGo.generateSummaryFile env logDir w = Ok tt w' ->
  exists summary, summary_of w' = Some summary /\ In line (raw_lines summary).
Proof.
  intros Hroot Hc Hs Hl Hlen H.
  apply MainGo_generateSummaryFile_inv in H as (es & m & es' & Hes & Hm & Hcr & ->).
  apply create_entry_spec in Hcr as (pre & post & -> & _ & Hpre & _ & _).
  apply unique_set_inv in Hm as (root' & [= <-] & -> & Hall).
  rewrite Hes in Hroot. injection Hroot as <-.
  eexists. split; [now apply summary_of_created|].
  rewrite raw_lines_text
    by apply no_LF_of_lines, summary_lines_lines, range_keys_lines.
  rewrite In_summary_lines, In_range_keys, In_add_lines. split; [|exact Hlen].
  rewrite (In_lines_of _ line Hall).
  destruct (contains_file_walk _ _ Hc logDir) as [p Hp].
  exists p, content, lines. auto.
Qed.

Lemma nested_files_are_summarised_witness :
  histdir (in_dir nested_dir) = Some nested_dir /\
  contains_file nested_dir (text ["make install-all"]) /\
  scan_lines (text ["make install-all"]) = Some ["make install-all"] /\
  In "make install-all" ["make install-all"] /\
  (10 <= String.length "make install-all")%nat /\
  MainGo.generateSummaryFile sample_env "/home/op/tarsnap/data/bash_history"
    (in_dir nested_dir)
  = Ok tt (world_of (MainGo.generateSummaryFile sample_env
                       "/home/op/tarsnap/data/bash_history" (in_dir nested_dir))) /\
  exists summary,
    summary_of (world_of (MainGo.generateSummaryFile sample_env
                            "/home/op/tarsnap/data/bash_history" (in_dir nested_dir)))
    = Some summary /\
    In "make install-all" (raw_lines summary).
Proof.
  assert (Hc : contains_file nested_dir (text ["make install-all"])).
  { apply (contains_below _ "2023"
             (Directory [("old.txt", File (text ["make install-all"]))])).
    - now left.
    - apply (contains_below _ "old.txt" (File (text ["make install-all"]))).
      + now left.
      + constructor. }
  split; [reflexivity|]. split; [exact Hc|]. split; [vm_compute; reflexivity|].
  split; [now left|]. split; [simpl; lia|]. split; [vm_compute; reflexivity|].
  apply (nested_files_are_summarised sample_env "/home/op/tarsnap/data/bash_history"
           (in_dir nested_dir) _ nested_dir (text ["make install-all"])
           "make install-all" ["make install-all"]).
  - reflexivity.
  - exact Hc.
  - vm_compute. reflexivity.
  - now left.
  - simpl. lia.
  - vm_compute. reflexivity.
Defined.

(** ** Earlier captures *)

Lemma create_entry_others (name c : string) (es es' : list (string * node)) :
  create_entry name c es = Some es' ->
  (forall n x, n <> name -> In (n, x) es <-> In (n, x) es') /\
  (length es <= length es' <= S (length es))%nat.
Proof.
  intros Hc. apply create_entry_spec in Hc as (pre & post & -> & Hshape & _).
  split.
  - intros n x Hne.
    destruct Hshape as [-> | (c0 & ->)]; rewrite !in_app_iff; simpl; split;
      intros [H | H]; auto; destruct H as [[= E _] | H]; auto; congruence.
  - destruct Hshape as [-> | (c0 & ->)]; rewrite !length_app; simpl; lia.
Qed.

(** X15. Captures accumulate: a run of [dowork] of main.go that ends well
    leaves every entry of the directory as it was, but for the capture of
    that second and summary.txt, and adds at most these two. *)
Theorem dowork_keeps_earlier_captures (env : Env) (w w' : World) :
  MainGo.dowork env w = Ok tt w' ->
  (forall n x,
     n <> "bash_history_" +:+ env_now env +:+ ".txt" -> n <> "summary.txt" ->
     In (n, x) (entries w) <-> In (n, x) (entries w')) /\
  (length (entries w) <= length (entries w') <= length (entries w) + 2)%nat.
Proof.
  unfold MainGo.dowork. cbv zeta. intros H.
  apply bind_inv in H as (r & w1 & Hip & H).
  apply getip_inv in Hip as [[-> _]|(cwd & ip & -> & Hwd & Htf & Hok & ->)];
    [discriminate|].
  rewrite Hwd, !Abs_Some in H. cbv beta iota in H.
  unfold Println in H. rewrite bind_emit in H. cbn [histdir trace] in H.
  apply bind_inv in H as ([] & w2 & Hmk & H).
  apply MkdirAll_inv in Hmk as (_ & Hd2 & _ & _). cbn [histdir trace] in Hd2.
  apply bind_inv in H as ([] & w3 & Hscp & H).
  unfold run_scp in Hscp. rewrite bind_emit in Hscp.
  destruct (env_scp env) as [|history] eqn:Escp; [discriminate|].
  apply write_file_inv in Hscp as (es & es3 & He & Hc3 & ->).
  cbn [histdir trace] in He. rewrite Hd2 in He.
  apply bind_inv in H as (st & w4 & Hag & H).
  apply aggregate_inv in Hag as (root & _ & -> & _ & _).
  apply MainGo_generateSummaryFile_inv in H as (es4 & m & es' & Hes4 & _ & Hc & ->).
  cbn [histdir trace] in Hes4. injection Hes4 as <-.
  assert (Hes : entries w = es).
  { unfold entries. destruct (histdir w) as [d|]; injection He; intros; subst;
      reflexivity. }
  rewrite Hes. unfold entries. cbn [histdir].
  apply create_entry_others in Hc3 as [Hin3 Hlen3].
  apply create_entry_others in Hc as [Hin Hlen].
  split.
  - intros n x Hn1 Hn2. now rewrite (Hin3 n x Hn1), (Hin n x Hn2).
  - lia.
Qed.

Lemma dowork_keeps_earlier_captures_witness :
  MainGo.dowork sample_env (in_dir two_files)
  = Ok tt (world_of (MainGo.dowork sample_env (in_dir two_files))) /\
  (forall n x,
     n <> "bash_history_" +:+ env_now sample_env +:+ ".txt" -> n <> "summary.txt" ->
     In (n, x) (entries (in_dir two_files)) <->
     In (n, x) (entries (world_of (MainGo.dowork sample_env (in_dir two_files))))) /\
  (length (entries (in_dir two_files))
   <= length (entries (world_of (MainGo.dowork sample_env (in_dir two_files))))
   <= length (entries (in_dir two_files)) + 2)%nat.
Proof.
  split; [vm_compute; reflexivity|].
  apply (dowork_keeps_earlier_captures sample_env (in_dir two_files)).
  vm_compute. reflexivity.
Defined.

(** ** The label of the descriptor *)

Lemma Ext_plist (n : string) : Ext (n +:+ ".plist") = ".plist".
Proof.
  induction n as [|c n IH]; [reflexivity|].
  cbn [append Ext]. rewrite (has_byte_app dot n ".plist").
  replace (has_byte dot ".plist") with true by reflexivity.
  now rewrite !orb_true_r.
Qed.

Lemma substring_all (s : string) : substring 0 (String.length s) s = s.
Proof. induction s as [|c s IH]; simpl; [reflexivity | now rewrite IH]. Qed.

Lemma substring_app_l (n s : string) : substring 0 (String.length n) (n +:+ s) = n.
Proof.
  induction n as [|c n IH]; simpl; [now destruct s | now rewrite IH].
Qed.

Lemma substring_app_r (n s : string) :
  substring (String.length n) (String.length s) (n +:+ s) = s.
Proof. induction n as [|c n IH]; simpl; [apply substring_all | exact IH]. Qed.

Lemma TrimSuffix_app (n s : string) : TrimSuffix (n +:+ s) s = n.
Proof.
  unfold TrimSuffix, HasSuffix. rewrite str_length_app.
  replace (String.length n + String.length s - String.length s)%nat
    with (String.length n) by lia.
  rewrite substring_app_r, String.eqb_refl, substring_app_l.
  replace (String.length s <=? String.length n + String.length s)%nat with true
    by (symmetry; apply Nat.leb_le; lia).
  reflexivity.
Qed.

Lemma plist_name (n : string) :
  has_byte slash n = false ->
  n +:+ ".plist" <> EmptyString /\ has_byte slash (n +:+ ".plist") = false.
Proof.
  intros Hn. split; [now destruct n|]. rewrite has_byte_app, Hn. reflexivity.
Qed.

(** X16. For every label and address without a slash, the descriptor that
    [setup] of main.go writes is named after the task, label.address.plist in
    the LaunchAgents directory of the user, and the Label in it is
    label.address, also when the label has dots of its own. *)
Theorem descriptor_label_is_the_task
    (env : Env) (config : MainGo.Config) (w : World) (cwd home exePath ip : string) :
  MainGo.ShowFull config = false ->
  env_getwd env = Some cwd ->
  env_home env = Some home ->
  env_executable env = Some exePath ->
  env_terraform env = TfValue ip ->
  MainGo.isValidIPv4 env ip = true ->
  ip <> EmptyString ->
  has_byte slash (MainGo.Label config) = false ->
  has_byte slash ip = false ->
  env_create env
    (Join [home; "Library/LaunchAgents/"] +:+ "/" +:+
     (MainGo.Label config +:+ "." +:+ ip) +:+ ".plist") = true ->
  exists data,
    In (Create (Join [home; "Library/LaunchAgents/"] +:+ "/" +:+
                (MainGo.Label config +:+ "." +:+ ip) +:+ ".plist")
               (Execute MainGo.PlistTemplate data))
       (trace (world_of (MainGo.setup env config w))) /\
    MainGo.pLabel data = MainGo.Label config +:+ "." +:+ ip /\
    MainGo.pIP data = ip.
Proof.
  intros Hshow Hwd Hhome Hexe Htf Hok Hip Hlabel Hslash Hcreate.
  set (task := MainGo.Label config +:+ "." +:+ ip) in *.
  assert (Htask : has_byte slash task = false).
  { unfold task. rewrite has_byte_app, Hlabel. simpl. exact Hslash. }
  destruct (plist_name task Htask) as [Hne Hns].
  assert (HBase : Base (Join [home; "Library/LaunchAgents/"] +:+ "/" +:+ task +:+ ".plist")
                  = task +:+ ".plist").
  { apply (Base_in_dir _ (task +:+ ".plist")); assumption. }
  eexists. split; [|split].
  - unfold MainGo.setup. rewrite Hshow, Hwd, Abs_Some.
    rewrite (bind_ok _ _ _ _ _ (getip_ok env w cwd ip Hwd Htf Hok)).
    apply String.eqb_neq in Hip. rewrite Hip.
    rewrite Hexe, Abs_Some, Hhome. cbv zeta. fold task.
    unfold Println. rewrite !bind_emit.
    rewrite Hcreate. cbn [negb]. cbv iota. rewrite bind_emit.
    apply trace_grows; [apply after_create_grows|].
    cbn [trace]. apply in_or_app. right. left. reflexivity.
  - cbn [MainGo.pLabel]. rewrite HBase, Ext_plist. apply TrimSuffix_app.
  - reflexivity.
Qed.

Lemma descriptor_label_is_the_task_witness :
  MainGo.ShowFull install_config = false /\
  env_getwd sample_env = Some "/home/op/tarsnap" /\
  env_home sample_env = Some "/Users/op" /\
  env_executable sample_env = Some "/home/op/tarsnap/tarsnap" /\
  env_terraform sample_env = TfValue "10.0.0.5" /\
  MainGo.isValidIPv4 sample_env "10.0.0.5" = true /\
  "10.0.0.5" <> EmptyString /\
  has_byte slash (MainGo.Label install_config) = false /\
  has_byte slash "10.0.0.5" = false /\
  env_create sample_env
    (Join ["/Users/op"; "Library/LaunchAgents/"] +:+ "/" +:+
     (MainGo.Label install_config +:+ "." +:+ "10.0.0.5") +:+ ".plist") = true /\
  exists data,
    In (Create (Join ["/Users/op"; "Library/LaunchAgents/"] +:+ "/" +:+
                (MainGo.Label install_config +:+ "." +:+ "10.0.0.5") +:+ ".plist")
               (Execute MainGo.PlistTemplate data))
       (trace (world_of (MainGo.setup sample_env install_config nothing))) /\
    MainGo.pLabel data = MainGo.Label install_config +:+ "." +:+ "10.0.0.5" /\
    MainGo.pIP data = "10.0.0.5".
Proof.
  split; [reflexivity|]. split; [reflexivity|]. split; [reflexivity|].
  split; [reflexivity|]. split; [reflexivity|]. split; [vm_compute; reflexivity|].
  split; [discriminate|]. split; [reflexivity|]. split; [reflexivity|].
  split; [reflexivity|].
  apply (descriptor_label_is_the_task sample_env install_config nothing
           "/home/op/tarsnap" "/Users/op" "/home/op/tarsnap/tarsnap" "10.0.0.5").
  - reflexivity.
  - reflexivity.
  - reflexivity.
  - reflexivity.
  - reflexivity.
  - vm_compute. reflexivity.
  - discriminate.
  - reflexivity.
  - reflexivity.
  - reflexivity.
Defined.

Lemma plist_trim (label ip : string) :
  substring 0 (String.length (label +:+ "." +:+ ip +:+ ".plist") - 6)
            (label +:+ "." +:+ ip +:+ ".plist")
  = label +:+ "." +:+ ip.
Proof.
  replace (label +:+ "." +:+ ip +:+ ".plist")
    with ((label +:+ "." +:+ ip) +:+ ".plist")
    by (rewrite !str_app_assoc; reflexivity).
  rewrite str_length_app.
  replace (String.length (label +:+ "." +:+ ip) + String.length ".plist" - 6)%nat
    with (String.length (label +:+ "." +:+ ip)) by (simpl; lia).
  apply substring_app_l.
Qed.

(** X17. part_001 with -launchd and an address given with -ip prints the
    name of the executable and writes one descriptor, label.address.plist in
    the working directory, whose Label is label.address; the address is not
    checked, and neither terraform, scp nor launchctl is run. *)
Theorem part001_launchd_writes_descriptor_only
    (env : Env) (flags : Part001.Flags) (w : World) (wd exePath : string) :
  Part001.launchd flags = true ->
  Part001.ip flags <> EmptyString ->
  env_getwd env = Some wd ->
  env_executable env = Some exePath ->
  env_create env (Part001.label flags +:+ "." +:+ Part001.ip flags +:+ ".plist") = true ->
  exists data,
    Part001.main env flags w
    = Ok tt {| histdir := histdir w;
               trace := trace w ++
                 [Print (Base exePath);
                  Create (Part001.label flags +:+ "." +:+ Part001.ip flags +:+ ".plist")
                         (Execute Part001.PlistTemplate data)] |} /\
    Part001.pLabel data = Part001.label flags +:+ "." +:+ Part001.ip flags /\
    Part001.pIP data = Part001.ip flags.
Proof.
  intros Hl Hip Hwd Hexe Hcreate. eexists. split; [|split].
  - unfold Part001.main, Part001.resolve_ip. rewrite Hwd, Abs_Some, Hl.
    apply String.eqb_neq in Hip. rewrite Hip. cbn [negb].
    unfold bind at 1. unfold ret at 1. rewrite Hexe. cbv zeta.
    unfold Println. rewrite bind_emit. rewrite Hcreate. cbn [negb].
    unfold emit. cbn [histdir trace strings_Join]. rewrite <- app_assoc. reflexivity.
  - cbn [Part001.pLabel]. apply plist_trim.
  - reflexivity.
Qed.

Lemma part001_launchd_writes_descriptor_only_witness :
  Part001.launchd (ip_flags_001 "not an address" true) = true /\
  Part001.ip (ip_flags_001 "not an address" true) <> EmptyString /\
  env_getwd sample_env = Some "/home/op/tarsnap" /\
  env_executable sample_env = Some "/home/op/tarsnap/tarsnap" /\
  env_create sample_env
    (Part001.label (ip_flags_001 "not an address" true) +:+ "." +:+
     Part001.ip (ip_flags_001 "not an address" true) +:+ ".plist") = true /\
  exists data,
    Part001.main sample_env (ip_flags_001 "not an address" true) nothing
    = Ok tt {| histdir := histdir nothing;
               trace := trace nothing ++
                 [Print (Base "/home/op/tarsnap/tarsnap");
                  Create (Part001.label (ip_flags_001 "not an address" true) +:+ "." +:+
                          Part001.ip (ip_flags_001 "not an address" true) +:+ ".plist")
                         (Execute Part001.PlistTemplate data)] |} /\
    Part001.pLabel data
    = Part001.label (ip_flags_001 "not an address" true) +:+ "." +:+
      Part001.ip (ip_flags_001 "not an address" true) /\
    Part001.pIP data = Part001.ip (ip_flags_001 "not an address" true).
Proof.
  split; [reflexivity|]. split; [discriminate|]. split; [reflexivity|].
  split; [reflexivity|]. split; [reflexivity|].
  apply (part001_launchd_writes_descriptor_only sample_env
           (ip_flags_001 "not an address" true) nothing
           "/home/op/tarsnap" "/home/op/tarsnap/tarsnap").
  - reflexivity.
  - discriminate.
  - reflexivity.
  - reflexivity.
  - reflexivity.
Defined.

(** ** The search in the list of launchctl *)







(** ** The address in the earlier revisions *)

Lemma run_terraform_ok (env : Env) (args : list string) (w : World) (v : string) :
  env_terraform env = TfValue v ->
  run_terraform env args w
  = Ok v {| histdir := histdir w; trace := trace w ++ [Exec "terraform" args] |}.
Proof. intros H. unfold run_terraform. rewrite bind_emit, H. reflexivity. Qed.

Lemma run_scp_runs (env : Env) (args : list string) (capture : string) (w : World) :
  In (Exec "scp" args) (trace (world_of (run_scp env args capture w))).
Proof.
  unfold run_scp. apply trace_grows_bind.
  - cbn. apply in_or_app. right. now left.
  - intros _. destruct (env_scp env);
      [apply emits_only_halt | apply emits_only_write_file].
Qed.

(** X19. The earlier revisions do not look at what terraform reports:
    whatever the value, be it empty or no address at all, part_000 and
    part_001 run scp on root@value. *)
Theorem earlier_revisions_fetch_unchecked
    (env : Env) (flags0 : Part000.Flags) (flags1 : Part001.Flags) (w : World)
    (wd value : string) :
  Part000.showFull flags0 = false ->
  Part000.launchd flags0 = false ->
  Part000.ip flags0 = EmptyString ->
  Part001.launchd flags1 = false ->
  Part001.ip flags1 = EmptyString ->
  env_getwd env = Some wd ->
  env_terraform env = TfValue value ->
  (forall c, histdir w <> Some (File c)) ->
  histdir w <> Some Unreadable ->
  exists dest,
    In (Exec "scp" ["root@" +:+ value +:+ ":~/.bash_history"; dest])
       (trace (world_of (Part000.main env flags0 w))) /\
    In (Exec "scp" ["root@" +:+ value +:+ ":~/.bash_history"; dest])
       (trace (world_of (Part001.main env flags1 w))).
Proof.
  intros Hs0 Hl0 Hi0 Hl1 Hi1 Hwd Htf Hf Hu. eexists. split.
  - unfold Part000.main, Part000.resolve_ip.
    rewrite Hs0, Hwd, Abs_Some, Hi0. cbn [String.eqb negb].
    rewrite (bind_ok _ _ _ _ _ (run_terraform_ok env _ w value Htf)). rewrite Hl0.
    cbv zeta.
    match goal with |- context [bind MkdirAll _ ?w2] =>
      rewrite (bind_ok _ _ _ _ _ (MkdirAll_ok w2 Hf Hu)) end.
    rewrite Abs_Some. cbv beta iota.
    apply trace_grows_bind; [apply run_scp_runs|]. intros _.
    apply emits_only_bind; [apply emits_only_aggregate|]. intros st.
    unfold Part000.generateSummaryFile.
    apply emits_only_bind; [apply emits_only_getUniqueBashLines|]. intros ul.
    apply emits_only_write_file.
  - unfold Part001.main, Part001.resolve_ip.
    rewrite Hwd, Abs_Some, Hi1. cbn [String.eqb negb].
    rewrite (bind_ok _ _ _ _ _ (run_terraform_ok env _ w value Htf)). rewrite Hl1.
    cbv zeta.
    match goal with |- context [bind MkdirAll _ ?w2] =>
      rewrite (bind_ok _ _ _ _ _ (MkdirAll_ok w2 Hf Hu)) end.
    rewrite Abs_Some. cbv beta iota.
    apply run_scp_runs.
Qed.

Lemma earlier_revisions_fetch_unchecked_witness :
  Part000.showFull (ip_flags_000 EmptyString false) = false /\
  Part000.launchd (ip_flags_000 EmptyString false) = false /\
  Part000.ip (ip_flags_000 EmptyString false) = EmptyString /\
  Part001.launchd (ip_flags_001 EmptyString false) = false /\
  Part001.ip (ip_flags_001 EmptyString false) = EmptyString /\
  env_getwd (with_terraform sample_env (TfValue "10.0.0.256")) = Some "/home/op/tarsnap" /\
  env_terraform (with_terraform sample_env (TfValue "10.0.0.256")) = TfValue "10.0.0.256" /\
  (forall c, histdir nothing <> Some (File c)) /\
  histdir nothing <> Some Unreadable /\
  exists dest,
    In (Exec "scp" ["root@" +:+ "10.0.0.256" +:+ ":~/.bash_history"; dest])
       (trace (world_of (Part000.main (with_terraform sample_env (TfValue "10.0.0.256"))
                           (ip_flags_000 EmptyString false) nothing))) /\
    In (Exec "scp" ["root@" +:+ "10.0.0.256" +:+ ":~/.bash_history"; dest])
       (trace (world_of (Part001.main (with_terraform sample_env (TfValue "10.0.0.256"))
                           (ip_flags_001 EmptyString false) nothing))).
Proof.
  split; [reflexivity|]. split; [reflexivity|]. split; [reflexivity|].
  split; [reflexivity|]. split; [reflexivity|]. split; [reflexivity|].
  split; [reflexivity|]. split; [simpl; discriminate|]. split; [simpl; discriminate|].
  apply (earlier_revisions_fetch_unchecked
           (with_terraform sample_env (TfValue "10.0.0.256"))
           (ip_flags_000 EmptyString false) (ip_flags_001 EmptyString false) nothing
           "/home/op/tarsnap" "10.0.0.256").
  - reflexivity.
  - reflexivity.
  - reflexivity.
  - reflexivity.
  - reflexivity.
  - reflexivity.
  - reflexivity.
  - simpl. discriminate.
  - simpl. discriminate.
Defined.

(** ** The summary from one run to the next *)

Lemma lookup_entry_In (name : string) (x : node) (es : list (string * node)) :
  lookup_entry name es = Some x -> In (name, x) es.
Proof.
  induction es as [|[n y] es IH]; simpl; [discriminate|].
  destruct (String.eqb n name) eqn:En.
  - apply String.eqb_eq in En as ->. intros [= ->]. now left.
  - intros H. right. exact (IH H).
Qed.

Lemma summary_of_inv (w : World) (s : string) :
  summary_of w = Some s ->
  exists es, histdir w = Some (Directory es) /\ In ("summary.txt", File s) es.
Proof.
  unfold summary_of. destruct (histdir w) as [[| | |es]|]; try discriminate.
  destruct (lookup_entry "summary.txt" es) as [[c| | |]|] eqn:El; try discriminate.
  intros [= ->]. exists es. split; [reflexivity|]. now apply lookup_entry_In.
Qed.

(** X20. The summary only grows: summary.txt is one of the files the next
    run reads, so after a run of [dowork] of main.go that ends well every
    line of at least ten bytes that the old summary had is in the new one,
    whatever has become of the captures it came from. *)
Theorem summary_only_grows (env : Env) (w w' : World) (old : string) :
  summary_of w = Some old ->
  MainGo.dowork env w = Ok tt w' ->
  exists lines new,
    scan_lines old = Some lines /\
    summary_of w' = Some new /\
    forall line, In line lines -> (10 <= String.length line)%nat ->
                 In line (raw_lines new).
Proof.
  intros Hold. apply summary_of_inv in Hold as (es0 & Hes0 & Hin0).
  unfold MainGo.dowork. cbv zeta. intros H.
  apply bind_inv in H as (r & w1 & Hip & H).
  apply getip_inv in Hip as [[-> _]|(cwd & ip & -> & Hwd & Htf & Hok & ->)];
    [discriminate|].
  rewrite Hwd, !Abs_Some in H. cbv beta iota in H.
  unfold Println in H. rewrite bind_emit in H. cbn [histdir trace] in H.
  apply bind_inv in H as ([] & w2 & Hmk & H).
  apply MkdirAll_inv in Hmk as (_ & Hd2 & _ & _). cbn [histdir trace] in Hd2.
  rewrite Hes0 in Hd2.
  apply bind_inv in H as ([] & w3 & Hscp & H).
  unfold run_scp in Hscp. rewrite bind_emit in Hscp.
  destruct (env_scp env) as [|history] eqn:Escp; [discriminate|].
  apply write_file_inv in Hscp as (es & es3 & He & Hc3 & ->).
  cbn [histdir trace] in He. rewrite Hd2 in He. injection He as <-.
  apply bind_inv in H as (st & w4 & Hag & H).
  apply aggregate_inv in Hag as (root & _ & -> & _ & _).
  apply MainGo_generateSummaryFile_inv in H as (es4 & m & es' & Hes4 & Hm & Hc & ->).
  cbn [histdir trace] in Hes4, Hm. injection Hes4 as <-.
  apply unique_set_inv in Hm as (root' & [= <-] & -> & Hall).
  assert (Hin3 : In ("summary.txt", File old) es3).
  { eapply create_entry_keeps; [exact Hc3 | | exact Hin0].
    intros E. symmetry in E. exact (capture_is_not_summary _ E). }
  destruct (readable_File_inv
              (Join [if IsAbs "./data/bash_history" then Clean "./data/bash_history"
                     else Join [cwd; "./data/bash_history"];
                     "summary.txt"]) old)
    as [lines Hlines].
  { rewrite readable_Directory_forall in Hall. exact (Hall _ Hin3). }
  apply create_entry_spec in Hc as (pre & post & -> & _ & Hpre & _ & _).
  exists lines. eexists.
  split; [exact Hlines|]. split; [now apply summary_of_created|].
  intros line Hl Hlen.
  rewrite raw_lines_text
    by apply no_LF_of_lines, summary_lines_lines, range_keys_lines.
  rewrite In_summary_lines, In_range_keys, In_add_lines. split; [|exact Hlen].
  eapply file_entry_is_read; eassumption.
Qed.

Lemma summary_only_grows_witness :
  summary_of (in_dir summary_alone) = Some (text ["make install-all"]) /\
  MainGo.dowork sample_env (in_dir summary_alone)
  = Ok tt (world_of (MainGo.dowork sample_env (in_dir summary_alone))) /\
  exists lines new,
    scan_lines (text ["make install-all"]) = Some lines /\
    summary_of (world_of (MainGo.dowork sample_env (in_dir summary_alone))) = Some new /\
    forall line, In line lines -> (10 <= String.length line)%nat ->
                 In line (raw_lines new).
Proof.
  split; [reflexivity|]. split; [vm_compute; reflexivity|].
  apply (summary_only_grows sample_env (in_dir summary_alone)).
  - reflexivity.
  - vm_compute. reflexivity.
Defined.
